(** * AmazonPriceAnalysis: a shallow embedding of the scraping client,
      the orchestration service and the analysis engine

    Part I holds the embedding, file by file:

    - [PyStr]      the [str] operations the code relies on
                   ([in], [split], [strip], [join], iteration);
    - [PyVal]      JSON-like dynamic values, truthiness, [dict] access,
                   equality of hashable values, exceptions;
    - [World]      the effects of the program: the environment, the
                   scraping API, the LLM, the pauses, the dashboard
                   output and the product store, threaded through a
                   state-and-exception monad that keeps its log when
                   an exception is raised;
    - [Oxylabs]    [src/oxylabs_client.py];
    - [Db]         the product store behind [src/db.py];
    - [Services]   [src/services.py];
    - [Llm]        [src/llm.py];
    - [Observe]    what can be read off a log;
    - [Wording]    the sentences of the specification, as definitions;
    - [Scenarios]  concrete worlds and services for the examples.

    Part II holds the theorems: [PyStrFacts], [OxylabsFacts],
    [WorldFacts], [ClientRuns], [ScrapeFacts], [ServicesFacts],
    [SearchFacts] and [LlmFacts]. *)

From Stdlib Require Import String Ascii List ZArith Lia Bool Arith.
From Stdlib Require Import Floats.
From Stdlib Require Import Permutation.
Import ListNotations.

Local Open Scope string_scope.
Local Open Scope list_scope.

(* ================================================================== *)
(** * Part I: definitions                                              *)
(* ================================================================== *)

(** ** Python strings

    A [str] is represented by the bytes of its UTF-8 encoding.  The
    separators the code splits on are ASCII, so searching and splitting
    on bytes agrees with searching and splitting on code points;
    [strip] and character iteration decode the multi-byte sequences
    they need. *)
Module PyStr.

(** Whether [s] begins with [p]. *)
Fixpoint starts_with (p s : string) : bool :=
  match p, s with
  | EmptyString, _ => true
  | String _ _, EmptyString => false
  | String a p', String b s' => Ascii.eqb a b && starts_with p' s'
  end.

(** [sep in s] *)
Fixpoint contains (sep s : string) : bool :=
  starts_with sep s
  || match s with
     | String _ s' => contains sep s'
     | EmptyString => false
     end.

(** The part of [s] before the leftmost occurrence of [sep]; all of
    [s] when [sep] does not occur. *)
Fixpoint truncate (sep s : string) : string :=
  match s with
  | EmptyString => EmptyString
  | String c s' =>
      if starts_with sep s then EmptyString
      else String c (truncate sep s')
  end.

(** [s.split(sep)] for a non-empty separator: scans left to right,
    cutting at each occurrence and resuming after it.  [skip] counts
    the bytes of a matched separator still to be passed over, [piece]
    is the piece being collected. *)
Fixpoint split_from (sep : string) (skip : nat) (piece s : string)
  : list string :=
  match s with
  | EmptyString => [piece]
  | String c s' =>
      match skip with
      | S k => split_from sep k piece s'
      | O =>
          if starts_with sep s
          then piece :: split_from sep (String.length sep - 1) "" s'
          else split_from sep 0 (piece ++ String c "") s'
      end
  end.

Definition split (sep s : string) : list string :=
  split_from sep 0 "" s.

(** Whitespace as [str.strip()] understands it: the code points
    U+0009..U+000D, U+001C..U+0020, U+0085, U+00A0, U+1680,
    U+2000..U+200A, U+2028, U+2029, U+202F, U+205F and U+3000, given
    here by their UTF-8 encodings of one, two and three bytes. *)
Definition ws1 (a : ascii) : bool :=
  let n := nat_of_ascii a in
  (((9 <=? n) && (n <=? 13)) || ((28 <=? n) && (n <=? 32)))%nat.

Definition ws2 (a b : ascii) : bool :=
  ((nat_of_ascii a =? 194)
   && ((nat_of_ascii b =? 133) || (nat_of_ascii b =? 160)))%nat.

Definition ws3 (a b c : ascii) : bool :=
  let x := nat_of_ascii a in
  let y := nat_of_ascii b in
  let z := nat_of_ascii c in
  (((x =? 225) && (y =? 154) && (z =? 128))
   || ((x =? 226) && (y =? 128)
       && (((128 <=? z) && (z <=? 138))
           || (z =? 168) || (z =? 169) || (z =? 175)))
   || ((x =? 226) && (y =? 129) && (z =? 159))
   || ((x =? 227) && (y =? 128) && (z =? 128)))%nat.

(** Removes leading whitespace.  With [fwd = false] the string is
    read back to front, so multi-byte sequences arrive reversed. *)
Fixpoint strip_lead (fwd : bool) (s : string) : string :=
  match s with
  | EmptyString => s
  | String a s1 =>
      if ws1 a then strip_lead fwd s1
      else
        match s1 with
        | EmptyString => s
        | String b s2 =>
            if (if fwd then ws2 a b else ws2 b a) then strip_lead fwd s2
            else
              match s2 with
              | EmptyString => s
              | String c s3 =>
                  if (if fwd then ws3 a b c else ws3 c b a)
                  then strip_lead fwd s3
                  else s
              end
        end
  end.

Definition reverse (s : string) : string :=
  string_of_list_ascii (rev (list_ascii_of_string s)).

Definition lstrip (s : string) : string := strip_lead true s.
Definition rstrip (s : string) : string :=
  reverse (strip_lead false (reverse s)).

(** [s.strip()] *)
Definition strip (s : string) : string := rstrip (lstrip s).

(** Number of bytes of the UTF-8 sequence that starts with [a]. *)
Definition seq_len (a : ascii) : nat :=
  let n := nat_of_ascii a in
  if (n <? 192)%nat then 1
  else if (n <? 224)%nat then 2
  else if (n <? 240)%nat then 3 else 4.

(** [for ch in s]: the characters of [s], one string per code point.
    [more] counts the continuation bytes still owed to [piece]. *)
Fixpoint chars_from (more : nat) (piece s : string) : list string :=
  match s with
  | EmptyString =>
      match piece with EmptyString => [] | _ => [piece] end
  | String a s' =>
      match more with
      | S k => chars_from k (piece ++ String a "") s'
      | O =>
          match piece with
          | EmptyString => chars_from (seq_len a - 1) (String a "") s'
          | _ => piece :: chars_from (seq_len a - 1) (String a "") s'
          end
      end
  end.

Definition chars (s : string) : list string := chars_from 0 "" s.

(** [sep.join(parts)] *)
Fixpoint join (sep : string) (parts : list string) : string :=
  match parts with
  | [] => ""
  | [p] => p
  | p :: rest => p ++ sep ++ join sep rest
  end.

Definition is_empty (s : string) : bool :=
  match s with EmptyString => true | _ => false end.

End PyStr.

(** ** Python values

    What [response.json()] can return and what the code builds from it.
    A [dict] keeps its keys in insertion order, as Python does. *)
Module PyVal.

#[warnings="-register-all"] Inductive value : Type :=
| VNone
| VBool (b : bool)
| VInt (n : Z)
| VFloat (x : float)
| VStr (s : string)
| VList (items : list value)
| VDict (fields : list (string * value)).

Inductive exn : Type :=
| HTTPError         (* transport failure or non-success status *)
| TypeError
| AttributeError
| KeyError
| ValidationError   (* the LLM answer does not fit the schema *)
| OverflowError     (* an int too large to convert to float *)
| StreamlitAPIException.  (* a widget key used twice in one run *)

Inductive result (A : Type) : Type :=
| Ok (a : A)
| Raise (e : exn).
Arguments Ok {A} a.
Arguments Raise {A} e.

(** [bool(v)] *)
Definition truthy (v : value) : bool :=
  match v with
  | VNone => false
  | VBool b => b
  | VInt n => negb (n =? 0)%Z
  | VFloat x => negb (x =? 0)%float
  | VStr s => negb (PyStr.is_empty s)
  | VList items => match items with [] => false | _ => true end
  | VDict fields => match fields with [] => false | _ => true end
  end.

(** [a or b] *)
Definition py_or (a b : value) : value := if truthy a then a else b.

(** [d[k]] on the fields of a dict, [None] standing for [KeyError]. *)
Fixpoint lookup (k : string) (fields : list (string * value))
  : option value :=
  match fields with
  | [] => None
  | (k', v) :: rest => if String.eqb k k' then Some v else lookup k rest
  end.

(** [k in d] *)
Definition has_key (k : string) (fields : list (string * value)) : bool :=
  match lookup k fields with Some _ => true | None => false end.

(** [d.get(k, default)] *)
Definition get_default (k : string) (default : value)
           (fields : list (string * value)) : value :=
  match lookup k fields with Some v => v | None => default end.

(** [d.get(k)] *)
Definition get (k : string) (fields : list (string * value)) : value :=
  get_default k VNone fields.

(** [d[k] = v]: an existing key keeps its place, a new one goes last. *)
Fixpoint set (k : string) (v : value) (fields : list (string * value))
  : list (string * value) :=
  match fields with
  | [] => [(k, v)]
  | (k', v') :: rest =>
      if String.eqb k k' then (k, v) :: rest else (k', v') :: set k v rest
  end.

(** [v.get(k)] and [v.get(k, default)] on an arbitrary value: only a
    dict has the method. *)
Definition fields_of (v : value) : result (list (string * value)) :=
  match v with
  | VDict fields => Ok fields
  | _ => Raise AttributeError
  end.

(** [v[k]] where [v] is known to be a dict. *)
Definition item (k : string) (fields : list (string * value))
  : result value :=
  match lookup k fields with Some v => Ok v | None => Raise KeyError end.

(** [iter(v)]: a list yields its items, a dict its keys, a string its
    characters; nothing else is iterable. *)
Definition iterate (v : value) : result (list value) :=
  match v with
  | VList items => Ok items
  | VDict fields => Ok (map (fun kv => VStr (fst kv)) fields)
  | VStr s => Ok (map VStr (PyStr.chars s))
  | _ => Raise TypeError
  end.

(** [v.strip()]: only a string has the method. *)
Definition strip (v : value) : result value :=
  match v with
  | VStr s => Ok (VStr (PyStr.strip s))
  | _ => Raise AttributeError
  end.

(** [hash(v)] succeeds on scalars only. *)
Definition hashable (v : value) : bool :=
  match v with
  | VList _ | VDict _ => false
  | _ => true
  end.

(** Exact comparison of a float with an integer. *)
Definition float_eq_int (x : float) (n : Z) : bool :=
  match Prim2SF x with
  | S754_zero _ => (n =? 0)%Z
  | S754_finite s m e =>
      let v := if s then Z.neg m else Z.pos m in
      if (0 <=? e)%Z then (n =? v * 2 ^ e)%Z
      else (n * 2 ^ (- e) =? v)%Z
  | _ => false
  end.

Definition int_of_bool (b : bool) : Z := if b then 1%Z else 0%Z.

(** [a == b] on hashable values: numbers compare by value across
    [bool], [int] and [float]; strings by content. *)
Definition scalar_eqb (a b : value) : bool :=
  match a, b with
  | VNone, VNone => true
  | VStr s, VStr t => String.eqb s t
  | VBool x, VBool y => Bool.eqb x y
  | VBool x, VInt n | VInt n, VBool x => (int_of_bool x =? n)%Z
  | VBool x, VFloat y | VFloat y, VBool x => float_eq_int y (int_of_bool x)
  | VInt m, VInt n => (m =? n)%Z
  | VInt n, VFloat y | VFloat y, VInt n => float_eq_int y n
  | VFloat x, VFloat y => (x =? y)%float
  | _, _ => false
  end.

(** The float NaN, the one value that is not equal to itself. *)
Definition is_nan (v : value) : bool :=
  match v with
  | VFloat x => negb (x =? x)%float
  | _ => false
  end.

(** [a is b or a == b], the test of a set for its elements.  The
    values the program puts in a set are strings it trimmed and values
    the [json] module parsed; among these only [NaN] is not equal to
    itself, and every [NaN] is the one object the parser hands out
    for it. *)
Definition same (a b : value) : bool :=
  scalar_eqb a b || (is_nan a && is_nan b).

(** [v in s] for a set [s] given by its elements. *)
Definition mem (v : value) (s : list value) : bool :=
  existsb (same v) s.

(** The elements a set keeps when fed [vs] in order: the first of
    each class of equal values. *)
Fixpoint distinct_from (seen vs : list value) : list value :=
  match vs with
  | [] => []
  | v :: rest =>
      if mem v seen then distinct_from seen rest
      else v :: distinct_from (seen ++ [v]) rest
  end.

Definition distinct (vs : list value) : list value := distinct_from [] vs.

(** Sequencing of pure steps that may raise. *)
Definition and_then {A B} (r : result A) (k : A -> result B) : result B :=
  match r with
  | Ok a => k a
  | Raise e => Raise e
  end.

(** [x[:n]] *)
Definition take {A} (n : nat) (xs : list A) : list A := firstn n xs.

(** [float(n)] succeeds: [n] rounds to a finite double, which it does
    below [2^1024 - 2^970] in absolute value. *)
Definition fits_float (n : Z) : bool :=
  (Z.abs n <? 2 ^ 1024 - 2 ^ 970)%Z.

(** [f"{price:,.2f}"] for a price that is an [int] or a [float]: an
    int is converted to a float first, which raises beyond the range
    of floats.  The text itself is left to the interpreter. *)
Definition fixed2 (price : value) : result unit :=
  match price with
  | VInt n => if fits_float n then Ok tt else Raise OverflowError
  | _ => Ok tt
  end.

(** [isinstance(v, (int, float))] *)
Definition is_number (v : value) : bool :=
  match v with
  | VInt _ | VFloat _ | VBool _ => true
  | _ => false
  end.

(** What the interpreter fixes and the program does not: the order in
    which a set hands out its elements, and the text [str()] gives
    for values other than strings and for floats. *)
Record interp : Type := {
  set_order : list value -> list value;
  set_order_perm : forall vs, Permutation (set_order vs) vs;
  repr : value -> string;
  float_str : float -> string
}.

(** [list(set(vs))] for hashable [vs]. *)
Definition list_of_set (I : interp) (vs : list value) : list value :=
  set_order I (distinct vs).

(** [str(v)] *)
Definition str (I : interp) (v : value) : string :=
  match v with
  | VStr s => s
  | _ => repr I v
  end.

End PyVal.
Export PyVal.

(** ** The analysis records of [src/llm.py] *)

(** [class CompetitorInsight(BaseModel)] *)
Record CompetitorInsight : Type := {
  asin : string;
  title : option string;
  price : option float;
  currency : option string;
  rating : option float;
  key_points : list string
}.

(** [class AnalysisOutput(BaseModel)] *)
Record AnalysisOutput : Type := {
  summary : string;
  positioning : string;
  top_competitors : list CompetitorInsight;
  recommendations : list string
}.

(** ** Effects

    The program talks to four things: the process environment, the
    scraping API, the LLM, and the dashboard; it pauses, and it reads
    and writes the product store.  Every such action is appended to a
    log, and the store is what was persisted before followed by what
    the log says was inserted.  An exception leaves the log as it was
    when it was raised. *)
Module World.

Inductive event : Type :=
| EvPost (username password : string) (payload : value)
    (* requests.post(OXYLABS_BASE_URL, auth=..., json=payload) *)
| EvSleep                     (* time.sleep(0.3) *)
| EvUi (what : string) (args : list value)
    (* st.write and the progress widgets; [args] are the values
       interpolated into the message *)
| EvDbGet (asin : value)      (* Database().get_product *)
| EvDbSearch (filter : value) (* Database().search_products *)
| EvDbInsert (record : value) (* Database().insert_product *)
| EvLlm (inputs : value).     (* chain.invoke(inputs) *)

Record world : Type := {
  env : string -> option string;   (* os.environ *)
  persisted : list value;          (* the records stored before the run *)
  log : list event                 (* what happened so far, oldest first *)
}.

(** The records inserted so far. *)
Fixpoint inserted (evs : list event) : list value :=
  match evs with
  | [] => []
  | EvDbInsert record :: rest => record :: inserted rest
  | _ :: rest => inserted rest
  end.

(** The content of the product store, oldest record first. *)
Definition store (w : world) : list value :=
  persisted w ++ inserted (log w).

(** The payloads posted so far. *)
Fixpoint requests (evs : list event) : list value :=
  match evs with
  | [] => []
  | EvPost _ _ payload :: rest => payload :: requests rest
  | _ :: rest => requests rest
  end.

(** The outside services.  The scraping API answers a request given
    the credentials and the requests that preceded it; the LLM chain
    answers its inputs with a parsed [AnalysisOutput] or fails. *)
Record services : Type := {
  api : list value -> string -> string -> value -> result value;
  llm : value -> result AnalysisOutput
}.

Definition M (A : Type) : Type := world -> result A * world.

Definition ret {A} (a : A) : M A := fun w => (Ok a, w).

Definition raise {A} (e : exn) : M A := fun w => (Raise e, w).

Definition bind {A B} (m : M A) (k : A -> M B) : M B :=
  fun w =>
    match m w with
    | (Ok a, w1) => k a w1
    | (Raise e, w1) => (Raise e, w1)
    end.

(** [try: m  except Exception: ...] hands the outcome to the caller. *)
Definition attempt {A} (m : M A) : M (result A) :=
  fun w => let (r, w1) := m w in (Ok r, w1).

(** A pure computation that may raise. *)
Definition lift {A} (r : result A) : M A := fun w => (r, w).

(** The world after [evs] have happened. *)
Definition add_log (evs : list event) (w : world) : world :=
  {| env := env w; persisted := persisted w; log := log w ++ evs |}.

Definition emit (e : event) : M unit :=
  fun w => (Ok tt, add_log [e] w).

Definition getenv (name default : string) : M string :=
  fun w => (Ok match env w name with Some v => v | None => default end, w).

Definition sleep : M unit := emit EvSleep.

Definition ui (what : string) (args : list value) : M unit :=
  emit (EvUi what args).

End World.
Export World.

Declare Scope py_scope.
Delimit Scope py_scope with py.
Notation "x <- m ;; k" := (bind m (fun x => k))
  (at level 61, m at next level, right associativity) : py_scope.
Notation "m ;; k" := (bind m (fun _ => k))
  (at level 61, right associativity) : py_scope.
Local Open Scope py_scope.

(** [for x in xs: s = body(x, s)], the loop's variables threaded as [s]. *)
Fixpoint for_each {X S : Type} (xs : list X) (body : X -> S -> M S) (s : S)
  : M S :=
  match xs with
  | [] => ret s
  | x :: rest => s1 <- body x s ;; for_each rest body s1
  end.

(** Pure loops that may raise. *)
Fixpoint for_pure {X S : Type} (xs : list X) (body : X -> S -> result S)
         (s : S) : result S :=
  match xs with
  | [] => Ok s
  | x :: rest =>
      match body x s with
      | Ok s1 => for_pure rest body s1
      | Raise e => Raise e
      end
  end.
Notation "x <~ r ;; k" := (and_then r (fun x => k))
  (at level 61, r at next level, right associativity) : py_scope.

(** ** [src/oxylabs_client.py] *)
Module Oxylabs.
Section Client.

Variable S : services.

(** [_extract_content(payload)] *)
Definition _extract_content (payload : value) : value :=
  match payload with
  | VDict d =>
      let wrapped :=
        match lookup "results" d with
        | Some (VList (VDict first :: _)) =>
            match lookup "content" first with
            | Some c => Some (py_or c (VDict []))
            | None => None
            end
        | _ => None
        end in
      match wrapped with
      | Some c => c
      | None =>
          if has_key "content" d then py_or (get "content" d) (VDict [])
          else payload
      end
  | _ => payload
  end.

(** [[cat.strip() for cat in content["category_path"] if cat]], guarded
    by [if content.get("category_path")]. *)
Definition category_path_of (content : list (string * value))
  : result (list value) :=
  if truthy (get "category_path" content) then
    cats <~ iterate (get "category_path" content) ;;
    for_pure cats
      (fun cat acc =>
         if truthy cat then (c <~ strip cat ;; Ok (acc ++ [c])) else Ok acc)
      []
  else Ok [].

(** [_normalize_product(content)] *)
Definition _normalize_product (content : value) : result value :=
  c <~ fields_of content ;;
  category_path <~ category_path_of c ;;
  Ok (VDict
        [ ("asin", get "asin" c);
          ("url", get "url" c);
          ("brand", get "brand" c);
          ("price", get "price" c);
          ("stock", get "stock" c);
          ("title", get "title" c);
          ("rating", get "rating" c);
          ("images", get_default "images" (VList []) c);
          ("categories",
            py_or (get_default "category" (VList []) c)
                  (get_default "categories" (VList []) c));
          ("category_path", VList category_path);
          ("currency", get "currency" c);
          ("buybox", get_default "buybox" (VList []) c);
          ("product_overview", get_default "product_overview" (VList []) c) ]).

(** [requests.post(...)], [raise_for_status()] and [response.json()]:
    the request is logged and the API decides the outcome. *)
Definition requests_post (username password : string) (payload : value)
  : M value :=
  fun w =>
    (api S (requests (log w)) username password payload,
     add_log [EvPost username password payload] w).

(** [_post_query(payload)] *)
Definition _post_query (payload : value) : M value :=
  username <- getenv "OXYLABS_USERNAME" "" ;;
  password <- getenv "OXYLABS_PASSWORD" "" ;;
  requests_post (PyStr.strip username) (PyStr.strip password) payload.

Definition product_payload (asin geo_location domain : value) : value :=
  VDict [ ("source", VStr "amazon_product");
          ("query", asin);
          ("geo_location", geo_location);
          ("parse", VBool true);
          ("domain", domain) ].

(** The steps of [scrape_product_details] that follow the request. *)
Definition product_of_response (raw asin geo_location domain : value)
  : result value :=
  let content := _extract_content raw in
  normalized <~ _normalize_product content ;;
  fields <~ fields_of normalized ;;
  let fields :=
    if negb (truthy (get "asin" fields)) then set "asin" asin fields
    else fields in
  let fields := set "amazon_domain" domain fields in
  let fields := set "geo_location" geo_location fields in
  Ok (VDict fields).

(** [scrape_product_details(asin, geo_location, domain)] *)
Definition scrape_product_details (asin geo_location domain : value)
  : M value :=
  raw <- _post_query (product_payload asin geo_location domain) ;;
  lift (product_of_response raw asin geo_location domain).

(** [_clean_search_title(title)] *)
Definition _clean_search_title (title : string) : string :=
  let title :=
    if PyStr.contains " - " title
    then nth 0 (PyStr.split " - " title) ""
    else title in
  let title :=
    if PyStr.contains "|" title
    then nth 0 (PyStr.split "|" title) ""
    else title in
  PyStr.strip title.

(** The same on whatever the stored title is: [in] needs an iterable,
    [strip] a string. *)
Definition clean_search_title_of (title : value) : result string :=
  match title with
  | VStr s => Ok (_clean_search_title s)
  | VList _ | VDict _ => Raise AttributeError
  | _ => Raise TypeError
  end.

(** [_extract_search_results(content)] *)
Definition _extract_search_results (content : value) : result (list value) :=
  match content with
  | VDict c =>
      if has_key "results" c then
        match get "results" c with
        | VDict results =>
            organic <~ (if has_key "organic" results
                        then iterate (get "organic" results) else Ok []) ;;
            paid <~ (if has_key "paid" results
                     then iterate (get "paid" results) else Ok []) ;;
            Ok (organic ++ paid)
        | _ => Ok []
        end
      else
        match lookup "products" c with
        | Some (VList products) => Ok products
        | _ => Ok []
        end
  | _ => Ok []
  end.

(** [_normalize_search_result(item)] *)
Definition _normalize_search_result (item : value) : result (option value) :=
  i <~ fields_of item ;;
  let asin := py_or (get "asin" i) (get "product_asin" i) in
  let title := get "title" i in
  if negb (truthy asin && truthy title) then Ok None
  else Ok (Some (VDict [ ("asin", asin);
                         ("title", title);
                         ("category", get "category" i);
                         ("price", get "price" i);
                         ("rating", get "rating" i) ])).

Definition strategies : list string :=
  ["featured"; "price_asc"; "price_desc"; "avg_rating"].

(** [range(1, max(1, pages) + 1)] *)
Definition page_range (pages : Z) : list Z :=
  map Z.of_nat (seq 1 (Z.to_nat (Z.max 1 pages))).

Definition search_payload (search_title : string) (domain : value)
           (categories : option (list value)) (page : Z) (sort_by : string)
           (geo_location : value) : value :=
  let payload :=
    [ ("source", VStr "amazon_search");
      ("query", VStr search_title);
      ("parse", VBool true);
      ("domain", domain);
      ("page", VInt page);
      ("sort_by", VStr sort_by);
      ("geo_location", geo_location) ] in
  match categories with
  | Some (first :: _) =>
      if truthy first
      then VDict (set "refinements" (VDict [("category", first)]) payload)
      else VDict payload
  | _ => VDict payload
  end.

(** The loop over the items of one result page: [seen_asins] and
    [results] are the loop's variables. *)
Definition collect_item (item : value) (acc : list value * list value)
  : result (list value * list value) :=
  let (seen_asins, results) := acc in
  r <~ _normalize_search_result item ;;
  match r with
  | None => Ok acc
  | Some result =>
      let asin :=
        match result with VDict f => get "asin" f | _ => VNone end in
      if hashable asin then
        if mem asin seen_asins then Ok acc
        else Ok (seen_asins ++ [asin], results ++ [result])
      else Raise TypeError
  end.

(** The body of the inner loop of [search_competitors]. *)
Definition search_page (search_title : string) (domain : value)
           (categories : option (list value)) (geo_location : value)
           (sort_by : string) (page : Z) (acc : list value * list value)
  : M (list value * list value) :=
  raw <- _post_query
           (search_payload search_title domain categories page sort_by
                           geo_location) ;;
  items <- lift (_extract_search_results (_extract_content raw)) ;;
  acc1 <- lift (for_pure items collect_item acc) ;;
  sleep ;;
  ret acc1.

(** [search_competitors(query_title, domain, categories, pages,
    geo_location)] *)
Definition search_competitors (query_title domain : value)
           (categories : option (list value)) (pages : Z)
           (geo_location : value) : M (list value) :=
  ui "Searching for competitors..." [] ;;
  search_title <- lift (clean_search_title_of query_title) ;;
  acc <- for_each strategies
           (fun sort_by acc =>
              for_each (page_range pages)
                (search_page search_title domain categories geo_location
                             sort_by)
                acc)
           ([], []) ;;
  ui "Found {len(results)} competitors"
     [VInt (Z.of_nat (length (snd acc)))] ;;
  ret (snd acc).

(** One turn of the loop of [scrape_multiple_products]: the [try]
    block, then either the pause or the handler, which ends in
    [continue]. *)
Definition scrape_one (total : nat) (geo_location domain : value)
           (entry : nat * value) (products : list value)
  : M (list value) :=
  let (idx, a) := entry in
  outcome <- attempt
    (ui "Processing competitor {idx}/{total}: {a}"
        [VInt (Z.of_nat idx); VInt (Z.of_nat total); a] ;;
     ui "progress_bar.progress(idx/total)"
        [VInt (Z.of_nat idx); VInt (Z.of_nat total)] ;;
     product <- scrape_product_details a geo_location domain ;;
     ui "Found: {product.get('title', a)}"
        [match product with
         | VDict f => get_default "title" a f
         | _ => a
         end] ;;
     ret (products ++ [product])) ;;
  match outcome with
  | Ok products1 =>
      sleep ;;
      ret products1
  | Raise _ =>
      ui "Failed to scrape {a}" [a] ;;
      ret products
  end.

(** [scrape_multiple_products(asins, geo_location, domain)] *)
Definition scrape_multiple_products (asins : list value)
           (geo_location domain : value) : M (list value) :=
  ui "Scraping competitor details..." [] ;;
  ui "st.empty()" [] ;;
  ui "st.progress(0)" [] ;;
  let total := length asins in
  products <- for_each (combine (seq 1 total) asins)
                (scrape_one total geo_location domain) [] ;;
  ui "progress_text.empty()" [] ;;
  ui "progress_bar.empty()" [] ;;
  ui "Successfully scraped {len(products)} out of {total} competitors"
     [VInt (Z.of_nat (length products)); VInt (Z.of_nat total)] ;;
  ret products.

End Client.
End Oxylabs.

(** ** The product store *)
Module Db.

(** [record[k] == v] as the store's queries test it; the program only
    ever queries by a string. *)
Definition field_is (k : string) (v : value) (record : value) : bool :=
  match record with
  | VDict f =>
      match lookup k f with
      | Some x => scalar_eqb x v
      | None => false
      end
  | _ => false
  end.

(** Modelled from the spec: [Database.insert_product] of [src/db.py],
    which is not among the sources.  The record is appended to the
    persisted records and handed back with all its fields. *)
Definition insert_product (record : value) : M value :=
  fun w => (Ok record, add_log [EvDbInsert record] w).

(** Modelled from the spec: [Database.get_product] of [src/db.py],
    which is not among the sources.  The record whose [asin] equals the
    argument, or [None] when there is none. *)
Definition get_product (asin : value) : M value :=
  fun w =>
    (Ok match find (field_is "asin" asin) (store w) with
        | Some record => record
        | None => VNone
        end,
     add_log [EvDbGet asin] w).

(** Modelled from the spec: [Database.search_products] of [src/db.py],
    which is not among the sources.  All records that match every key
    of the filter, in insertion order. *)
Definition search_products (filter : list (string * value))
  : M (list value) :=
  fun w =>
    (Ok (List.filter
           (fun record =>
              forallb (fun kv => field_is (fst kv) (snd kv) record) filter)
           (store w)),
     add_log [EvDbSearch (VDict filter)] w).

End Db.

(** ** [src/services.py] *)
Module Services.
Section Workflows.

Variable S : services.
Variable I : interp.

(** [scrape_and_store_product(asin, geo_location, domain)] *)
Definition scrape_and_store_product (asin geo_location domain : string)
  : M value :=
  data <- Oxylabs.scrape_product_details S (VStr asin) (VStr geo_location)
            (VStr domain) ;;
  Db.insert_product data.

(** [search_categories.extend(str(cat) for cat in parent[k] if cat)],
    guarded by [if parent.get(k)]. *)
Definition categories_from (k : string) (parent : list (string * value))
  : result (list string) :=
  if truthy (get k parent) then
    cats <~ iterate (get k parent) ;;
    Ok (map (str I) (filter truthy cats))
  else Ok [].

(** [list(set(cat.strip() for cat in search_categories
              if cat and isinstance(cat, str) and cat.strip()))] *)
Definition dedup_categories (search_categories : list string) : list value :=
  list_of_set I
    (map (fun cat => VStr (PyStr.strip cat))
       (filter (fun cat => negb (PyStr.is_empty cat)
                           && negb (PyStr.is_empty (PyStr.strip cat)))
          search_categories)).

Definition category_cap : nat := 3.
Definition competitor_cap : nat := 20.

(** [list(set(r.get("asin") for r in all_results
              if r.get("asin") and r.get("asin") != parent_asin))] *)
Definition candidate_asins (parent_asin : string) (all_results : list value)
  : result (list value) :=
  picked <~ for_pure all_results
              (fun r acc =>
                 f <~ fields_of r ;;
                 let a := get "asin" f in
                 if truthy a && negb (scalar_eqb a (VStr parent_asin)) then
                   if hashable a then Ok (acc ++ [a]) else Raise TypeError
                 else Ok acc)
              [] ;;
  Ok (list_of_set I picked).

(** The loop under [# Search in each category]. *)
Definition search_categories_loop (parent : list (string * value))
           (search_domain search_geo : value) (pages : Z)
           (categories : list value) : M (list value) :=
  for_each categories
    (fun category all_results =>
       query_title <- lift (item "title" parent) ;;
       search_results <-
         Oxylabs.search_competitors S query_title search_domain
           (Some [category]) pages search_geo ;;
       ret (all_results ++ search_results))
    [].

(** The loop under [# Store competitors with relationship to parent]. *)
Definition store_competitors (parent_asin : string)
           (product_details : list value) : M (list value) :=
  for_each product_details
    (fun comp stored_competitors =>
       c <- lift (fields_of comp) ;;
       let comp := VDict (set "parent_asin" (VStr parent_asin) c) in
       Db.insert_product comp ;;
       ret (stored_competitors ++ [comp]))
    [].

(** The loop under [# Display competitor summary]. *)
Definition show_summary (stored_competitors : list value) : M unit :=
  ui "Competitor Summary:" [] ;;
  for_each stored_competitors
    (fun comp _ =>
       c <- lift (fields_of comp) ;;
       let price := get_default "price" (VStr "N/A") c in
       let currency := get_default "currency" (VStr "") c in
       (if is_number price then lift (fixed2 price) else ret tt) ;;
       ui "{comp.get('title')} - {price_str}"
          [get "title" c; price; currency])
    tt ;;
  ui "---" [].

(** [fetch_and_store_competitors(parent_asin, domain, geo_location,
    pages)] *)
Definition fetch_and_store_competitors (parent_asin domain
           geo_location : string) (pages : Z) : M (list value) :=
  parent <- Db.get_product (VStr parent_asin) ;;
  if negb (truthy parent) then ret []
  else
    p <- lift (fields_of parent) ;;
    let search_domain := get_default "amazon_domain" (VStr domain) p in
    let search_geo := get_default "geo_location" (VStr geo_location) p in
    ui "Using domain: {search_domain}, location: {search_geo}"
       [search_domain; search_geo] ;;
    from_categories <- lift (categories_from "categories" p) ;;
    from_path <- lift (categories_from "category_path" p) ;;
    let search_categories :=
      dedup_categories (from_categories ++ from_path) in
    all_results <-
      search_categories_loop p search_domain search_geo pages
        (take category_cap search_categories) ;;
    competitor_asins <- lift (candidate_asins parent_asin all_results) ;;
    product_details <-
      Oxylabs.scrape_multiple_products S
        (take competitor_cap competitor_asins) search_geo search_domain ;;
    stored_competitors <- store_competitors parent_asin product_details ;;
    show_summary stored_competitors ;;
    ret stored_competitors.

End Workflows.
End Services.

(** ** [src/llm.py] *)
Module Llm.
Section Analysis.

Variable S : services.
Variable I : interp.

Definition nl : string := String (ascii_of_nat 10) "".

(** [_format_competitors(db, parent_asin)] *)
Definition _format_competitors (parent_asin : string) : M (list value) :=
  comps <- Db.search_products [("parent_asin", VStr parent_asin)] ;;
  lift
    (for_pure comps
       (fun comp acc =>
          c <~ fields_of comp ;;
          asin <~ item "asin" c ;;
          title <~ item "title" c ;;
          price <~ item "price" c ;;
          rating <~ item "rating" c ;;
          Ok (acc ++ [VDict [ ("asin", asin);
                              ("title", title);
                              ("price", price);
                              ("currency", get "currency" c);
                              ("rating", rating);
                              ("amazon_domain", get "amazon_domain" c) ]]))
       []).

(** The mapping handed to [chain.invoke]. *)
Definition chain_inputs (parent_asin : string) (product : value)
           (competitors : list value) : result value :=
  if truthy product then
    p <~ fields_of product ;;
    product_title <~ item "title" p ;;
    Ok (VDict [ ("product_title", product_title);
                ("brand", get "brand" p);
                ("price", get "price" p);
                ("currency", get "currency" p);
                ("rating", get "rating" p);
                ("categories", get "categories" p);
                ("amazon_domain", get "amazon_domain" p);
                ("competitors", VList competitors) ])
  else
    Ok (VDict [ ("product_title", VStr parent_asin);
                ("brand", VNone);
                ("price", VNone);
                ("currency", VStr "");
                ("rating", VNone);
                ("categories", VNone);
                ("amazon_domain", VStr "com");
                ("competitors", VList competitors) ]).

(** [chain.invoke(inputs)]: prompt, GPT-4 call and schema parsing. *)
Definition chain_invoke (inputs : value) : M AnalysisOutput :=
  emit (EvLlm inputs) ;;
  lift (llm S inputs).

(** How an f-string shows an optional field. *)
Definition show_str (o : option string) : string :=
  match o with Some s => s | None => "None" end.

Definition show_float (o : option float) : string :=
  match o with Some x => float_str I x | None => "None" end.

(** [bool(c.price)] *)
Definition price_truthy (o : option float) : bool :=
  match o with Some x => negb (x =? 0)%float | None => false end.

(** [price_str] of the report loop *)
Definition price_str (c : CompetitorInsight) : string :=
  let currency :=
    match currency c with
    | Some s => if negb (PyStr.is_empty s) then s else ""
    | None => ""
    end in
  if negb (PyStr.is_empty currency) && price_truthy (price c)
  then currency ++ " " ++ show_float (price c)
  else if price_truthy (price c) then "$" ++ show_float (price c)
  else "N/A".

(** The line appended for one competitor. *)
Definition competitor_line (c : CompetitorInsight) : string :=
  let pts :=
    match key_points c with
    | [] => ""
    | _ => PyStr.join "; " (key_points c)
    end in
  "- " ++ asin c ++ " | " ++ show_str (title c) ++ " | " ++ price_str c
       ++ " | ‚≠ê " ++ show_float (rating c) ++ " " ++ pts.

(** The lines of the report, before they are joined. *)
Definition report_lines (result : AnalysisOutput) : list string :=
  [ ("Summary:" ++ nl ++ summary result)%string;
    (nl ++ "Positioning:" ++ nl ++ positioning result)%string;
    (nl ++ "Top Competitors:")%string ]
  ++ map competitor_line (take 5 (top_competitors result))
  ++ match recommendations result with
     | [] => []
     | rs =>
         (nl ++ "Recommendations:")%string
         :: map (fun r => ("- " ++ r)%string) rs
     end.

Definition render (result : AnalysisOutput) : string :=
  PyStr.join nl (report_lines result).

Definition no_key_message : string :=
  "Set OPENAI_API_KEY to run LLM analysis.".

(** [analyze_competition(parent_asin)].  The imports that open the
    function body are taken to succeed and to do nothing else. *)
Definition analyze_competition (parent_asin : string) : M string :=
  api_key <- getenv "OPENAI_API_KEY" "" ;;
  let api_key := PyStr.strip api_key in
  if PyStr.is_empty api_key then ret no_key_message
  else
    product <- Db.get_product (VStr parent_asin) ;;
    competitors <- _format_competitors parent_asin ;;
    inputs <- lift (chain_inputs parent_asin product competitors) ;;
    result <- chain_invoke inputs ;;
    ret (render result).

End Analysis.

End Llm.

(** ** Reading a log *)
Module Observe.

(** How many of [evs] satisfy [p]. *)
Definition tally (p : event -> bool) (evs : list event) : nat :=
  length (filter p evs).

(** [payload["source"] == src] *)
Definition source_is (src : string) (payload : value) : bool :=
  match payload with
  | VDict f =>
      match lookup "source" f with
      | Some (VStr s) => String.eqb s src
      | _ => false
      end
  | _ => false
  end.

(** The start of one competitor search, as [search_competitors]
    announces it. *)
Definition is_sweep_start (e : event) : bool :=
  match e with
  | EvUi what _ => String.eqb what "Searching for competitors..."
  | _ => false
  end.

(** A request for the full details of a product. *)
Definition is_detail_request (e : event) : bool :=
  match e with
  | EvPost _ _ payload => source_is "amazon_product" payload
  | _ => false
  end.


(** [m] adds to the log at most [n] events that satisfy [p], touches
    nothing else, and any result it returns satisfies [Q]. *)
Definition within {A} (p : event -> bool) (n : nat) (Q : A -> Prop)
           (m : M A) : Prop :=
  forall w,
  exists evs,
    snd (m w) = add_log evs w
    /\ tally p evs <= n
    /\ forall a, fst (m w) = Ok a -> Q a.

(** What the announcement of one search counts for under [p]. *)
Definition sweep_cost (p : event -> bool) : nat :=
  if p (EvUi "Searching for competitors..." []) then 1 else 0.




Definition is_pause (e : event) : bool :=
  match e with EvSleep => true | _ => false end.

(** The credentials [_post_query] sends in the world [w]. *)
Definition username (w : world) : string :=
  PyStr.strip
    match env w "OXYLABS_USERNAME" with Some v => v | None => "" end.

Definition password (w : world) : string :=
  PyStr.strip
    match env w "OXYLABS_PASSWORD" with Some v => v | None => "" end.

(** What the API answers to [payload] when asked in the world [w]. *)
Definition answer (S : services) (w : world) (payload : value)
  : result value :=
  api S (requests (log w)) (username w) (password w) payload.

(** The results among a list of outcomes, in order. *)
Fixpoint successes {A} (outcomes : list (result A)) : list A :=
  match outcomes with
  | [] => []
  | Ok a :: rest => a :: successes rest
  | Raise _ :: rest => successes rest
  end.

Section Batch.

Variable S : services.
Variables user pass : string.
Variables geo_location domain : value.

(** The outcome of fetching each of [asins] in turn, [history] being
    the requests made before: a fetch succeeds when the API answers and
    the answer can be normalized. *)
Fixpoint fetch_outcomes (history : list value) (asins : list value)
  : list (result value) :=
  match asins with
  | [] => []
  | a :: rest =>
      let payload := Oxylabs.product_payload a geo_location domain in
      (raw <~ api S history user pass payload ;;
       Oxylabs.product_of_response raw a geo_location domain)
      :: fetch_outcomes (history ++ [payload]) rest
  end.

(** What one turn of the batch loop leaves in the log. *)
Definition attempt_events (total idx : nat) (a : value)
           (outcome : result value) : list event :=
  [ EvUi "Processing competitor {idx}/{total}: {a}"
         [VInt (Z.of_nat idx); VInt (Z.of_nat total); a];
    EvUi "progress_bar.progress(idx/total)"
         [VInt (Z.of_nat idx); VInt (Z.of_nat total)];
    EvPost user pass (Oxylabs.product_payload a geo_location domain) ]
  ++ match outcome with
     | Ok product =>
         [ EvUi "Found: {product.get('title', a)}"
                [match product with
                 | VDict f => get_default "title" a f
                 | _ => a
                 end];
           EvSleep ]
     | Raise _ => [ EvUi "Failed to scrape {a}" [a] ]
     end.

Fixpoint batch_events (total idx : nat) (asins : list value)
         (outcomes : list (result value)) : list event :=
  match asins, outcomes with
  | a :: asins', r :: outcomes' =>
      attempt_events total idx a r
      ++ batch_events total (Datatypes.S idx) asins' outcomes'
  | _, _ => []
  end.

End Batch.

End Observe.

(** ** The wording of the specification

    Definitions that follow the sentences of the specification rather
    than the code, to compare the two. *)
Module Wording.

(** "Truncated at the first occurrence of [" - "] if present, else at
    the first occurrence of ["|"] if present, then trimmed." *)
Definition spec_clean_search_title (title : string) : string :=
  PyStr.strip
    (if PyStr.contains " - " title then PyStr.truncate " - " title
     else if PyStr.contains "|" title then PyStr.truncate "|" title
     else title).

(** "The response has a [results] list whose first element has a
    [content] field." *)
Definition results_shape (payload : value) : bool :=
  match payload with
  | VDict d =>
      match lookup "results" d with
      | Some (VList (VDict first :: _)) => has_key "content" first
      | _ => false
      end
  | _ => false
  end.

(** "The response itself has a top-level [content] field." *)
Definition content_shape (payload : value) : bool :=
  match payload with
  | VDict d => has_key "content" d
  | _ => false
  end.

(** "Pauses between attempts regardless of outcome": no two requests
    follow each other without a pause in between.  [pending] tells
    whether a request has been seen since the last pause. *)
Fixpoint paused_from (pending : bool) (evs : list event) : bool :=
  match evs with
  | [] => true
  | EvPost _ _ _ :: rest => negb pending && paused_from true rest
  | EvSleep :: rest => paused_from false rest
  | _ :: rest => paused_from pending rest
  end.

Definition paused_between_attempts (evs : list event) : bool :=
  paused_from false evs.



End Wording.

(** ** Concrete worlds and services, for the examples *)
Module Scenarios.
Import Observe.

(** An excerpt of [float.__repr__], enough for the examples. *)
Definition float_str_excerpt (x : float) : string :=
  match Prim2SF x with
  | S754_zero false => "0.0"
  | S754_zero true => "-0.0"
  | _ => if (x =? 4.5)%float then "4.5"
         else if (x =? 199.5)%float then "199.5"
         else "?"
  end.

(** An interpreter whose sets hand out their elements in insertion
    order. *)
Definition plain : interp :=
  {| set_order := fun vs => vs;
     set_order_perm := fun vs => Permutation_refl vs;
     repr := fun _ => "?";
     float_str := float_str_excerpt |}.

Definition no_llm (inputs : value) : result AnalysisOutput :=
  Raise ValidationError.

(** Nothing stored, nothing configured, nothing logged. *)
Definition blank : world :=
  {| env := fun _ => None; persisted := []; log := [] |}.

(** An API that is down. *)
Definition api_down : services :=
  {| api := fun _ _ _ _ => Raise HTTPError; llm := no_llm |}.

(** An API that fails on its third request and otherwise answers with
    a product that has a title and no [asin]. *)
Definition third_fails : services :=
  {| api := fun history _ _ _ =>
              if (length history =? 2)%nat then Raise HTTPError
              else Ok (VDict [("content", VDict [("title", VStr "item")])]);
     llm := no_llm |}.

(** A store that holds one parent product. *)
Definition with_parent : world :=
  {| env := fun _ => None;
     persisted :=
       [VDict [ ("asin", VStr "B0PARENT");
                ("title", VStr "Desk Lamp - White | LED");
                ("categories", VList [VStr "Lighting"]);
                ("category_path", VList []);
                ("amazon_domain", VStr "eg");
                ("geo_location", VStr "11511") ]];
     log := [] |}.

(** An API whose product answers give a category and no title. *)
Definition api_untitled : services :=
  {| api := fun _ _ _ _ =>
              Ok (VDict [("content",
                          VDict [("category", VList [VStr "Lighting"])])]);
     llm := no_llm |}.

(** A search answer with three hits, the parent among them. *)
Definition search_answer : value :=
  VDict [("results",
          VList [VDict [("content",
            VDict [("results",
              VDict [("organic",
                VList [ VDict [("asin", VStr "B0OTHER1");
                               ("title", VStr "Floor Lamp")];
                        VDict [("asin", VStr "B0PARENT");
                               ("title", VStr "Desk Lamp")];
                        VDict [("asin", VStr "B0OTHER2");
                               ("title", VStr "Wall Lamp")] ])])])]])].

(** An API whose product answers carry a title and no [asin]. *)
Definition api_plain : services :=
  {| api := fun _ _ _ payload =>
              if source_is "amazon_search" payload then Ok search_answer
              else Ok (VDict [("content", VDict [("title", VStr "item")])]);
     llm := no_llm |}.


(** An environment in which the LLM credential is set to blanks. *)
Definition blank_key : world :=
  {| env := fun name =>
              if String.eqb name "OPENAI_API_KEY" then Some "   " else None;
     persisted := [];
     log := [] |}.


(** Six competitors, to see the report stop at five. *)
Definition six_insights : list CompetitorInsight :=
  map (fun n =>
         {| asin := n; title := None; price := Some 199.5%float;
            currency := None; rating := None; key_points := [] |})
      ["B01"; "B02"; "B03"; "B04"; "B05"; "B06"].

(** An LLM chain that answers with a fixed analysis. *)
Definition llm_fixed : services :=
  {| api := fun _ _ _ _ => Raise HTTPError;
     llm := fun _ =>
              Ok {| summary := "Crowded market.";
                    positioning := "Mid-range.";
                    top_competitors := six_insights;
                    recommendations := ["Lower the price."] |} |}.

(** A world whose LLM credential is set. *)
Definition with_key : world :=
  {| env := fun name =>
              if String.eqb name "OPENAI_API_KEY" then Some "sk-test"
              else None;
     persisted := [];
     log := [] |}.

Definition five_asins : list value :=
  [VStr "B01"; VStr "B02"; VStr "B03"; VStr "B04"; VStr "B05"].

(** The [asin] of each record of a list. *)
Definition asins_of (records : list value) : list value :=
  map (fun r => match r with VDict f => get "asin" f | _ => VNone end)
      records.

End Scenarios.

(** ** [main.py]: the dashboard controller

    The widgets are the inputs of the run: what the text fields hold,
    which option is selected, which button was pressed.  The selection
    kept in [st.session_state["analyzing_asin"]] is passed in and
    handed back. *)
Module Dashboard.
Section Controller.

Variable S : services.
Variable I : interp.

(** Whether [st.image] can show what it is given, which is for
    Streamlit and the network to say. *)
Variable can_show : value -> bool.

(** The options of the [Amazon domain] select box. *)
Definition domains : list string :=
  ["eg"; "com"; "ae"; "ca"; "co.uk"; "de"; "fr"; "it"; "es"].

(** [render_inputs()]: [asin_text] and [geo_text] are what the two text
    fields hold, [choice] the position of the selected domain. *)
Definition render_inputs (asin_text geo_text : string) (choice : nat)
  : string * string * string :=
  (PyStr.strip asin_text, PyStr.strip geo_text, nth choice domains "eg").

Definition items_per_page : Z := 5.

(** [max((len(products) + items_per_page - 1) // items_per_page, 1)] *)
Definition total_pages (count : Z) : Z :=
  Z.max ((count + items_per_page - 1) / items_per_page) 1.

(** An index of a slice, brought into [0, len]. *)
Definition clamp (len i : Z) : Z :=
  Z.max 0 (Z.min (if (i <? 0)%Z then i + len else i) len).

(** [xs[start:stop]] *)
Definition slice {A} (start stop : Z) (xs : list A) : list A :=
  let len := Z.of_nat (length xs) in
  let s := clamp len start in
  let e := clamp len stop in
  firstn (Z.to_nat (e - s)) (skipn (Z.to_nat s) xs).

(** The records shown when the page selector holds [page_number]:
    [products[start_idx:end_idx]]. *)
Definition page_items {A} (products : list A) (page_number : Z) : list A :=
  let page := (page_number - 1)%Z in
  let start_idx := (page * items_per_page)%Z in
  let end_idx :=
    Z.min (start_idx + items_per_page) (Z.of_nat (length products)) in
  slice start_idx end_idx products.

(** [images[0]] once [images and len(images) > 0] holds. *)
Definition first_image (images : value) : result value :=
  match images with
  | VList (x :: _) => Ok x
  | VStr s =>
      match PyStr.chars s with
      | c :: _ => Ok (VStr c)
      | [] => Raise KeyError
      end
  | VDict _ => Raise KeyError
  | _ => Raise TypeError
  end.

(** [f"analyze_{product['asin']}"] *)
Definition button_key (asin : value) : string :=
  "analyze_" ++ str I asin.

(** [st.button(label, key=key)].  [used] are the keys of the widgets
    drawn so far in this run: Streamlit refuses a key that is used
    already.  [clicked] is the key of the button that was clicked to
    start the run, if one was. *)
Definition button (key : string) (clicked : option string)
           (used : list string) : M (bool * list string) :=
  if existsb (String.eqb key) used then raise StreamlitAPIException
  else
    ui "button: Analyze Competitors" [VStr key] ;;
    ret (match clicked with
         | Some k => String.eqb k key
         | None => false
         end,
         used ++ [key]).

(** [render_product_card(product)]: the session is given by its
    [analyzing_asin] and by the widget keys of the run. *)
Definition render_product_card (product : value) (clicked : option string)
           (session : option value * list string)
  : M (option value * list string) :=
  let (selection, used) := session in
  shown <- attempt
    (p <- lift (fields_of product) ;;
     let images := get_default "images" (VList []) p in
     if truthy images then
       image <- lift (first_image images) ;;
       if can_show image then ui "image" [image]
       else raise StreamlitAPIException
     else ui "info: No image available" []) ;;
  match shown with
  | Ok _ => ret tt
  | Raise _ => ui "error: Error loading image" []
  end ;;
  p <- lift (fields_of product) ;;
  (if truthy (get "title" p) then ui "subheader" [get "title" p]
   else
     a <- lift (item "asin" p) ;;
     ui "subheader: Product: {product['asin']}" [a]) ;;
  let currency := get_default "currency" (VStr "EGP") p in
  let price := get_default "price" (VStr "-") p in
  (if is_number price then lift (fixed2 price) else ret tt) ;;
  ui "metric: Price {display_price}" [currency; price] ;;
  ui "markdown: Brand" [get_default "brand" (VStr "-") p] ;;
  ui "markdown: Stock" [get_default "stock" (VStr "-") p] ;;
  ui "caption: amazon.{amazon_domain} | Location: {geo_location}"
     [get_default "amazon_domain" (VStr "eg") p;
      get_default "geo_location" (VStr "Egypt") p] ;;
  ui "write: [View on Amazon]({url})" [get_default "url" (VStr "#") p] ;;
  a <- lift (item "asin" p) ;;
  drawn <- button (button_key a) clicked used ;;
  let (pressed, used1) := drawn in
  if pressed then
    chosen <- lift (item "asin" p) ;;
    ret (Some chosen, used1)
  else ret (selection, used1).

(** [for p in products[start_idx:end_idx]: render_product_card(p)] *)
Definition render_cards (cards : list value) (clicked : option string)
           (session : option value * list string)
  : M (option value * list string) :=
  for_each cards (fun p session => render_product_card p clicked session)
           session.

Definition exn_name (e : exn) : string :=
  match e with
  | HTTPError => "HTTPError"
  | TypeError => "TypeError"
  | AttributeError => "AttributeError"
  | KeyError => "KeyError"
  | ValidationError => "ValidationError"
  | OverflowError => "OverflowError"
  | StreamlitAPIException => "StreamlitAPIException"
  end.

(** The block under [# Scrape Action] of [main()]: [pressed] tells
    whether [Scrape Product Details] was pressed. *)
Definition scrape_action (pressed : bool) (asin geo domain : string)
           (selection : option value) : M (option value) :=
  if pressed && negb (PyStr.is_empty asin) then
    ui "spinner: Scraping {asin} from amazon.{domain}..."
       [VStr asin; VStr domain] ;;
    outcome <- attempt
      (Services.scrape_and_store_product S asin geo domain ;;
       ui "success: Product {asin} saved to local database." [VStr asin]) ;;
    match outcome with
    | Ok _ => ret None
    | Raise e =>
        ui "error: Scraping failed: {str(e)}" [VStr (exn_name e)] ;;
        ret selection
    end
  else ret selection.

(** The block under [# Competitor Analysis Section] of [main()]:
    [selected_asin] is the session's selection, [refresh] and [analyze]
    tell whether [Refresh Data] and [Run AI Price Analysis] were
    pressed.  The result tells whether [st.rerun()] ended the run. *)
Definition deep_dive (selected_asin : option string) (domain geo : string)
           (refresh analyze : bool) : M bool :=
  match selected_asin with
  | None => ret false
  | Some selected =>
      if PyStr.is_empty selected then ret false
      else
        ui "divider" [] ;;
        ui "subheader: Competition Deep-Dive: {selected_asin}"
           [VStr selected] ;;
        existing_comps <-
          Db.search_products [("parent_asin", VStr selected)] ;;
        match existing_comps with
        | [] =>
            ui "spinner: Searching for competitors in Egypt market..." [] ;;
            comps <- Services.fetch_and_store_competitors S I selected
                       domain geo 2 ;;
            ui "success: Discovered {len(comps)} new competitors."
               [VInt (Z.of_nat (length comps))]
        | _ =>
            ui "info: Loaded {len(existing_comps)} competitors from local cache."
               [VInt (Z.of_nat (length existing_comps))]
        end ;;
        if refresh then
          ui "spinner: Updating competitor prices..." [] ;;
          Services.fetch_and_store_competitors S I selected domain geo 2 ;;
          ret true
        else if analyze then
          ui "spinner: LLM is processing market trends..." [] ;;
          analysis_text <- Llm.analyze_competition S I selected ;;
          ui "info: AI Analysis Result:" [] ;;
          ui "markdown" [VStr analysis_text] ;;
          ret false
        else ret false
  end.

End Controller.
End Dashboard.

(** ** Properties of runs *)
Module Trace.

Definition is_post (e : event) : bool :=
  match e with EvPost _ _ _ => true | _ => false end.

Definition is_insert (e : event) : bool :=
  match e with EvDbInsert _ => true | _ => false end.

Definition is_llm_call (e : event) : bool :=
  match e with EvLlm _ => true | _ => false end.

(** [m] touches nothing but the log, every event it adds satisfies
    [P], and any result it returns satisfies [Q]. *)
Definition sound {A} (P : event -> Prop) (Q : A -> Prop) (m : M A) : Prop :=
  forall w,
  exists evs,
    snd (m w) = add_log evs w
    /\ Forall P evs
    /\ forall a, fst (m w) = Ok a -> Q a.

(** [m] touches nothing but the log, and any result it returns stands
    in the relation [R] to the events it added. *)
Definition yields {A} (R : A -> list event -> Prop) (m : M A) : Prop :=
  forall w,
  exists evs,
    snd (m w) = add_log evs w
    /\ forall a, fst (m w) = Ok a -> R a evs.

(** The keys of a record, in order. *)
Definition keys (fields : list (string * value)) : list string :=
  map fst fields.

(** The [asin] of each record of a list. *)
Definition asins_of (records : list value) : list value :=
  map (fun r => match r with VDict f => get "asin" f | _ => VNone end)
      records.

(** A request, if [e] is one, is made for the domain [d] and the
    location [g]. *)
Definition in_context (d g : value) (e : event) : Prop :=
  match e with
  | EvPost _ _ (VDict f) =>
      lookup "domain" f = Some d /\ lookup "geo_location" f = Some g
  | EvPost _ _ _ => False
  | _ => True
  end.

(** The record has the four keys [_format_competitors] indexes. *)
Definition has_report_keys (record : value) : bool :=
  match record with
  | VDict f =>
      has_key "asin" f && has_key "title" f && has_key "price" f
      && has_key "rating" f
  | _ => false
  end.

(** The insertion of a record that lacks one of those keys. *)
Definition is_short_insert (e : event) : bool :=
  match e with
  | EvDbInsert record => negb (has_report_keys record)
  | _ => false
  end.

(** One turn of the loop of [_format_competitors]. *)
Definition format_one (comp : value) (acc : list value)
  : result (list value) :=
  (c <~ fields_of comp ;;
   asin <~ item "asin" c ;;
   title <~ item "title" c ;;
   price <~ item "price" c ;;
   rating <~ item "rating" c ;;
   Ok (acc ++ [VDict [ ("asin", asin);
                       ("title", title);
                       ("price", price);
                       ("currency", get "currency" c);
                       ("rating", rating);
                       ("amazon_domain", get "amazon_domain" c) ]]))%py.


(** The competitors of [parent_asin] in the store of [w]. *)
Definition competitors_of (parent_asin : string) (w : world) : list value :=
  filter (Db.field_is "parent_asin" (VStr parent_asin)) (store w).

(** The record is a dict with an [asin]. *)
Definition has_asin (record : value) : bool :=
  match record with
  | VDict f => has_key "asin" f
  | _ => false
  end.

(** The record has a truthy title. *)
Definition titled (record : value) : bool :=
  match record with
  | VDict f => truthy (get "title" f)
  | _ => false
  end.

(** The price the card shows can be formatted: it is not an int
    beyond the range of floats. *)
Definition price_fits (record : value) : bool :=
  match record with
  | VDict f =>
      match get_default "price" (VStr "-") f with
      | VInt n => fits_float n
      | _ => true
      end
  | _ => true
  end.

(** The key of the button on the card of [record]. *)
Definition card_key (I : interp) (record : value) : string :=
  match record with
  | VDict f => Dashboard.button_key I (get "asin" f)
  | _ => Dashboard.button_key I VNone
  end.

(** [key] is not among the keys [used]. *)
Definition fresh (key : string) (used : list string) : bool :=
  negb (existsb (String.eqb key) used).

(** What drawing the card of a dict [record] comes to, read off
    [render_product_card] step by step: the subheader needs a title
    or an [asin], then the price is formatted, then the button needs
    the [asin] and a key that is not used yet. *)
Definition card_outcome (I : interp) (record : value)
           (clicked : option string) (session : option value * list string)
  : result (option value * list string) :=
  let key := card_key I record in
  if negb (has_asin record) && negb (titled record) then Raise KeyError
  else if negb (price_fits record) then Raise OverflowError
  else if negb (has_asin record) then Raise KeyError
  else if negb (fresh key (snd session)) then Raise StreamlitAPIException
  else
    Ok (match clicked with
        | Some k =>
            if String.eqb k key
            then Some (match record with
                       | VDict f => get "asin" f
                       | _ => VNone
                       end)
            else fst session
        | None => fst session
        end,
        snd session ++ [key]).

(** How many times one run of the deep-dive block calls
    [fetch_and_store_competitors]: once when the selection has no
    competitor in the store, once more when [Refresh Data] was
    pressed. *)
Definition discoveries (selected_asin : option string) (refresh : bool)
           (w : world) : nat :=
  match selected_asin with
  | None => 0
  | Some selected =>
      if PyStr.is_empty selected then 0
      else
        (match competitors_of selected w with [] => 1 | _ => 0 end)
        + (if refresh then 1 else 0)
  end.

End Trace.

(* ================================================================== *)
(** * Part II: theorems                                                *)
(* ================================================================== *)

(** ** Strings *)
Module PyStrFacts.
Import PyStr.

Lemma append_empty_r (s : string) : (s ++ "")%string = s.
Proof. induction s as [|c s IH]; simpl; [reflexivity | now rewrite IH]. Qed.

Lemma append_assoc (a b c : string) :
  ((a ++ b) ++ c)%string = (a ++ (b ++ c))%string.
Proof. induction a as [|x a IH]; simpl; [reflexivity | now rewrite IH]. Qed.

Lemma prefix_iff (p s : string) :
  starts_with p s = true <-> exists r, s = (p ++ r)%string.
Proof.
  revert s; induction p as [|a p IH]; intros s; simpl.
  - split; [intros _; now exists s | intros _; reflexivity].
  - destruct s as [|b s].
    + split; [discriminate | intros [r Hr]; discriminate].
    + rewrite andb_true_iff, Ascii.eqb_eq, IH. split.
      * intros [-> [r ->]]. now exists r.
      * intros [r Hr]. injection Hr; intros -> ->. split; [reflexivity|].
        now exists r.
Qed.

(** [sep in s] holds exactly when [s] can be cut around [sep]. *)
Lemma contains_iff (sep s : string) :
  contains sep s = true <-> exists a b, s = (a ++ sep ++ b)%string.
Proof.
  induction s as [|c s IH]; cbn [contains].
  - rewrite orb_false_r, prefix_iff. split.
    + intros [r Hr]. now exists "", r.
    + intros [a [b Hab]]. destruct a; [now exists b | discriminate].
  - rewrite orb_true_iff, prefix_iff, IH. split.
    + intros [[r Hr] | [a [b Hab]]].
      * now exists "", r.
      * exists (String c a), b. simpl. now rewrite Hab.
    + intros [a [b Hab]]. destruct a as [|x a]; simpl in Hab.
      * left. now exists b.
      * right. injection Hab; intros E _. now exists a, b.
Qed.

(** Without an occurrence nothing is cut off. *)
Lemma truncate_absent (sep s : string) :
  contains sep s = false -> truncate sep s = s.
Proof.
  induction s as [|c s IH]; cbn [contains truncate]; [reflexivity|].
  intros H. apply orb_false_iff in H as [Hp Hc].
  rewrite Hp. now rewrite IH.
Qed.

(** With an occurrence, the separator follows what is kept. *)
Lemma truncate_occurs (sep s : string) :
  contains sep s = true ->
  exists rest, s = (truncate sep s ++ sep ++ rest)%string.
Proof.
  induction s as [|c s IH]; cbn [contains truncate].
  - rewrite orb_false_r. intros H.
    apply prefix_iff in H as [r Hr]. now exists r.
  - intros H. destruct (starts_with sep (String c s)) eqn:Hp.
    + apply prefix_iff in Hp as [r Hr]. now exists r.
    + simpl in H. destruct (IH H) as [rest Hrest].
      exists rest. simpl. now rewrite <- Hrest.
Qed.

(** The occurrence cut at is the leftmost one. *)
Lemma truncate_leftmost (sep a b : string) :
  String.length (truncate sep (a ++ sep ++ b)) <= String.length a.
Proof.
  induction a as [|c a IH].
  - change ("" ++ sep ++ b)%string with (sep ++ b)%string.
    destruct (sep ++ b)%string as [|x r] eqn:E; cbn [truncate]; [simpl; lia|].
    assert (Hp : starts_with sep (String x r) = true).
    { apply prefix_iff. now exists b. }
    rewrite Hp. simpl. lia.
  - change (String c a ++ sep ++ b)%string
      with (String c (a ++ sep ++ b))%string.
    cbn [truncate].
    destruct (starts_with sep (String c (a ++ sep ++ b))); simpl; lia.
Qed.

(** The first piece of a split is what [truncate] keeps. *)
Lemma split_from_head (sep piece s : string) :
  nth 0 (split_from sep 0 piece s) "" = (piece ++ truncate sep s)%string.
Proof.
  revert piece; induction s as [|c s IH]; intros piece;
    cbn [split_from truncate].
  - simpl. now rewrite append_empty_r.
  - destruct (starts_with sep (String c s)).
    + simpl. now rewrite append_empty_r.
    + rewrite IH, append_assoc. reflexivity.
Qed.

Lemma split_head (sep s : string) :
  nth 0 (split sep s) "" = truncate sep s.
Proof. unfold split. now rewrite split_from_head. Qed.

End PyStrFacts.

(** ** The scraping client: the pure operations *)
Module OxylabsFacts.
Import Oxylabs Wording.

Example split_and_strip :
  PyStr.split " - " "a - b - " = ["a"; "b"; ""]
  /\ PyStr.strip "  Wireless Mouse  " = "Wireless Mouse"
  /\ PyStr.chars "ab" = ["a"; "b"].
Proof. repeat split; reflexivity. Qed.

(** C8, as amended.  [_clean_search_title] cuts the title at the
    leftmost [" - "] when there is one, then cuts what is left at the
    leftmost ["|"] when there is one, whether or not [" - "] was found,
    and trims the result; ["Wireless Mouse - Black | 2.4GHz"] cleans to
    ["Wireless Mouse"]. *)
Theorem clean_search_title_cuts_both :
  (forall title : string,
     _clean_search_title title
     = PyStr.strip (PyStr.truncate "|" (PyStr.truncate " - " title)))
  /\ _clean_search_title "Wireless Mouse - Black | 2.4GHz" = "Wireless Mouse".
Proof.
  split; [|reflexivity].
  intros title. unfold _clean_search_title.
  rewrite !PyStrFacts.split_head.
  destruct (PyStr.contains " - " title) eqn:Hdash.
  - destruct (PyStr.contains "|" (PyStr.truncate " - " title)) eqn:Hbar;
      [reflexivity|].
    now rewrite (PyStrFacts.truncate_absent _ _ Hbar).
  - rewrite (PyStrFacts.truncate_absent _ _ Hdash).
    destruct (PyStr.contains "|" title) eqn:Hbar; [reflexivity|].
    now rewrite (PyStrFacts.truncate_absent _ _ Hbar).
Qed.

(** The reading of the specification, under which ["|"] is looked for
    only when [" - "] is absent, differs from the code on a title that
    has a ["|"] before its first [" - "]. *)
Lemma clean_search_title_not_either_or :
  _clean_search_title "A | B - C" = "A"
  /\ spec_clean_search_title "A | B - C" = "A | B"
  /\ _clean_search_title "A | B - C" <> spec_clean_search_title "A | B - C".
Proof. repeat split; try reflexivity. vm_compute. discriminate. Qed.

(** C3.  A response of the first shape, whatever else it holds and
    even when it has a top-level [content] as well, gives the
    [content] of its first result; a response of the second shape and
    not of the first gives its top-level [content]; in both a mapping
    comes back as it is and a null content comes back as the empty
    mapping, so the two shapes give the same mapping for the same
    inner content.  A response of neither shape is returned as it is.
    Every response is of one of these three kinds. *)
Theorem extract_content_envelopes :
  (forall d first rest content,
      lookup "results" d = Some (VList (VDict first :: rest)) ->
      lookup "content" first = Some content ->
      _extract_content (VDict d) = py_or content (VDict [])
      /\ (forall C, content = VDict C -> _extract_content (VDict d) = VDict C)
      /\ (content = VNone -> _extract_content (VDict d) = VDict []))
  /\ (forall d content,
         results_shape (VDict d) = false ->
         lookup "content" d = Some content ->
         _extract_content (VDict d) = py_or content (VDict [])
         /\ (forall C, content = VDict C ->
                       _extract_content (VDict d) = VDict C)
         /\ (content = VNone -> _extract_content (VDict d) = VDict []))
  /\ (forall d1 first rest d2 C,
         lookup "results" d1 = Some (VList (VDict first :: rest)) ->
         lookup "content" first = Some (VDict C) ->
         results_shape (VDict d2) = false ->
         lookup "content" d2 = Some (VDict C) ->
         _extract_content (VDict d1) = VDict C
         /\ _extract_content (VDict d2) = VDict C)
  /\ (forall payload : value,
         results_shape payload = false ->
         content_shape payload = false ->
         _extract_content payload = payload)
  /\ (forall payload : value,
         results_shape payload = true ->
         exists d first rest content,
           payload = VDict d
           /\ lookup "results" d = Some (VList (VDict first :: rest))
           /\ lookup "content" first = Some content)
  /\ (forall payload : value,
         content_shape payload = true ->
         exists d content,
           payload = VDict d /\ lookup "content" d = Some content).
Proof.
  assert (Hmap : forall C, py_or (VDict C) (VDict []) = VDict C)
    by (intros [|kv C]; reflexivity).
  assert (Hfirst : forall d first rest content,
             lookup "results" d = Some (VList (VDict first :: rest)) ->
             lookup "content" first = Some content ->
             _extract_content (VDict d) = py_or content (VDict [])).
  { intros d first rest content Hr Hc. unfold _extract_content.
    now rewrite Hr, Hc. }
  assert (Hsecond : forall d content,
             results_shape (VDict d) = false ->
             lookup "content" d = Some content ->
             _extract_content (VDict d) = py_or content (VDict [])).
  { intros d content Hr Hc. unfold _extract_content, results_shape in *.
    assert (Hget : get "content" d = content)
      by (unfold get, get_default; now rewrite Hc).
    assert (Hkey : has_key "content" d = true)
      by (unfold has_key; now rewrite Hc).
    destruct (lookup "results" d)
      as [[| | | | |[|[| | | | | |first] rest]|]|];
      rewrite ?Hkey, ?Hget; try reflexivity.
    unfold has_key in Hr.
    destruct (lookup "content" first); [discriminate | reflexivity]. }
  split; [|split; [|split; [|split; [|split]]]].
  - intros d first rest content Hr Hc.
    rewrite (Hfirst _ _ _ _ Hr Hc). split; [reflexivity|].
    split; [intros C ->; apply Hmap | now intros ->].
  - intros d content Hr Hc. rewrite (Hsecond _ _ Hr Hc).
    split; [reflexivity|].
    split; [intros C ->; apply Hmap | now intros ->].
  - intros d1 first rest d2 C Hr1 Hc1 Hr2 Hc2.
    rewrite (Hfirst _ _ _ _ Hr1 Hc1), (Hsecond _ _ Hr2 Hc2).
    split; apply Hmap.
  - intros payload Hr Hc.
    destruct payload as [| | | | |items|d]; try reflexivity.
    unfold _extract_content, results_shape, content_shape in *.
    rewrite Hc.
    destruct (lookup "results" d)
      as [[| | | | |[|[| | | | | |first] rest]|]|]; try reflexivity.
    unfold has_key in Hr.
    destruct (lookup "content" first); [discriminate | reflexivity].
  - intros payload Hr.
    destruct payload as [| | | | |items|d]; try discriminate.
    unfold results_shape, has_key in Hr.
    destruct (lookup "results" d)
      as [[| | | | |[|[| | | | | |first] rest]|]|] eqn:Hres;
      try discriminate.
    destruct (lookup "content" first) as [content|] eqn:Hcontent;
      [|discriminate].
    now exists d, first, rest, content.
  - intros payload Hc.
    destruct payload as [| | | | |items|d]; try discriminate.
    unfold content_shape, has_key in Hc.
    destruct (lookup "content" d) as [content|] eqn:Hcontent;
      [|discriminate].
    now exists d, content.
Qed.

Lemma extract_content_envelopes_witness :
  _extract_content
    (VDict [ ("job", VDict [("id", VStr "7"); ("status", VStr "done")]);
             ("content", VStr "stale");
             ("results",
              VList [ VDict [ ("status_code", VInt 200);
                              ("content", VDict [("asin", VStr "B01")]) ];
                      VDict [("content", VDict [("asin", VStr "B02")])] ]) ])
  = VDict [("asin", VStr "B01")]
  /\ _extract_content
       (VDict [ ("status_code", VInt 200);
                ("results", VList []);
                ("content", VDict [("asin", VStr "B01")]) ])
     = VDict [("asin", VStr "B01")]
  /\ _extract_content (VDict [("products", VList [])])
     = VDict [("products", VList [])].
Proof.
  split; [|split].
  - apply (proj1 (proj2 (proj1 extract_content_envelopes
             [ ("job", VDict [("id", VStr "7"); ("status", VStr "done")]);
               ("content", VStr "stale");
               ("results",
                VList [ VDict [ ("status_code", VInt 200);
                                ("content", VDict [("asin", VStr "B01")]) ];
                        VDict [("content",
                                VDict [("asin", VStr "B02")])] ]) ]
             [ ("status_code", VInt 200);
               ("content", VDict [("asin", VStr "B01")]) ]
             [VDict [("content", VDict [("asin", VStr "B02")])]]
             (VDict [("asin", VStr "B01")])
             eq_refl eq_refl))).
    reflexivity.
  - apply (proj1 (proj2 (proj1 (proj2 extract_content_envelopes)
             [ ("status_code", VInt 200);
               ("results", VList []);
               ("content", VDict [("asin", VStr "B01")]) ]
             (VDict [("asin", VStr "B01")])
             eq_refl eq_refl))).
    reflexivity.
  - apply (proj1 (proj2 (proj2 (proj2 extract_content_envelopes))));
      reflexivity.
Defined.

End OxylabsFacts.

(** ** Logs and runs *)
Module WorldFacts.
Import Observe.

Lemma add_log_nil (w : world) : add_log [] w = w.
Proof. destruct w; unfold add_log; simpl. now rewrite app_nil_r. Qed.

Lemma add_log_app (a b : list event) (w : world) :
  add_log b (add_log a w) = add_log (a ++ b) w.
Proof. unfold add_log; simpl. now rewrite app_assoc. Qed.

Lemma requests_app (a b : list event) :
  requests (a ++ b) = requests a ++ requests b.
Proof.
  induction a as [|e a IH]; simpl; [reflexivity|].
  destruct e; simpl; now rewrite IH.
Qed.

Lemma tally_app (p : event -> bool) (a b : list event) :
  tally p (a ++ b) = tally p a + tally p b.
Proof. unfold tally. now rewrite filter_app, length_app. Qed.

Lemma answer_add_log (S : services) (evs : list event) (w : world)
      (payload : value) :
  requests evs = [] -> answer S (add_log evs w) payload = answer S w payload.
Proof.
  intros H. unfold answer, add_log, username, password; simpl.
  now rewrite requests_app, H, app_nil_r.
Qed.

Lemma username_add_log (evs : list event) (w : world) :
  username (add_log evs w) = username w.
Proof. reflexivity. Qed.

Lemma password_add_log (evs : list event) (w : world) :
  password (add_log evs w) = password w.
Proof. reflexivity. Qed.

(** *** Composing bounds on what is logged *)

Section Within.

Variable p : event -> bool.

Lemma within_ret {A} (Q : A -> Prop) (a : A) : Q a -> within p 0 Q (ret a).
Proof.
  intros HQ w. exists []. cbn. rewrite add_log_nil.
  repeat split; [lia|]. now intros a' [= <-].
Qed.

Lemma within_raise {A} (Q : A -> Prop) (e : exn) : within p 0 Q (raise e).
Proof.
  intros w. exists []. cbn. rewrite add_log_nil.
  repeat split; [lia | discriminate].
Qed.

Lemma within_lift {A} (Q : A -> Prop) (r : result A) :
  (forall a, r = Ok a -> Q a) -> within p 0 Q (lift r).
Proof.
  intros HQ w. exists []. cbn. rewrite add_log_nil.
  repeat split; [lia | exact HQ].
Qed.

Lemma within_getenv (Q : string -> Prop) (name default : string) :
  (forall v, Q v) -> within p 0 Q (getenv name default).
Proof.
  intros HQ w. exists []. cbn. rewrite add_log_nil.
  repeat split; [lia | intros a _; apply HQ].
Qed.

Lemma within_emit (e : event) :
  within p (if p e then 1 else 0) (fun _ => True) (emit e).
Proof.
  intros w. exists [e]. cbn. repeat split.
  unfold tally. cbn. destruct (p e); cbn; lia.
Qed.

Lemma within_quiet (e : event) :
  p e = false -> within p 0 (fun _ => True) (emit e).
Proof.
  intros H. pose proof (within_emit e) as W. now rewrite H in W.
Qed.

Lemma within_weaken {A} (n n' : nat) (Q Q' : A -> Prop) (m : M A) :
  n <= n' -> (forall a, Q a -> Q' a) -> within p n Q m -> within p n' Q' m.
Proof.
  intros Hn HQ W w. destruct (W w) as [evs [Hw [Ht Ha]]].
  exists evs. repeat split; [assumption | lia | auto].
Qed.

Lemma within_bind {A B} (n k : nat) (Q : A -> Prop) (R : B -> Prop)
      (m : M A) (f : A -> M B) :
  within p n Q m ->
  (forall a, Q a -> within p k R (f a)) ->
  within p (n + k) R (bind m f).
Proof.
  intros Wm Wf w. destruct (Wm w) as [evs1 [Hw [Ht Ha]]].
  unfold bind. destruct (m w) as [[a|e] w1]; cbn [fst snd] in *.
  - destruct (Wf a (Ha a eq_refl) w1) as [evs2 [Hw2 [Ht2 Ha2]]].
    subst w1. exists (evs1 ++ evs2). rewrite Hw2, add_log_app, tally_app.
    repeat split; [lia | assumption].
  - exists evs1. cbn. repeat split; [assumption | lia | discriminate].
Qed.

Lemma within_attempt {A} (n : nat) (Q : A -> Prop) (m : M A) :
  within p n Q m ->
  within p n (fun r => forall a, r = Ok a -> Q a) (attempt m).
Proof.
  intros W w. destruct (W w) as [evs [Hw [Ht Ha]]].
  exists evs. unfold attempt. destruct (m w) as [r w1]; cbn [fst snd] in *.
  repeat split; [assumption | assumption |].
  intros r' [= <-]. exact Ha.
Qed.

Lemma within_for_each {X St} (n : nat) (Inv : St -> Prop) (xs : list X)
      (body : X -> St -> M St) :
  (forall x s, In x xs -> Inv s -> within p n Inv (body x s)) ->
  forall s, Inv s -> within p (length xs * n) Inv (for_each xs body s).
Proof.
  induction xs as [|x xs IH]; intros Hbody s Hs; cbn [for_each length].
  - now apply within_ret.
  - cbn [Nat.mul]. apply within_bind with (Q := Inv).
    + apply Hbody; [now left | assumption].
    + intros s1 Hs1. apply IH; [|assumption].
      intros y s' Hy. apply Hbody. now right.
Qed.

End Within.

End WorldFacts.

(** ** The scraping client: runs *)
Module ClientRuns.
Import Oxylabs Observe WorldFacts.

Section Runs.

Variable S : services.

Lemma post_query_run (payload : value) (w : world) :
  _post_query S payload w
  = (answer S w payload,
     add_log [EvPost (username w) (password w) payload] w).
Proof. reflexivity. Qed.

Lemma scrape_product_details_run (a geo dom : value) (w : world) :
  scrape_product_details S a geo dom w
  = (raw <~ answer S w (product_payload a geo dom) ;;
     product_of_response raw a geo dom,
     add_log [EvPost (username w) (password w) (product_payload a geo dom)]
       w).
Proof.
  unfold scrape_product_details, bind. rewrite post_query_run.
  destruct (answer S w (product_payload a geo dom)); reflexivity.
Qed.

Lemma scrape_one_run (total idx : nat) (a geo dom : value)
      (products : list value) (w : world) :
  let outcome := (raw <~ answer S w (product_payload a geo dom) ;;
                  product_of_response raw a geo dom) in
  scrape_one S total geo dom (idx, a) products w
  = (Ok match outcome with
        | Ok product => products ++ [product]
        | Raise _ => products
        end,
     add_log (attempt_events (username w) (password w) geo dom total idx a
                             outcome) w).
Proof.
  intros outcome. unfold scrape_one, attempt, bind, ui, emit, sleep, emit, ret.
  rewrite scrape_product_details_run, !add_log_app.
  rewrite answer_add_log by reflexivity. fold outcome.
  destruct outcome as [product|e]; simpl; rewrite !add_log_app; reflexivity.
Qed.

Lemma requests_attempt (u p : string) (geo dom : value) (total idx : nat)
      (a : value) (r : result value) :
  requests (attempt_events u p geo dom total idx a r)
  = [product_payload a geo dom].
Proof. destruct r; reflexivity. Qed.

Lemma batch_loop_run (total : nat) (geo dom : value) (asins : list value) :
  forall (i : nat) (products : list value) (w : world),
    let outs := fetch_outcomes S (username w) (password w) geo dom
                  (requests (log w)) asins in
    for_each (combine (seq i (length asins)) asins)
      (scrape_one S total geo dom) products w
    = (Ok (products ++ successes outs),
       add_log (batch_events (username w) (password w) geo dom total i asins
                             outs) w).
Proof.
  induction asins as [|a asins IH]; intros i products w;
    cbn [length seq combine for_each fetch_outcomes batch_events successes].
  - unfold ret. now rewrite app_nil_r, add_log_nil.
  - unfold bind. rewrite scrape_one_run.
    fold (answer S w (product_payload a geo dom)).
    set (outcome := (raw <~ answer S w (product_payload a geo dom) ;;
                     product_of_response raw a geo dom)).
    rewrite IH. cbn [log add_log env username password].
    rewrite requests_app, requests_attempt, add_log_app.
    destruct outcome as [product|e]; cbn [successes];
      rewrite <- ?app_assoc; reflexivity.
Qed.

Lemma scrape_multiple_products_run (asins : list value) (geo dom : value)
      (w : world) :
  let outs := fetch_outcomes S (username w) (password w) geo dom
                (requests (log w)) asins in
  scrape_multiple_products S asins geo dom w
  = (Ok (successes outs),
     add_log
       ([ EvUi "Scraping competitor details..." [];
          EvUi "st.empty()" [];
          EvUi "st.progress(0)" [] ]
        ++ batch_events (username w) (password w) geo dom (length asins) 1
                        asins outs
        ++ [ EvUi "progress_text.empty()" [];
             EvUi "progress_bar.empty()" [];
             EvUi "Successfully scraped {len(products)} out of {total} competitors"
                  [VInt (Z.of_nat (length (successes outs)));
                   VInt (Z.of_nat (length asins))] ])
       w).
Proof.
  intros outs. unfold scrape_multiple_products, bind, ui, emit.
  rewrite !add_log_app. rewrite batch_loop_run.
  rewrite !username_add_log, !password_add_log.
  cbn [log add_log]. rewrite requests_app. cbn [requests app].
  rewrite app_nil_r. fold outs.
  unfold ret. rewrite !add_log_app. reflexivity.
Qed.

Lemma requests_batch (u p : string) (geo dom : value) (total : nat)
      (asins : list value) :
  forall (i : nat) (outs : list (result value)),
    length outs = length asins ->
    requests (batch_events u p geo dom total i asins outs)
    = map (fun a => product_payload a geo dom) asins.
Proof.
  induction asins as [|a asins IH]; intros i [|r outs] Hlen;
    try discriminate; cbn [batch_events map]; [reflexivity|].
  rewrite requests_app, requests_attempt. cbn [app].
  f_equal. apply IH. now injection Hlen.
Qed.

Lemma pauses_batch (u p : string) (geo dom : value) (total : nat)
      (asins : list value) :
  forall (i : nat) (outs : list (result value)),
    length outs = length asins ->
    tally is_pause (batch_events u p geo dom total i asins outs)
    = length (successes outs).
Proof.
  induction asins as [|a asins IH]; intros i [|r outs] Hlen;
    try discriminate; cbn [batch_events successes]; [reflexivity|].
  rewrite tally_app, (IH _ outs) by now injection Hlen.
  destruct r; reflexivity.
Qed.

Lemma fetch_outcomes_length (u p : string) (geo dom : value)
      (asins : list value) :
  forall history,
    length (fetch_outcomes S u p geo dom history asins) = length asins.
Proof.
  induction asins as [|a asins IH]; intros history; simpl;
    [reflexivity | now rewrite IH].
Qed.

Lemma search_payload_source (t : string) (dom : value)
      (cats : option (list value)) (page : Z) (sort_by : string)
      (geo : value) :
  source_is "amazon_search" (search_payload t dom cats page sort_by geo)
  = true.
Proof.
  unfold search_payload.
  destruct cats as [[|first rest]|]; try reflexivity.
  destruct (truthy first); reflexivity.
Qed.

(** *** What a search adds to the log, for a way [p] of counting that
    ignores search requests, pauses and the closing message *)
Section SearchBounds.

Variable p : event -> bool.
Hypothesis p_search :
  forall u pw payload,
    source_is "amazon_search" payload = true -> p (EvPost u pw payload) = false.
Hypothesis p_sleep : p EvSleep = false.
Hypothesis p_found :
  forall args, p (EvUi "Found {len(results)} competitors" args) = false.

Lemma within_search_query (payload : value) :
  source_is "amazon_search" payload = true ->
  within p 0 (fun _ => True) (_post_query S payload).
Proof.
  intros Hsrc w. rewrite post_query_run. eexists. cbn [fst snd].
  split; [reflexivity|]. split; [|trivial].
  unfold tally. cbn. now rewrite p_search.
Qed.

Lemma within_search_page (t : string) (dom : value)
      (cats : option (list value)) (geo : value) (sort_by : string)
      (page : Z) (acc : list value * list value) :
  within p 0 (fun _ => True) (search_page S t dom cats geo sort_by page acc).
Proof.
  unfold search_page.
  apply (within_weaken p (0 + (0 + (0 + (0 + 0)))) 0 (fun _ => True));
    [lia | trivial |].
  apply within_bind with (Q := fun _ => True).
  { apply within_search_query, search_payload_source. }
  intros raw _. apply within_bind with (Q := fun _ => True).
  { now apply within_lift. }
  intros items _. apply within_bind with (Q := fun _ => True).
  { now apply within_lift. }
  intros acc1 _. apply within_bind with (Q := fun _ => True).
  { now apply within_quiet. }
  intros _ _. now apply within_ret.
Qed.

Lemma within_search_competitors (q dom : value)
      (cats : option (list value)) (pages : Z) (geo : value) :
  within p (sweep_cost p) (fun _ => True)
    (search_competitors S q dom cats pages geo).
Proof.
  unfold search_competitors.
  set (s := sweep_cost p).
  apply (within_weaken p
           (s + (0 + (length strategies * (length (page_range pages) * 0)
                      + (0 + 0))))
           s (fun _ => True)); [lia | trivial |].
  apply within_bind with (Q := fun _ => True).
  { apply within_emit. }
  intros _ _. apply within_bind with (Q := fun _ => True).
  { now apply within_lift. }
  intros t _. apply within_bind with (Q := fun _ => True).
  { apply within_for_each with (Inv := fun _ => True); [|trivial].
    intros sort_by acc _ _.
    apply within_for_each with (Inv := fun _ => True); [|trivial].
    intros page acc1 _ _. apply within_search_page. }
  intros acc _. apply within_bind with (Q := fun _ => True).
  { apply within_quiet, p_found. }
  intros _ _. now apply within_ret.
Qed.

End SearchBounds.

(** *** What the batch adds to the log *)

Lemma tally_batch (p : event -> bool) (n : nat) (u pw : string)
      (geo dom : value) (total : nat) (asins : list value) :
  (forall a idx r,
      In a asins -> tally p (attempt_events u pw geo dom total idx a r) <= n) ->
  forall (i : nat) (outs : list (result value)),
    tally p (batch_events u pw geo dom total i asins outs)
    <= length asins * n.
Proof.
  induction asins as [|a asins IH]; intros Hone i outs;
    cbn [batch_events length]; [unfold tally; cbn; lia|].
  destruct outs as [|r outs]; [unfold tally; cbn; lia|].
  rewrite tally_app.
  pose proof (Hone a i r (or_introl eq_refl)).
  pose proof (IH (fun a' idx r' H' => Hone a' idx r' (or_intror H'))
                (Datatypes.S i) outs).
  lia.
Qed.

(** Every record of the batch is the normalized answer to the request
    for one of the ASINs. *)
Lemma successes_fetch_outcomes (u pw : string) (geo dom : value)
      (asins : list value) :
  forall history,
    Forall (fun record =>
              exists a raw h,
                In a asins
                /\ api S h u pw (product_payload a geo dom) = Ok raw
                /\ product_of_response raw a geo dom = Ok record)
           (successes (fetch_outcomes S u pw geo dom history asins)).
Proof.
  induction asins as [|a asins IH]; intros history;
    cbn [fetch_outcomes successes]; [constructor|].
  assert (Hrest :
    Forall (fun record =>
              exists a0 raw h,
                In a0 (a :: asins)
                /\ api S h u pw (product_payload a0 geo dom) = Ok raw
                /\ product_of_response raw a0 geo dom = Ok record)
           (successes (fetch_outcomes S u pw geo dom
                         (history ++ [product_payload a geo dom]) asins))).
  { eapply Forall_impl; [|apply IH].
    intros record [a0 [raw [h [Hin H]]]]. exists a0, raw, h.
    split; [now right | assumption]. }
  destruct (api S history u pw (product_payload a geo dom)) as [raw|e] eqn:Hapi;
    cbn [and_then]; [|assumption].
  destruct (product_of_response raw a geo dom) as [record|e] eqn:Hrec;
    [|assumption].
  constructor; [|assumption].
  exists a, raw, history. split; [now left | split; assumption].
Qed.

Lemma within_scrape_multiple_products (p : event -> bool) (n : nat)
      (asins : list value) (geo dom : value) :
  (forall what args, what <> "Searching for competitors..." ->
                     p (EvUi what args) = false) ->
  (forall u pw a idx r,
      In a asins ->
      tally p (attempt_events u pw geo dom (length asins) idx a r) <= n) ->
  within p (length asins * n)
    (Forall (fun record =>
               exists a raw h u pw,
                 In a asins
                 /\ api S h u pw (product_payload a geo dom) = Ok raw
                 /\ product_of_response raw a geo dom = Ok record))
    (scrape_multiple_products S asins geo dom).
Proof.
  intros Hui Hone w. rewrite scrape_multiple_products_run. cbn [fst snd].
  eexists. split; [reflexivity|]. split.
  - rewrite !tally_app.
    pose proof (tally_batch p n (username w) (password w) geo dom
                  (length asins) asins
                  (fun a idx r H => Hone _ _ a idx r H) 1
                  (fetch_outcomes S (username w) (password w) geo dom
                     (requests (log w)) asins)) as Hb.
    unfold tally at 1 3. cbn [filter].
    rewrite !Hui by discriminate. cbn. lia.
  - intros products [= <-].
    eapply Forall_impl; [|apply successes_fetch_outcomes].
    intros record [a [raw [h H]]]. now exists a, raw, h, (username w), (password w).
Qed.

End Runs.
End ClientRuns.

(** ** Single-product scraping and the batch *)
Module ScrapeFacts.
Import Oxylabs Observe WorldFacts ClientRuns Scenarios Wording.

(** Where the [asin] of a scraped record comes from: the content when
    it has a truthy one, the request otherwise. *)
Lemma product_of_response_asin (raw a geo dom record : value) :
  product_of_response raw a geo dom = Ok record ->
  exists f c,
    record = VDict f
    /\ _extract_content raw = VDict c
    /\ lookup "asin" f
       = Some (if truthy (get "asin" c) then get "asin" c else a).
Proof.
  unfold product_of_response, _normalize_product.
  destruct (_extract_content raw) as [| | | | | |c]; try discriminate.
  cbn [fields_of and_then].
  destruct (category_path_of c) as [cp|e]; [|discriminate].
  cbn [and_then fields_of].
  destruct (truthy (get "asin" c)) eqn:Hasin; cbn [negb];
    intros H; injection H as <-; eexists; exists c;
    (split; [reflexivity | split; [reflexivity|]]).
  - cbn. rewrite Hasin. reflexivity.
  - cbn. rewrite Hasin. reflexivity.
Qed.

(** A response that can be normalized gives a record. *)
Lemma product_of_response_ok (raw a geo dom : value)
      (c : list (string * value)) (cp : list value) :
  _extract_content raw = VDict c ->
  category_path_of c = Ok cp ->
  exists record, product_of_response raw a geo dom = Ok record.
Proof.
  intros Hc Hcp. unfold product_of_response, _normalize_product.
  rewrite Hc. cbn [fields_of and_then]. rewrite Hcp.
  cbn [fields_of and_then]. eexists. reflexivity.
Qed.

(** C4.  When the API answers and the normalized content has no
    [asin], the record returned carries the requested ASIN; and
    whenever a record is returned for a non-empty requested ASIN, its
    [asin] is not empty. *)
Theorem scrape_product_details_backfills :
  forall (S : services) (A : string) (geo dom : value) (w : world),
    (forall raw c cp,
        answer S w (product_payload (VStr A) geo dom) = Ok raw ->
        _extract_content raw = VDict c ->
        category_path_of c = Ok cp ->
        lookup "asin" c = None ->
        exists f,
          fst (scrape_product_details S (VStr A) geo dom w) = Ok (VDict f)
          /\ lookup "asin" f = Some (VStr A))
    /\ (A <> "" ->
        forall record,
          fst (scrape_product_details S (VStr A) geo dom w) = Ok record ->
          exists f v,
            record = VDict f /\ lookup "asin" f = Some v /\ truthy v = true).
Proof.
  intros S A geo dom w. rewrite scrape_product_details_run. cbn [fst].
  split.
  - intros raw c cp Hraw Hc Hcp Hnone. rewrite Hraw. cbn [and_then].
    destruct (product_of_response_ok raw (VStr A) geo dom c cp Hc Hcp)
      as [record Hrec].
    destruct (product_of_response_asin _ _ _ _ _ Hrec)
      as [f [c' [-> [Hc' Hf]]]].
    exists f. split; [assumption|].
    rewrite Hc in Hc'. injection Hc' as <-.
    unfold get, get_default in Hf. now rewrite Hnone in Hf.
  - intros HA record Hrun.
    destruct (answer S w (product_payload (VStr A) geo dom)) as [raw|e];
      [|discriminate].
    cbn [and_then] in Hrun.
    destruct (product_of_response_asin _ _ _ _ _ Hrun)
      as [f [c [-> [_ Hf]]]].
    exists f. eexists. split; [reflexivity | split; [exact Hf|]].
    destruct (truthy (get "asin" c)) eqn:Hasin; [assumption|].
    destruct A; [now elim HA | reflexivity].
Qed.

Lemma scrape_product_details_backfills_witness :
  (exists f,
      fst (scrape_product_details third_fails (VStr "B01") (VStr "11511")
             (VStr "eg") blank) = Ok (VDict f)
      /\ lookup "asin" f = Some (VStr "B01"))
  /\ (forall record,
         fst (scrape_product_details third_fails (VStr "B01") (VStr "11511")
                (VStr "eg") blank) = Ok record ->
         exists f v,
           record = VDict f /\ lookup "asin" f = Some v /\ truthy v = true).
Proof.
  split.
  - apply (proj1 (scrape_product_details_backfills third_fails "B01"
                    (VStr "11511") (VStr "eg") blank)
             (VDict [("content", VDict [("title", VStr "item")])])
             [("title", VStr "item")] []); reflexivity.
  - apply (proj2 (scrape_product_details_backfills third_fails "B01"
                    (VStr "11511") (VStr "eg") blank)).
    discriminate.
Defined.

(** C6.  [scrape_multiple_products] never raises: it requests every
    ASIN once, in order, and returns the records of the fetches that
    succeeded, in that order.  With five ASINs of which the third
    fails, the other four records come back. *)
Theorem scrape_multiple_products_partial :
  (forall (S : services) (asins : list value) (geo dom : value) (w : world),
      let outs := fetch_outcomes S (username w) (password w) geo dom
                    (requests (log w)) asins in
      let run := scrape_multiple_products S asins geo dom w in
      fst run = Ok (successes outs)
      /\ requests (log (snd run))
         = requests (log w) ++ map (fun a => product_payload a geo dom) asins)
  /\ (exists records,
         fst (scrape_multiple_products third_fails five_asins (VStr "11511")
                (VStr "eg") blank) = Ok records
         /\ asins_of records = [VStr "B01"; VStr "B02"; VStr "B04"; VStr "B05"]).
Proof.
  split.
  - intros S asins geo dom w outs run. subst run.
    rewrite scrape_multiple_products_run. fold outs. cbn [fst snd].
    split; [reflexivity|].
    cbn [log add_log]. rewrite !requests_app.
    rewrite requests_batch by apply fetch_outcomes_length.
    cbn [requests]. now rewrite app_nil_r.
  - eexists. split; [vm_compute; reflexivity | reflexivity].
Qed.

(** C7, as amended.  Each turn of the loop logs its progress and its
    request and then, when the fetch succeeded, the record found and a
    pause; when the fetch failed, only the failure.  The pauses are
    therefore as many as the fetches that succeeded. *)
Theorem scrape_multiple_products_pauses :
  forall (S : services) (asins : list value) (geo dom : value) (w : world),
    let outs := fetch_outcomes S (username w) (password w) geo dom
                  (requests (log w)) asins in
    let turns := batch_events (username w) (password w) geo dom
                   (length asins) 1 asins outs in
    log (snd (scrape_multiple_products S asins geo dom w))
    = log w
      ++ [ EvUi "Scraping competitor details..." [];
           EvUi "st.empty()" [];
           EvUi "st.progress(0)" [] ]
      ++ turns
      ++ [ EvUi "progress_text.empty()" [];
           EvUi "progress_bar.empty()" [];
           EvUi "Successfully scraped {len(products)} out of {total} competitors"
                [VInt (Z.of_nat (length (successes outs)));
                 VInt (Z.of_nat (length asins))] ]
    /\ tally is_pause turns = length (successes outs).
Proof.
  intros S asins geo dom w outs turns.
  rewrite scrape_multiple_products_run. fold outs turns. cbn [snd].
  split; [reflexivity|].
  apply pauses_batch, fetch_outcomes_length.
Qed.

(** When every fetch succeeds, the turns do pause between requests. *)
Lemma pauses_when_all_succeed (u pw : string) (geo dom : value)
      (total : nat) (asins : list value) :
  forall (i : nat) (outs : list (result value)),
    Forall (fun r => exists product, r = Ok product) outs ->
    paused_between_attempts (batch_events u pw geo dom total i asins outs)
    = true.
Proof.
  unfold paused_between_attempts.
  induction asins as [|a asins IH]; intros i outs Hok; [reflexivity|].
  destruct outs as [|r outs]; [reflexivity|].
  inversion Hok as [|r' outs' [product ->] Hrest]; subst.
  cbn. now apply IH.
Qed.

(** With the API down, two ASINs are requested one after the other
    with no pause in between. *)
Lemma no_pause_after_failure :
  log (snd (scrape_multiple_products api_down [VStr "B01"; VStr "B02"]
              (VStr "11511") (VStr "eg") blank))
  = [ EvUi "Scraping competitor details..." [];
      EvUi "st.empty()" [];
      EvUi "st.progress(0)" [];
      EvUi "Processing competitor {idx}/{total}: {a}"
           [VInt 1; VInt 2; VStr "B01"];
      EvUi "progress_bar.progress(idx/total)" [VInt 1; VInt 2];
      EvPost "" "" (product_payload (VStr "B01") (VStr "11511") (VStr "eg"));
      EvUi "Failed to scrape {a}" [VStr "B01"];
      EvUi "Processing competitor {idx}/{total}: {a}"
           [VInt 2; VInt 2; VStr "B02"];
      EvUi "progress_bar.progress(idx/total)" [VInt 2; VInt 2];
      EvPost "" "" (product_payload (VStr "B02") (VStr "11511") (VStr "eg"));
      EvUi "Failed to scrape {a}" [VStr "B02"];
      EvUi "progress_text.empty()" [];
      EvUi "progress_bar.empty()" [];
      EvUi "Successfully scraped {len(products)} out of {total} competitors"
           [VInt 0; VInt 2] ]
  /\ paused_between_attempts
       (log (snd (scrape_multiple_products api_down [VStr "B01"; VStr "B02"]
                    (VStr "11511") (VStr "eg") blank))) = false.
Proof. split; vm_compute; reflexivity. Qed.

End ScrapeFacts.

(** ** The orchestration service *)
Module ServicesFacts.
Import Oxylabs Services Observe WorldFacts ClientRuns ScrapeFacts.

Lemma for_pure_invariant {X St} (Inv : St -> Prop) (xs : list X)
      (body : X -> St -> result St) :
  (forall x s s', Inv s -> body x s = Ok s' -> Inv s') ->
  forall s s', Inv s -> for_pure xs body s = Ok s' -> Inv s'.
Proof.
  intros Hbody. induction xs as [|x xs IH]; intros s s' Hs; cbn [for_pure].
  - now intros [= <-].
  - destruct (body x s) as [s1|e] eqn:Hx; [|discriminate].
    apply IH. now apply (Hbody x s).
Qed.

Lemma distinct_from_incl (P : value -> Prop) (vs : list value) :
  Forall P vs -> forall seen, Forall P (distinct_from seen vs).
Proof.
  induction 1 as [|v vs Hv Hvs IH]; intros seen; cbn [distinct_from];
    [constructor|].
  destruct (mem v seen); [apply IH | constructor; [assumption | apply IH]].
Qed.

Lemma list_of_set_incl (I : interp) (P : value -> Prop) (vs : list value) :
  Forall P vs -> Forall P (list_of_set I vs).
Proof.
  intros H. unfold list_of_set.
  apply (Permutation_Forall (Permutation_sym (set_order_perm I _))).
  now apply distinct_from_incl.
Qed.

Lemma take_incl {A} (P : A -> Prop) (n : nat) (xs : list A) :
  Forall P xs -> Forall P (take n xs).
Proof.
  unfold take. revert n. induction xs as [|x xs IH]; intros [|n] H;
    cbn [firstn]; try constructor.
  - now inversion H.
  - apply IH. now inversion H.
Qed.

Lemma take_length {A} (n : nat) (xs : list A) : length (take n xs) <= n.
Proof. apply firstn_le_length. Qed.

(** The candidates are truthy and none of them equals the parent. *)
Lemma candidate_asins_exclude_parent (I : interp) (parent_asin : string)
      (all_results candidates : list value) :
  candidate_asins I parent_asin all_results = Ok candidates ->
  Forall (fun a => truthy a = true
                   /\ scalar_eqb a (VStr parent_asin) = false) candidates.
Proof.
  unfold candidate_asins.
  destruct (for_pure all_results _ []) as [picked|e] eqn:Hpick;
    [|discriminate].
  cbn [and_then]. intros [= <-]. apply list_of_set_incl.
  revert Hpick. apply for_pure_invariant; [|constructor].
  intros r acc acc' Hacc. destruct (fields_of r) as [f|e]; [|discriminate].
  cbn [and_then].
  destruct (truthy (get "asin" f)) eqn:Ht; cbn [andb];
    [|now intros [= <-]].
  destruct (scalar_eqb (get "asin" f) (VStr parent_asin)) eqn:He; cbn [negb];
    [now intros [= <-]|].
  destruct (hashable (get "asin" f)); [|discriminate].
  intros [= <-]. apply Forall_app. split; [assumption|].
  constructor; [now split | constructor].
Qed.

Lemma add_log_inj (a b : list event) (w : world) :
  add_log a w = add_log b w -> a = b.
Proof.
  unfold add_log. intros H. injection H as H. now apply app_inv_head in H.
Qed.

Section Bounds.

Variable S : services.
Variable I : interp.
Variable parent_asin : string.

(** A way of counting events that ignores everything the workflow does
    around its searches, its detail requests and its inserts. *)
Variable p : event -> bool.
Variable detail_cost : nat.
Hypothesis p_ui :
  forall what args, what <> "Searching for competitors..." ->
                    p (EvUi what args) = false.
Hypothesis p_search :
  forall u pw payload,
    source_is "amazon_search" payload = true -> p (EvPost u pw payload) = false.
Hypothesis p_sleep : p EvSleep = false.
Hypothesis p_get : forall a, p (EvDbGet a) = false.
Hypothesis p_detail :
  forall u pw geo dom total idx a r,
    truthy a = true ->
    scalar_eqb a (VStr parent_asin) = false ->
    tally p (attempt_events u pw geo dom total idx a r) <= detail_cost.
Hypothesis p_insert :
  forall a raw h u pw geo dom c,
    truthy a = true ->
    scalar_eqb a (VStr parent_asin) = false ->
    api S h u pw (product_payload a geo dom) = Ok raw ->
    product_of_response raw a geo dom = Ok (VDict c) ->
    p (EvDbInsert (VDict (set "parent_asin" (VStr parent_asin) c))) = false.

Lemma within_get_product (a : value) :
  within p 0 (fun _ => True) (Db.get_product a).
Proof.
  intros w. eexists. cbn [Db.get_product fst snd].
  split; [reflexivity|]. split; [|trivial].
  unfold tally. cbn. now rewrite p_get.
Qed.

Lemma within_search_categories_loop (parent : list (string * value))
      (dom geo : value) (pages : Z) (categories : list value) :
  within p (length categories * sweep_cost p) (fun _ => True)
    (search_categories_loop S parent dom geo pages categories).
Proof.
  unfold search_categories_loop.
  apply within_for_each with (Inv := fun _ => True); [|trivial].
  intros category all_results _ _.
  apply (within_weaken p (0 + (sweep_cost p + 0)) (sweep_cost p)
           (fun _ => True));
    [lia | trivial |].
  apply within_bind with (Q := fun _ => True); [now apply within_lift|].
  intros query_title _. apply within_bind with (Q := fun _ => True).
  { apply within_search_competitors; auto.
    intros args. apply p_ui. discriminate. }
  intros search_results _. now apply within_ret.
Qed.

Lemma within_store_competitors (product_details : list value) :
  Forall (fun record =>
            forall c, record = VDict c ->
              p (EvDbInsert (VDict (set "parent_asin" (VStr parent_asin) c)))
              = false) product_details ->
  within p 0 (fun _ => True) (store_competitors parent_asin product_details).
Proof.
  intros Hgood. unfold store_competitors.
  apply (within_weaken p (length product_details * 0) 0 (fun _ => True));
    [lia | trivial |].
  apply within_for_each with (Inv := fun _ => True); [|trivial].
  intros comp stored Hin _.
  apply (within_weaken p (0 + (0 + 0)) 0 (fun _ => True)); [lia | trivial |].
  apply within_bind with (Q := fun c => comp = VDict c).
  { apply within_lift. intros c Hc. destruct comp; try discriminate.
    now injection Hc as ->. }
  intros c Hc. apply within_bind with (Q := fun _ => True).
  { intros w. eexists. cbn [Db.insert_product fst snd].
    split; [reflexivity|]. split; [|trivial].
    unfold tally. cbn.
    rewrite Forall_forall in Hgood. now rewrite (Hgood comp Hin c Hc). }
  intros _ _. now apply within_ret.
Qed.

Lemma within_show_summary (stored : list value) :
  within p 0 (fun _ => True) (show_summary stored).
Proof.
  unfold show_summary.
  apply (within_weaken p (0 + (length stored * (0 + (0 + 0)) + 0)) 0
           (fun _ => True)); [lia | trivial |].
  apply within_bind with (Q := fun _ => True).
  { apply within_quiet, p_ui. discriminate. }
  intros _ _. apply within_bind with (Q := fun _ => True).
  { apply within_for_each with (Inv := fun _ => True); [|trivial].
    intros comp u _ _. apply within_bind with (Q := fun _ => True).
    - now apply within_lift.
    - intros c _. apply within_bind with (Q := fun _ => True).
      + destruct (is_number _); [now apply within_lift | now apply within_ret].
      + intros _ _. apply within_quiet, p_ui. discriminate. }
  intros _ _. apply within_quiet, p_ui. discriminate.
Qed.

Lemma within_fetch_and_store_competitors (domain geo_location : string)
      (pages : Z) :
  within p (category_cap * sweep_cost p + competitor_cap * detail_cost)
    (fun _ => True)
    (fetch_and_store_competitors S I parent_asin domain geo_location pages).
Proof.
  unfold fetch_and_store_competitors.
  apply (within_weaken p
           (0 + (category_cap * sweep_cost p + competitor_cap * detail_cost))
           _ (fun _ => True)); [lia | trivial |].
  apply within_bind with (Q := fun _ => True); [apply within_get_product|].
  intros parent _. destruct (negb (truthy parent)).
  { apply (within_weaken p 0 _ (fun _ => True)); [lia | trivial |].
    now apply within_ret. }
  apply (within_weaken p
           (0 + (0 + (0 + (0 + (category_cap * sweep_cost p
                                + (0 + (competitor_cap * detail_cost
                                        + (0 + (0 + 0)))))))))
           _ (fun _ => True)); [lia | trivial |].
  apply within_bind with (Q := fun _ => True); [now apply within_lift|].
  intros f _. apply within_bind with (Q := fun _ => True).
  { apply within_quiet, p_ui. discriminate. }
  intros _ _. apply within_bind with (Q := fun _ => True);
    [now apply within_lift|].
  intros from_categories _. apply within_bind with (Q := fun _ => True);
    [now apply within_lift|].
  intros from_path _. apply within_bind with (Q := fun _ => True).
  { eapply within_weaken; [| |apply within_search_categories_loop].
    - apply Nat.mul_le_mono_r, take_length.
    - trivial. }
  intros all_results _.
  apply within_bind
    with (Q := Forall (fun a => truthy a = true
                                /\ scalar_eqb a (VStr parent_asin) = false)).
  { apply within_lift. apply candidate_asins_exclude_parent. }
  intros candidates Hcand.
  pose proof (take_incl _ competitor_cap _ Hcand) as Htake.
  rewrite Forall_forall in Htake.
  apply within_bind
    with (Q := Forall (fun record =>
                 forall c, record = VDict c ->
                   p (EvDbInsert
                        (VDict (set "parent_asin" (VStr parent_asin) c)))
                   = false)).
  { eapply within_weaken;
      [| |apply within_scrape_multiple_products
             with (n := detail_cost)].
    - apply Nat.mul_le_mono_r, take_length.
    - intros products Hprod. eapply Forall_impl; [|exact Hprod].
      intros record [a [raw [h [u [pw [Hin [Hapi Hrec]]]]]]] c ->.
      destruct (Htake a Hin) as [Ha Hne].
      eapply p_insert; eassumption.
    - exact p_ui.
    - intros u pw a idx r Hin. destruct (Htake a Hin) as [Ha Hne].
      now apply p_detail. }
  intros product_details Hgood.
  apply within_bind with (Q := fun _ => True);
    [now apply within_store_competitors|].
  intros stored _. apply within_bind with (Q := fun _ => True);
    [apply within_show_summary|].
  intros _ _. now apply within_ret.
Qed.

End Bounds.

Lemma source_exclusive (payload : value) :
  source_is "amazon_search" payload = true ->
  source_is "amazon_product" payload = false.
Proof.
  unfold source_is. destruct payload as [| | | | | |f]; try discriminate.
  destruct (lookup "source" f) as [[| | | |s| |]|]; try discriminate.
  intros H. apply String.eqb_eq in H. now subst s.
Qed.



Lemma inserted_app (a b : list event) :
  inserted (a ++ b) = inserted a ++ inserted b.
Proof.
  induction a as [|e a IH]; cbn [app inserted]; [reflexivity|].
  destruct e; cbn [app]; now rewrite IH.
Qed.

Lemma store_add_log (evs : list event) (w : world) :
  store (add_log evs w) = store w ++ inserted evs.
Proof. unfold store, add_log; cbn. now rewrite inserted_app, app_assoc. Qed.

Lemma tally_zero_inserted (p : event -> bool) (evs : list event) :
  tally p evs <= 0 ->
  Forall (fun record => p (EvDbInsert record) = false) (inserted evs).
Proof.
  induction evs as [|e evs IH]; cbn [inserted]; [constructor|].
  change (e :: evs) with ([e] ++ evs). rewrite tally_app. intros H.
  assert (He : tally p [e] = 0) by lia.
  assert (Hevs : tally p evs <= 0) by lia.
  destruct e; try (now apply IH).
  constructor; [|now apply IH].
  unfold tally in He. cbn in He.
  destruct (p (EvDbInsert record)); [discriminate | reflexivity].
Qed.

(** Every run of [search_competitors] announces itself exactly once, so
    counting the announcements counts the searches. *)
Lemma search_competitors_announces_once (S : services) (q dom : value)
      (cats : option (list value)) (pages : Z) (geo : value) (w : world) :
  exists evs,
    snd (search_competitors S q dom cats pages geo w) = add_log evs w
    /\ tally is_sweep_start evs = 1.
Proof.
  assert (Hrest :
    within is_sweep_start 0 (fun _ => True)
      (search_title <- lift (clean_search_title_of q) ;;
       acc <- for_each strategies
                (fun sort_by acc =>
                   for_each (page_range pages)
                     (search_page S search_title dom cats geo sort_by) acc)
                ([], []) ;;
       ui "Found {len(results)} competitors"
          [VInt (Z.of_nat (length (snd acc)))] ;;
       ret (snd acc))).
  { apply (within_weaken is_sweep_start
             (0 + (length strategies * (length (page_range pages) * 0)
                   + (0 + 0))) 0 (fun _ => True)); [lia | trivial |].
    apply within_bind with (Q := fun _ => True); [now apply within_lift|].
    intros t _. apply within_bind with (Q := fun _ => True).
    { apply within_for_each with (Inv := fun _ => True); [|trivial].
      intros sort_by acc _ _.
      apply within_for_each with (Inv := fun _ => True); [|trivial].
      intros page acc1 _ _. now apply within_search_page. }
    intros acc _. apply within_bind with (Q := fun _ => True);
      [now apply within_quiet | intros _ _; now apply within_ret]. }
  destruct (Hrest (add_log [EvUi "Searching for competitors..." []] w))
    as [evs [Hw [Ht _]]].
  exists ([EvUi "Searching for competitors..." []] ++ evs).
  split.
  - rewrite <- add_log_app, <- Hw. reflexivity.
  - rewrite tally_app. change (tally is_sweep_start [EvUi _ []]) with 1. lia.
Qed.

(** C1.  Whatever the store holds and whatever the API answers,
    [fetch_and_store_competitors] starts at most 3 competitor searches,
    one per candidate category, and requests the details of at most 20
    candidates. *)
Theorem fetch_and_store_competitors_caps :
  forall (S : services) (I : interp) (parent_asin domain geo_location : string)
         (pages : Z) (w : world),
  exists evs,
    snd (fetch_and_store_competitors S I parent_asin domain geo_location
           pages w) = add_log evs w
    /\ tally is_sweep_start evs <= 3
    /\ tally is_detail_request evs <= 20.
Proof.
  intros S I parent_asin domain geo_location pages w.
  assert (Hsweep :
    within is_sweep_start 3 (fun _ => True)
      (fetch_and_store_competitors S I parent_asin domain geo_location pages)).
  { apply (within_fetch_and_store_competitors S I parent_asin
             is_sweep_start 0); try reflexivity.
    - intros what args Hne. cbn. now apply String.eqb_neq.
    - intros u pw geo dom total idx a r _ _. destruct r; cbn; lia. }
  assert (Hdetail :
    within is_detail_request 20 (fun _ => True)
      (fetch_and_store_competitors S I parent_asin domain geo_location pages)).
  { apply (within_fetch_and_store_competitors S I parent_asin
             is_detail_request 1); try reflexivity.
    - intros u pw payload. apply source_exclusive.
    - intros u pw geo dom total idx a r _ _. destruct r; cbn; lia. }
  destruct (Hsweep w) as [evs [Hw [Hs _]]].
  destruct (Hdetail w) as [evs' [Hw' [Hd _]]].
  rewrite Hw in Hw'. apply add_log_inj in Hw'. subst evs'.
  now exists evs.
Qed.






End ServicesFacts.

(** ** The competitor search *)
Module SearchFacts.
Import Oxylabs Observe WorldFacts ClientRuns.

Lemma page_range_floor (pages : Z) :
  (pages <= 0)%Z -> page_range pages = [1%Z].
Proof. intros H. unfold page_range. now rewrite Z.max_l by lia. Qed.

Lemma page_range_max (pages : Z) :
  page_range pages = page_range (Z.max 1 pages).
Proof. unfold page_range. now rewrite Z.max_assoc, Z.max_id. Qed.

(** One page costs one request, whatever comes back. *)
Lemma search_page_requests (S : services) (t : string) (dom : value)
      (cats : option (list value)) (geo : value) (sort_by : string)
      (page : Z) (acc : list value * list value) (w : world) :
  exists evs,
    snd (search_page S t dom cats geo sort_by page acc w) = add_log evs w
    /\ requests evs = [search_payload t dom cats page sort_by geo].
Proof.
  unfold search_page, bind, lift, sleep, emit, ret.
  rewrite post_query_run.
  destruct (answer S w _) as [raw|e]; [|eexists; split; reflexivity].
  destruct (_extract_search_results _) as [items|e];
    [|eexists; split; reflexivity].
  destruct (for_pure items collect_item acc) as [acc1|e];
    [|eexists; split; reflexivity].
  cbn [snd]. rewrite add_log_app. eexists; split; reflexivity.
Qed.

(** A loop whose every turn makes one request makes the requests of
    the turns it reaches: all of them when it ends normally, at least
    the first in any case. *)
Lemma for_each_requests {X St} (pay : X -> value) (body : X -> St -> M St) :
  (forall x s w,
      exists evs, snd (body x s w) = add_log evs w /\ requests evs = [pay x]) ->
  forall xs s w,
  exists evs k,
    snd (for_each xs body s w) = add_log evs w
    /\ requests evs = map pay (firstn k xs)
    /\ k <= length xs
    /\ (xs <> [] -> 1 <= k)
    /\ (forall s', fst (for_each xs body s w) = Ok s' -> k = length xs).
Proof.
  intros Hbody. induction xs as [|x xs IH]; intros s w; cbn [for_each].
  - exists [], 0. cbn. rewrite add_log_nil.
    repeat split; [lia | congruence].
  - destruct (Hbody x s w) as [evs1 [Hw1 Hr1]].
    unfold bind. destruct (body x s w) as [[s1|e] w1]; cbn [snd] in Hw1;
      subst w1.
    + destruct (IH s1 (add_log evs1 w)) as [evs2 [k [Hw2 [Hr2 [Hk [_ Hok]]]]]].
      exists (evs1 ++ evs2), (Datatypes.S k).
      rewrite Hw2, add_log_app, requests_app, Hr1, Hr2. cbn.
      repeat split; try lia.
      intros s' Hs'. now rewrite (Hok s' Hs').
    + exists evs1, 1. cbn. rewrite Hr1.
      repeat split; try lia. discriminate.
Qed.

(** C10.  With [pages <= 0] the page range is just page 1, as it is for
    [pages = 1]: the search asks for page 1 once per sort strategy, in
    the order of the strategies.  It always makes the first request,
    and makes all four whenever it returns. *)
Theorem search_competitors_floor :
  forall (S : services) (t : string) (dom : value)
         (cats : option (list value)) (geo : value) (pages : Z) (w : world),
    (pages <= 0)%Z ->
    let run := search_competitors S (VStr t) dom cats pages geo w in
    page_range pages = [1%Z]
    /\ run = search_competitors S (VStr t) dom cats 1 geo w
    /\ exists k,
        1 <= k <= 4
        /\ requests (log (snd run))
           = requests (log w)
             ++ firstn k
                  (map (fun sort_by =>
                          search_payload (_clean_search_title t) dom cats 1
                                         sort_by geo)
                       strategies)
        /\ (forall results, fst run = Ok results -> k = 4).
Proof.
  intros S t dom cats geo pages w Hpages run.
  pose proof (page_range_floor pages Hpages) as Hrange.
  split; [assumption|].
  assert (H1 : search_competitors S (VStr t) dom cats pages geo w
               = search_competitors S (VStr t) dom cats 1 geo w).
  { unfold search_competitors. now rewrite Hrange. }
  split; [subst run; exact H1|].
  subst run. rewrite H1. clear H1.
  set (pay := fun sort_by =>
                search_payload (_clean_search_title t) dom cats 1 sort_by geo).
  set (body := fun sort_by acc =>
                 for_each [1%Z]
                   (search_page S (_clean_search_title t) dom cats geo sort_by)
                   acc).
  assert (Hbody : forall x s w0,
             exists evs,
               snd (body x s w0) = add_log evs w0 /\ requests evs = [pay x]).
  { intros x s w0. unfold body. cbn [for_each]. unfold bind, ret.
    destruct (search_page_requests S (_clean_search_title t) dom cats geo x 1
                s w0) as [evs [Hw Hr]].
    exists evs.
    destruct (search_page S (_clean_search_title t) dom cats geo x 1 s w0)
      as [[s1|e] w1]; cbn [snd] in *; now split. }
  assert (Hrun :
    search_competitors S (VStr t) dom cats 1 geo w
    = match for_each strategies body ([], [])
              (add_log [EvUi "Searching for competitors..." []] w) with
      | (Ok acc, w1) =>
          (Ok (snd acc),
           add_log [EvUi "Found {len(results)} competitors"
                         [VInt (Z.of_nat (length (snd acc)))]] w1)
      | (Raise e, w1) => (Raise e, w1)
      end) by reflexivity.
  rewrite Hrun. clear Hrun.
  destruct (for_each_requests pay body Hbody strategies ([], [])
              (add_log [EvUi "Searching for competitors..." []] w))
    as [evs [k [Hw [Hr [Hk [Hne Hok]]]]]].
  exists k. split.
  { split; [apply Hne; discriminate | exact Hk]. }
  destruct (for_each strategies body ([], []) _) as [[acc|e] w1];
    cbn [fst snd] in *; subst w1.
  - cbn [snd log add_log]. rewrite !requests_app, Hr, firstn_map.
    cbn [requests]. rewrite !app_nil_r.
    split; [reflexivity|]. intros results _. exact (Hok acc eq_refl).
  - cbn [snd log add_log]. rewrite !requests_app, Hr, firstn_map.
    cbn [requests]. rewrite !app_nil_r. split; [reflexivity | discriminate].
Qed.

Lemma search_competitors_floor_witness :
  exists k,
    1 <= k <= 4
    /\ requests
         (log (snd (search_competitors Scenarios.api_plain
                      (VStr "Desk Lamp - White | LED") (VStr "eg")
                      (Some [VStr "Lighting"]) (-3) (VStr "11511")
                      Scenarios.blank)))
       = requests (log Scenarios.blank)
         ++ firstn k
              (map (fun sort_by =>
                      search_payload
                        (_clean_search_title "Desk Lamp - White | LED")
                        (VStr "eg") (Some [VStr "Lighting"]) 1 sort_by
                        (VStr "11511"))
                   strategies)
    /\ (forall results,
           fst (search_competitors Scenarios.api_plain
                  (VStr "Desk Lamp - White | LED") (VStr "eg")
                  (Some [VStr "Lighting"]) (-3) (VStr "11511")
                  Scenarios.blank) = Ok results ->
           k = 4).
Proof.
  apply (search_competitors_floor Scenarios.api_plain
           "Desk Lamp - White | LED" (VStr "eg") (Some [VStr "Lighting"])
           (VStr "11511") (-3) Scenarios.blank).
  lia.
Defined.

(** C10, counterexample.  A call can make no search query at all.
    The title of a stored product is [None] when the API gave none,
    and [fetch_and_store_competitors] hands it to [search_competitors]
    as it is: the search is announced and then fails on the title,
    before its first request, for [pages <= 0] as for any other. *)
Lemma untitled_search_makes_no_query :
  (let run :=
     search_competitors Scenarios.api_untitled VNone (VStr "eg")
       (Some [VStr "Lighting"]) 0 (VStr "11511") Scenarios.blank in
   fst run = Raise TypeError
   /\ log (snd run) = [EvUi "Searching for competitors..." []]
   /\ requests (log (snd run)) = [])
  /\ (let stored :=
        snd (Services.scrape_and_store_product Scenarios.api_untitled
               "B0PARENT" "11511" "eg" Scenarios.blank) in
      let run :=
        Services.fetch_and_store_competitors Scenarios.api_untitled
          Scenarios.plain "B0PARENT" "eg" "11511" 0 stored in
      fst run = Raise TypeError
      /\ tally is_sweep_start (log (snd run)) = 1
      /\ requests (log (snd run))
         = [product_payload (VStr "B0PARENT") (VStr "11511") (VStr "eg")]).
Proof. repeat split; vm_compute; reflexivity. Qed.

End SearchFacts.

(** ** The analysis engine *)
Module LlmFacts.
Import Llm Observe WorldFacts Wording.

(** C5.  When [OPENAI_API_KEY] is unset, or empty once trimmed,
    [analyze_competition] returns the fixed message and leaves the
    world as it found it: the store is not read and the LLM is not
    called. *)
Theorem analyze_competition_without_key :
  forall (S : services) (I : interp) (parent_asin : string) (w : world),
    env w "OPENAI_API_KEY" = None
    \/ (exists key, env w "OPENAI_API_KEY" = Some key
                    /\ PyStr.strip key = "") ->
    analyze_competition S I parent_asin w
    = (Ok "Set OPENAI_API_KEY to run LLM analysis.", w).
Proof.
  intros S I parent_asin w Hkey.
  unfold analyze_competition, bind, getenv.
  destruct Hkey as [Hnone | [key [Hsome Hblank]]].
  - rewrite Hnone. reflexivity.
  - rewrite Hsome, Hblank. reflexivity.
Qed.

Lemma analyze_competition_without_key_witness :
  analyze_competition Scenarios.api_plain Scenarios.plain "B0PARENT"
    Scenarios.blank_key
  = (Ok "Set OPENAI_API_KEY to run LLM analysis.", Scenarios.blank_key).
Proof.
  apply analyze_competition_without_key.
  right. exists "   ". split; reflexivity.
Defined.

(** With a key set, the store is read and the LLM is called. *)
Example analyze_competition_with_key :
  map (fun e => match e with
                | EvDbGet _ => "get"
                | EvDbSearch _ => "search"
                | EvLlm _ => "llm"
                | _ => "other"
                end)
      (log (snd (analyze_competition Scenarios.api_plain Scenarios.plain
                   "B0PARENT" Scenarios.with_key)))
  = ["get"; "search"; "llm"].
Proof. reflexivity. Qed.

(** What [analyze_competition] returns, when it gets as far as
    returning a report, is the rendering of what the LLM chain
    answered. *)
Lemma analyze_competition_renders (S : services) (I : interp)
      (parent_asin key report : string) (w : world) :
  env w "OPENAI_API_KEY" = Some key ->
  PyStr.strip key <> "" ->
  fst (analyze_competition S I parent_asin w) = Ok report ->
  exists inputs result,
    llm S inputs = Ok result /\ report = render I result.
Proof.
  intros Hkey Hset. unfold analyze_competition. unfold bind at 1.
  unfold getenv. rewrite Hkey.
  destruct (PyStr.strip key) as [|c k]; [now elim Hset|].
  cbn [PyStr.is_empty]. unfold bind, chain_invoke, bind, emit, lift, ret.
  destruct (Db.get_product _ w) as [[product|e] w1]; [|discriminate].
  destruct (_format_competitors parent_asin w1) as [[competitors|e] w2];
    [|discriminate].
  destruct (chain_inputs parent_asin product competitors) as [inputs|e];
    [|discriminate].
  destruct (llm S inputs) as [result|e] eqn:Hllm; [|discriminate].
  cbn [fst]. intros [= <-]. now exists inputs, result.
Qed.

(** A report over six competitors shows five of them. *)
Example report_of_six :
  exists report,
    fst (analyze_competition Scenarios.llm_fixed Scenarios.plain "B0PARENT"
           Scenarios.with_key) = Ok report
    /\ report = render Scenarios.plain
                  {| summary := "Crowded market.";
                     positioning := "Mid-range.";
                     top_competitors := Scenarios.six_insights;
                     recommendations := ["Lower the price."] |}
    /\ map (competitor_line Scenarios.plain)
           (firstn 5 Scenarios.six_insights)
       = [ "- B01 | None | $199.5 | ‚≠ê None ";
           "- B02 | None | $199.5 | ‚≠ê None ";
           "- B03 | None | $199.5 | ‚≠ê None ";
           "- B04 | None | $199.5 | ‚≠ê None ";
           "- B05 | None | $199.5 | ‚≠ê None " ].
Proof. eexists. repeat split; vm_compute; reflexivity. Qed.

Lemma join_nil (sep : string) : PyStr.join sep [] = "".
Proof. reflexivity. Qed.




End LlmFacts.

(** ** Normalization of products and search hits *)
Module RecordFacts.
Import Oxylabs Trace.

(** The loop of [category_path_of] on its own. *)
Lemma strip_loop_ok (cats acc out : list value) :
  for_pure cats
    (fun cat acc =>
       if truthy cat then (c <~ strip cat ;; Ok (acc ++ [c])) else Ok acc)
    acc = Ok out ->
  Forall (fun v => truthy v = true -> exists s, v = VStr s) cats
  /\ exists added,
      out = acc ++ added
      /\ Forall (fun v => exists s, s <> "" /\ In (VStr s) cats
                                   /\ v = VStr (PyStr.strip s)) added.
Proof.
  revert acc. induction cats as [|cat cats IH]; intros acc; cbn [for_pure].
  - intros [= <-]. split; [constructor|]. exists []. rewrite app_nil_r.
    split; [reflexivity | constructor].
  - destruct (truthy cat) eqn:Ht.
    + destruct cat as [| | | |s| |]; try discriminate.
      cbn [strip and_then]. intros H.
      destruct (IH _ H) as [Hall [added [-> Hadded]]].
      split.
      * constructor; [intros _; now exists s | assumption].
      * exists (VStr (PyStr.strip s) :: added). rewrite <- app_assoc.
        split; [reflexivity|]. constructor.
        -- exists s. repeat split; [|now left].
           intros ->. discriminate.
        -- eapply Forall_impl; [|exact Hadded].
           intros v [s' [Hs' [Hin ->]]]. exists s'. repeat split; auto.
           now right.
    + intros H. destruct (IH _ H) as [Hall [added [-> Hadded]]].
      split.
      * constructor; [rewrite Ht; discriminate | assumption].
      * exists added. split; [reflexivity|].
        eapply Forall_impl; [|exact Hadded].
        intros v [s' [Hs' [Hin ->]]]. exists s'. repeat split; auto.
        now right.
Qed.

Lemma strip_loop_total (cats acc : list value) :
  Forall (fun v => truthy v = true -> exists s, v = VStr s) cats ->
  exists out,
    for_pure cats
      (fun cat acc =>
         if truthy cat then (c <~ strip cat ;; Ok (acc ++ [c])) else Ok acc)
      acc = Ok out.
Proof.
  intros H. revert acc. induction H as [|cat cats Hcat Hcats IH]; intros acc;
    cbn [for_pure]; [now exists acc|].
  destruct (truthy cat) eqn:Ht; [|apply IH].
  destruct (Hcat eq_refl) as [s ->]. cbn [strip and_then]. apply IH.
Qed.

(** X1.  [_normalize_product] returns a record exactly when the content
    is a dict whose [category_path] is falsy or can be iterated with
    every truthy entry a string; it raises on any other content. *)
Theorem normalize_product_succeeds_iff :
  forall content : value,
    (exists record, _normalize_product content = Ok record)
    <-> exists c,
        content = VDict c
        /\ (truthy (get "category_path" c) = false
            \/ exists entries,
                iterate (get "category_path" c) = Ok entries
                /\ Forall (fun v => truthy v = true -> exists s, v = VStr s)
                          entries).
Proof.
  intros content. unfold _normalize_product, category_path_of. split.
  - intros [record H].
    destruct content as [| | | | | |c]; try discriminate.
    exists c. split; [reflexivity|]. cbn [fields_of and_then] in H.
    destruct (truthy (get "category_path" c)); [right | now left].
    destruct (iterate (get "category_path" c)) as [entries|e];
      [|discriminate].
    exists entries. split; [reflexivity|]. cbn [and_then] in H.
    destruct (for_pure entries _ []) as [out|e] eqn:Hloop; [|discriminate].
    exact (proj1 (strip_loop_ok _ _ _ Hloop)).
  - intros [c [-> Hpath]]. cbn [fields_of and_then].
    destruct Hpath as [Hfalsy | [entries [Hiter Hall]]].
    + rewrite Hfalsy. cbn [and_then]. eexists. reflexivity.
    + destruct (truthy (get "category_path" c)).
      * rewrite Hiter. cbn [and_then].
        destruct (strip_loop_total entries [] Hall) as [out Hout].
        rewrite Hout. cbn [and_then]. eexists. reflexivity.
      * cbn [and_then]. eexists. reflexivity.
Qed.




Lemma normalize_product_succeeds_iff_witness :
  exists record,
    _normalize_product (VDict [("category_path", VStr "ab")]) = Ok record.
Proof.
  apply (proj2 (normalize_product_succeeds_iff
                  (VDict [("category_path", VStr "ab")]))).
  exists [("category_path", VStr "ab")]. split; [reflexivity|].
  right. exists [VStr "a"; VStr "b"]. split; [reflexivity|].
  repeat constructor; intros _; eexists; reflexivity.
Defined.

End RecordFacts.

(** ** Search hits *)
Module HitFacts.
Import Oxylabs Trace.

(** X3.  [_extract_search_results] puts the organic hits before the
    paid ones; anything that is not a dict gives no hits; and a
    [results] key that does not hold a dict gives no hits even when a
    [products] list is present, which is used only in the absence of
    [results]. *)
Theorem extract_search_results_cases :
  (forall content,
      (forall c, content <> VDict c) -> _extract_search_results content = Ok [])
  /\ (forall c results organic paid,
         lookup "results" c = Some (VDict results) ->
         (lookup "organic" results = None /\ organic = []
          \/ lookup "organic" results = Some (VList organic)) ->
         (lookup "paid" results = None /\ paid = []
          \/ lookup "paid" results = Some (VList paid)) ->
         _extract_search_results (VDict c) = Ok (organic ++ paid))
  /\ (forall c v,
         lookup "results" c = Some v ->
         (forall results, v <> VDict results) ->
         _extract_search_results (VDict c) = Ok [])
  /\ (forall c products,
         lookup "results" c = None ->
         lookup "products" c = Some (VList products) ->
         _extract_search_results (VDict c) = Ok products).
Proof.
  repeat split.
  - intros content Hnot. destruct content; try reflexivity.
    now elim (Hnot fields).
  - intros c results organic paid Hres Horg Hpaid.
    unfold _extract_search_results, has_key, get, get_default.
    rewrite Hres.
    destruct Horg as [[-> ->] | ->], Hpaid as [[-> ->] | ->]; reflexivity.
  - intros c v Hres Hnot.
    unfold _extract_search_results, has_key, get, get_default.
    rewrite Hres. destruct v; try reflexivity. now elim (Hnot fields).
  - intros c products Hres Hprod.
    unfold _extract_search_results, has_key. now rewrite Hres, Hprod.
Qed.

Lemma extract_search_results_cases_witness :
  _extract_search_results
    (VDict [("results", VStr "none"); ("products", VList [VInt 1])]) = Ok []
  /\ _extract_search_results
       (VDict [("results",
                VDict [("paid", VList [VInt 2]);
                       ("organic", VList [VInt 1])])])
     = Ok [VInt 1; VInt 2].
Proof.
  split.
  - apply (proj1 (proj2 (proj2 extract_search_results_cases))
             _ (VStr "none")); [reflexivity | discriminate].
  - apply (proj1 (proj2 extract_search_results_cases)
             _ [("paid", VList [VInt 2]); ("organic", VList [VInt 1])]
             [VInt 1] [VInt 2]); [reflexivity | now right | now right].
Defined.

(** X4.  [_normalize_search_result] keeps an item exactly when it has
    a truthy title and a truthy [asin], looked for under [asin] first
    and under [product_asin] otherwise; the hit kept has the five keys
    of a search result and carries that [asin] and that title. *)
Theorem normalize_search_result_keeps :
  forall (i : list (string * value)),
    let asin := if truthy (get "asin" i) then get "asin" i
                else get "product_asin" i in
    (truthy asin && truthy (get "title" i) = false
     -> _normalize_search_result (VDict i) = Ok None)
    /\ (truthy asin && truthy (get "title" i) = true
        -> exists f,
            _normalize_search_result (VDict i) = Ok (Some (VDict f))
            /\ keys f = ["asin"; "title"; "category"; "price"; "rating"]
            /\ get "asin" f = asin
            /\ get "title" f = get "title" i).
Proof.
  intros i asin. subst asin.
  unfold _normalize_search_result, py_or. cbn [fields_of and_then].
  split; intros H; rewrite H; cbn [negb].
  - reflexivity.
  - eexists. split; [reflexivity|]. repeat split.
Qed.

Lemma normalize_search_result_keeps_witness :
  _normalize_search_result (VDict [("asin", VStr ""); ("title", VStr "Lamp")])
  = Ok None
  /\ exists f,
      _normalize_search_result
        (VDict [("asin", VStr ""); ("product_asin", VStr "B01");
                ("title", VStr "Lamp")]) = Ok (Some (VDict f))
      /\ keys f = ["asin"; "title"; "category"; "price"; "rating"]
      /\ get "asin" f = VStr "B01"
      /\ get "title" f = VStr "Lamp".
Proof.
  split.
  - apply (proj1 (normalize_search_result_keeps
                    [("asin", VStr ""); ("title", VStr "Lamp")])).
    reflexivity.
  - apply (proj2 (normalize_search_result_keeps
                    [("asin", VStr ""); ("product_asin", VStr "B01");
                     ("title", VStr "Lamp")])).
    reflexivity.
Defined.

End HitFacts.

(** ** Rules for [sound] and [yields] *)
Module TraceFacts.
Import Observe Trace WorldFacts.

Section Sound.

Variable P : event -> Prop.

Lemma sound_ret {A} (Q : A -> Prop) (a : A) : Q a -> sound P Q (ret a).
Proof.
  intros HQ w. exists []. cbn. rewrite add_log_nil.
  repeat split; [constructor|]. now intros a' [= <-].
Qed.

Lemma sound_lift {A} (Q : A -> Prop) (r : result A) :
  (forall a, r = Ok a -> Q a) -> sound P Q (lift r).
Proof.
  intros HQ w. exists []. cbn. rewrite add_log_nil.
  repeat split; [constructor | exact HQ].
Qed.

Lemma sound_getenv (name default : string) :
  sound P (fun _ => True) (getenv name default).
Proof.
  intros w. exists []. cbn. rewrite add_log_nil.
  repeat split; constructor.
Qed.

Lemma sound_emit (e : event) : P e -> sound P (fun _ => True) (emit e).
Proof.
  intros He w. exists [e]. cbn. repeat split. now constructor.
Qed.

Lemma sound_weaken {A} (Q Q' : A -> Prop) (m : M A) :
  (forall a, Q a -> Q' a) -> sound P Q m -> sound P Q' m.
Proof.
  intros HQ Hm w. destruct (Hm w) as [evs [Hw [Hp Ha]]].
  exists evs. repeat split; auto.
Qed.

Lemma sound_bind {A B} (Q : A -> Prop) (R : B -> Prop) (m : M A)
      (k : A -> M B) :
  sound P Q m -> (forall a, Q a -> sound P R (k a)) -> sound P R (bind m k).
Proof.
  intros Hm Hk w. destruct (Hm w) as [evs1 [Hw [Hp Ha]]].
  unfold bind. destruct (m w) as [[a|e] w1]; cbn [fst snd] in *.
  - destruct (Hk a (Ha a eq_refl) w1) as [evs2 [Hw2 [Hp2 Ha2]]].
    subst w1. exists (evs1 ++ evs2). rewrite Hw2, add_log_app.
    repeat split; [now apply Forall_app | assumption].
  - exists evs1. cbn. repeat split; [assumption | assumption | discriminate].
Qed.

Lemma sound_attempt {A} (Q : A -> Prop) (m : M A) :
  sound P Q m ->
  sound P (fun r => forall a, r = Ok a -> Q a) (attempt m).
Proof.
  intros Hm w. destruct (Hm w) as [evs [Hw [Hp Ha]]].
  exists evs. unfold attempt. destruct (m w) as [r w1]; cbn [fst snd] in *.
  repeat split; [assumption | assumption |].
  intros r' [= <-]. exact Ha.
Qed.

Lemma sound_for_each {X St} (Inv : St -> Prop) (xs : list X)
      (body : X -> St -> M St) :
  (forall x s, In x xs -> Inv s -> sound P Inv (body x s)) ->
  forall s, Inv s -> sound P Inv (for_each xs body s).
Proof.
  induction xs as [|x xs IH]; intros Hbody s Hs; cbn [for_each].
  - now apply sound_ret.
  - apply sound_bind with (Q := Inv).
    + apply Hbody; [now left | assumption].
    + intros s1 Hs1. apply IH; [|assumption].
      intros y s' Hy. apply Hbody. now right.
Qed.

End Sound.

(** Counting is a special case. *)
Lemma within_sound {A} (p : event -> bool) (Q : A -> Prop) (m : M A) :
  sound (fun e => p e = false) Q m -> within p 0 Q m.
Proof.
  intros Hm w. destruct (Hm w) as [evs [Hw [Hp Ha]]].
  exists evs. repeat split; [assumption | | assumption].
  unfold tally. clear Hw. induction Hp as [|e evs He Hevs IH]; cbn [filter];
    [cbn; lia|]. now rewrite He.
Qed.

Lemma sound_within {A} (p : event -> bool) (Q : A -> Prop) (m : M A) :
  within p 0 Q m -> sound (fun e => p e = false) Q m.
Proof.
  intros Hm w. destruct (Hm w) as [evs [Hw [Hp Ha]]].
  exists evs. repeat split; [assumption | | assumption].
  clear Hw. induction evs as [|e evs IH]; [constructor|].
  change (e :: evs) with ([e] ++ evs) in Hp. rewrite tally_app in Hp.
  unfold tally at 1 in Hp. cbn [filter] in Hp.
  destruct (p e) eqn:He; cbn in Hp; [lia|].
  constructor; [assumption | apply IH; lia].
Qed.

Section Yields.

Lemma yields_ret {A} (R : A -> list event -> Prop) (a : A) :
  R a [] -> yields R (ret a).
Proof.
  intros HR w. exists []. cbn. rewrite add_log_nil.
  split; [reflexivity|]. now intros a' [= <-].
Qed.

Lemma yields_lift {A} (R : A -> list event -> Prop) (r : result A) :
  (forall a, r = Ok a -> R a []) -> yields R (lift r).
Proof.
  intros HR w. exists []. cbn. rewrite add_log_nil. now split.
Qed.

Lemma yields_emit (R : unit -> list event -> Prop) (e : event) :
  R tt [e] -> yields R (emit e).
Proof.
  intros HR w. exists [e]. cbn. split; [reflexivity|]. now intros [] _.
Qed.

Lemma yields_weaken {A} (R R' : A -> list event -> Prop) (m : M A) :
  (forall a evs, R a evs -> R' a evs) -> yields R m -> yields R' m.
Proof.
  intros HR Hm w. destruct (Hm w) as [evs [Hw Ha]].
  exists evs. split; auto.
Qed.



End Yields.

End TraceFacts.

(** ** More on scraping and searching *)
Module ClientFacts.
Import Oxylabs Observe Trace WorldFacts TraceFacts ClientRuns.

(** X5.  [scrape_product_details] makes exactly one request, whatever
    comes back; a failure of the API is raised to the caller as it is;
    and a record that is returned has the fifteen fields of a product
    record, in a fixed order, the last two holding the domain and the
    location of the request. *)
Theorem scrape_product_details_stamps :
  forall (S : services) (a geo dom : value) (w : world),
    let run := scrape_product_details S a geo dom w in
    snd run
    = add_log [EvPost (username w) (password w) (product_payload a geo dom)] w
    /\ (forall e,
           answer S w (product_payload a geo dom) = Raise e ->
           fst run = Raise e)
    /\ (forall record,
           fst run = Ok record ->
           exists f,
             record = VDict f
             /\ keys f = [ "asin"; "url"; "brand"; "price"; "stock"; "title";
                           "rating"; "images"; "categories"; "category_path";
                           "currency"; "buybox"; "product_overview";
                           "amazon_domain"; "geo_location" ]
             /\ lookup "amazon_domain" f = Some dom
             /\ lookup "geo_location" f = Some geo).
Proof.
  intros S a geo dom w run. subst run.
  rewrite scrape_product_details_run. cbn [fst snd].
  split; [reflexivity|]. split.
  - intros e He. now rewrite He.
  - intros record.
    destruct (answer S w (product_payload a geo dom)) as [raw|e];
      [|discriminate].
    cbn [and_then]. unfold product_of_response, _normalize_product.
    destruct (_extract_content raw) as [| | | | | |c]; try discriminate.
    cbn [fields_of and_then].
    destruct (category_path_of c) as [cp|e]; [|discriminate].
    cbn [fields_of and_then].
    change (get "asin" (("asin", get "asin" c) :: _))
      with (get "asin" c).
    destruct (negb (truthy (get "asin" c))); intros [= <-];
      eexists; (split; [reflexivity|]); repeat split.
Qed.

Lemma scrape_product_details_stamps_witness :
  fst (scrape_product_details Scenarios.api_down (VStr "B01") (VStr "11511")
         (VStr "eg") Scenarios.blank) = Raise HTTPError
  /\ forall record,
      fst (scrape_product_details Scenarios.api_plain (VStr "B01")
             (VStr "11511") (VStr "eg") Scenarios.blank) = Ok record ->
      exists f,
        record = VDict f
        /\ keys f = [ "asin"; "url"; "brand"; "price"; "stock"; "title";
                      "rating"; "images"; "categories"; "category_path";
                      "currency"; "buybox"; "product_overview";
                      "amazon_domain"; "geo_location" ]
        /\ lookup "amazon_domain" f = Some (VStr "eg")
        /\ lookup "geo_location" f = Some (VStr "11511").
Proof.
  split.
  - apply (proj1 (proj2 (scrape_product_details_stamps Scenarios.api_down
                           (VStr "B01") (VStr "11511") (VStr "eg")
                           Scenarios.blank))).
    reflexivity.
  - apply (proj2 (proj2 (scrape_product_details_stamps Scenarios.api_plain
                           (VStr "B01") (VStr "11511") (VStr "eg")
                           Scenarios.blank))).
Defined.

(** *** The hits of a search are distinct *)

Lemma distinct_from_app (xs ys : list value) :
  forall seen,
    distinct_from seen (xs ++ ys)
    = distinct_from seen xs
      ++ distinct_from (seen ++ distinct_from seen xs) ys.
Proof.
  induction xs as [|x xs IH]; intros seen; cbn [app distinct_from].
  - now rewrite app_nil_r.
  - destruct (mem x seen); [apply IH|].
    cbn [app]. rewrite IH, <- app_assoc. reflexivity.
Qed.

Lemma distinct_snoc (seen : list value) (a : value) :
  distinct seen = seen -> mem a seen = false ->
  distinct (seen ++ [a]) = seen ++ [a].
Proof.
  unfold distinct. intros Hseen Ha.
  rewrite distinct_from_app, Hseen. cbn [app distinct_from].
  now rewrite Ha.
Qed.

Lemma asins_of_app (a b : list value) :
  asins_of (a ++ b) = asins_of a ++ asins_of b.
Proof. unfold asins_of. apply map_app. Qed.

(** What the loop over the items keeps true of [seen_asins] and
    [results]. *)
Lemma collect_item_invariant (item : value) (acc acc' : list value * list value) :
  fst acc = asins_of (snd acc) /\ distinct (fst acc) = fst acc
  /\ Forall (fun hit => exists f,
               hit = VDict f /\ truthy (get "asin" f) = true
               /\ truthy (get "title" f) = true) (snd acc) ->
  collect_item item acc = Ok acc' ->
  fst acc' = asins_of (snd acc') /\ distinct (fst acc') = fst acc'
  /\ Forall (fun hit => exists f,
               hit = VDict f /\ truthy (get "asin" f) = true
               /\ truthy (get "title" f) = true) (snd acc').
Proof.
  destruct acc as [seen results]. cbn [fst snd].
  intros [Hseen [Hdist Hhits]]. unfold collect_item, _normalize_search_result.
  destruct (fields_of item) as [i|e]; [|discriminate]. cbn [and_then].
  destruct (truthy (py_or (get "asin" i) (get "product_asin" i))
            && truthy (get "title" i)) eqn:Hkeep; cbn [negb and_then].
  - change (get "asin" [("asin", py_or (get "asin" i) (get "product_asin" i));
                        ("title", get "title" i);
                        ("category", get "category" i);
                        ("price", get "price" i);
                        ("rating", get "rating" i)])
      with (py_or (get "asin" i) (get "product_asin" i)).
    set (asin := py_or (get "asin" i) (get "product_asin" i)) in *.
    destruct (hashable asin); [|discriminate].
    destruct (mem asin seen) eqn:Hmem; intros [= <-]; cbn [fst snd].
    + now repeat split.
    + apply andb_true_iff in Hkeep as [Ha Ht].
      rewrite asins_of_app, <- Hseen. repeat split.
      * now apply distinct_snoc.
      * apply Forall_app. split; [assumption|].
        constructor; [|constructor]. eexists. split; [reflexivity|].
        now split.
  - intros [= <-]. now repeat split.
Qed.

(** X6.  The hits [search_competitors] returns have pairwise distinct
    ASINs, whatever the pages hold and however often a product comes
    back, and each hit has a truthy [asin] and a truthy title. *)
Theorem search_competitors_distinct :
  forall (S : services) (q dom : value) (cats : option (list value))
         (pages : Z) (geo : value) (w : world) (results : list value),
    fst (search_competitors S q dom cats pages geo w) = Ok results ->
    distinct (asins_of results) = asins_of results
    /\ Forall (fun hit => exists f,
                 hit = VDict f /\ truthy (get "asin" f) = true
                 /\ truthy (get "title" f) = true) results.
Proof.
  intros S q dom cats pages geo w results.
  set (Inv := fun acc : list value * list value =>
                fst acc = asins_of (snd acc) /\ distinct (fst acc) = fst acc
                /\ Forall (fun hit => exists f,
                             hit = VDict f /\ truthy (get "asin" f) = true
                             /\ truthy (get "title" f) = true) (snd acc)).
  assert (Hsound :
    sound (fun _ => True)
      (fun results =>
         distinct (asins_of results) = asins_of results
         /\ Forall (fun hit => exists f,
                      hit = VDict f /\ truthy (get "asin" f) = true
                      /\ truthy (get "title" f) = true) results)
      (search_competitors S q dom cats pages geo)).
  { unfold search_competitors.
    apply sound_bind with (Q := fun _ => True); [now apply sound_emit|].
    intros _ _. apply sound_bind with (Q := fun _ => True);
      [now apply sound_lift|].
    intros t _. apply sound_bind with (Q := Inv).
    { apply sound_for_each with (Inv := Inv);
        [|now repeat split; constructor].
      intros sort_by acc _ Hacc.
      apply sound_for_each with (Inv := Inv); [|assumption].
      intros page acc1 _ Hacc1. unfold search_page.
      apply sound_bind with (Q := fun _ => True).
      { intros w0. rewrite post_query_run. eexists. cbn [fst snd].
        split; [reflexivity|]. split; [now repeat constructor | trivial]. }
      intros raw _. apply sound_bind with (Q := fun _ => True);
        [now apply sound_lift|].
      intros items _. apply sound_bind with (Q := Inv).
      { apply sound_lift. intros acc2.
        apply (ServicesFacts.for_pure_invariant Inv); [|assumption].
        intros x s s'. apply collect_item_invariant. }
      intros acc2 Hacc2. apply sound_bind with (Q := fun _ => True);
        [now apply sound_emit|].
      intros _ _. now apply sound_ret. }
    intros acc [Hseen [Hdist Hhits]].
    apply sound_bind with (Q := fun _ => True); [now apply sound_emit|].
    intros _ _. apply sound_ret. split; [|assumption].
    now rewrite <- Hseen. }
  destruct (Hsound w) as [evs [_ [_ Hok]]]. exact (Hok results).
Qed.

Lemma search_competitors_distinct_witness :
  exists results,
    fst (search_competitors Scenarios.api_plain (VStr "Desk Lamp")
           (VStr "eg") None 2 (VStr "11511") Scenarios.blank) = Ok results
    /\ length results = 3
    /\ distinct (asins_of results) = asins_of results.
Proof.
  eexists. split; [vm_compute; reflexivity|]. split; [reflexivity|].
  apply (search_competitors_distinct Scenarios.api_plain (VStr "Desk Lamp")
           (VStr "eg") None 2 (VStr "11511") Scenarios.blank).
  vm_compute. reflexivity.
Defined.

(** *** The requests of a search that returns *)






Lemma page_range_head (pages : Z) :
  exists rest, page_range pages = 1%Z :: rest.
Proof.
  unfold page_range.
  destruct (Z.to_nat (Z.max 1 pages)) as [|n] eqn:Hn; [lia|].
  cbn [seq map]. eexists. reflexivity.
Qed.

(** X8.  [search_competitors] has no recovery of its own: when the
    first request fails, the failure is raised to the caller after
    that single request, with no pause and no hits; and a title that
    is not a string makes it fail before any request is made. *)
Theorem search_competitors_aborts :
  forall (S : services) (dom : value) (cats : option (list value))
         (pages : Z) (geo : value) (w : world),
    (forall t e,
        answer S w (search_payload (_clean_search_title t) dom cats 1
                                   "featured" geo) = Raise e ->
        search_competitors S (VStr t) dom cats pages geo w
        = (Raise e,
           add_log [ EvUi "Searching for competitors..." [];
                     EvPost (username w) (password w)
                       (search_payload (_clean_search_title t) dom cats 1
                                       "featured" geo) ] w))
    /\ (forall q,
           (forall t, q <> VStr t) ->
           exists e,
             search_competitors S q dom cats pages geo w
             = (Raise e,
                add_log [EvUi "Searching for competitors..." []] w)).
Proof.
  intros S dom cats pages geo w. split.
  - intros t e Hfail. unfold search_competitors.
    destruct (page_range_head pages) as [rest ->].
    unfold bind at 1. unfold ui, emit. cbn [clean_search_title_of].
    unfold bind at 1. unfold lift at 1. unfold bind at 1.
    cbn [strategies for_each]. unfold bind at 1. unfold bind at 1.
    unfold search_page at 1. unfold bind at 1.
    rewrite post_query_run, answer_add_log by reflexivity.
    rewrite Hfail, add_log_app. reflexivity.
  - intros q Hq. unfold search_competitors, bind, ui, emit, lift.
    destruct q as [| | | |t| |]; try (eexists; reflexivity).
    now elim (Hq t).
Qed.

Lemma search_competitors_aborts_witness :
  search_competitors Scenarios.api_down (VStr "Desk Lamp - White") (VStr "eg")
    None 2 (VStr "11511") Scenarios.blank
  = (Raise HTTPError,
     add_log [ EvUi "Searching for competitors..." [];
               EvPost "" ""
                 (search_payload "Desk Lamp" (VStr "eg") None 1 "featured"
                                 (VStr "11511")) ] Scenarios.blank)
  /\ exists e,
      search_competitors Scenarios.api_plain VNone (VStr "eg") None 2
        (VStr "11511") Scenarios.blank
      = (Raise e,
         add_log [EvUi "Searching for competitors..." []] Scenarios.blank).
Proof.
  split.
  - apply (proj1 (search_competitors_aborts Scenarios.api_down (VStr "eg")
                    None 2 (VStr "11511") Scenarios.blank)
             "Desk Lamp - White" HTTPError).
    reflexivity.
  - apply (proj2 (search_competitors_aborts Scenarios.api_plain (VStr "eg")
                    None 2 (VStr "11511") Scenarios.blank) VNone).
    discriminate.
Defined.

End ClientFacts.

(** ** More on the orchestration service *)
Module WorkflowFacts.
Import Oxylabs Services Observe Trace WorldFacts TraceFacts ClientRuns.

(** X9.  [scrape_and_store_product] makes one request; when the scrape
    succeeds it inserts the scraped record, once, and returns it; when
    the scrape fails the failure is raised and nothing is inserted. *)
Theorem scrape_and_store_product_inserts :
  forall (S : services) (asin geo domain : string) (w : world),
    let run := scrape_and_store_product S asin geo domain w in
    let request :=
      EvPost (username w) (password w)
        (product_payload (VStr asin) (VStr geo) (VStr domain)) in
    (forall record,
        fst run = Ok record ->
        snd run = add_log [request; EvDbInsert record] w
        /\ store (snd run) = store w ++ [record])
    /\ (forall e,
           fst run = Raise e ->
           snd run = add_log [request] w /\ store (snd run) = store w).
Proof.
  intros S asin geo domain w run request. subst run request.
  unfold scrape_and_store_product, bind.
  rewrite scrape_product_details_run.
  destruct (and_then _ _) as [data|e0]; cbn [fst snd Db.insert_product].
  - split; [|discriminate]. intros record [= <-].
    rewrite add_log_app. split; [reflexivity|].
    now rewrite ServicesFacts.store_add_log.
  - split; [discriminate|]. intros e _. split; [reflexivity|].
    rewrite ServicesFacts.store_add_log. cbn [inserted]. apply app_nil_r.
Qed.

Lemma scrape_and_store_product_inserts_witness :
  (forall record,
      fst (scrape_and_store_product Scenarios.api_plain "B01" "11511" "eg"
             Scenarios.blank) = Ok record ->
      store (snd (scrape_and_store_product Scenarios.api_plain "B01" "11511"
                    "eg" Scenarios.blank))
      = store Scenarios.blank ++ [record])
  /\ store (snd (scrape_and_store_product Scenarios.api_down "B01" "11511"
                   "eg" Scenarios.blank))
     = store Scenarios.blank.
Proof.
  split.
  - intros record Hrun.
    apply (proj1 (scrape_and_store_product_inserts Scenarios.api_plain "B01"
                    "11511" "eg" Scenarios.blank) record Hrun).
  - apply (proj2 (scrape_and_store_product_inserts Scenarios.api_down "B01"
                    "11511" "eg" Scenarios.blank) HTTPError).
    reflexivity.
Defined.

(** X10.  When the store holds no product with the parent's ASIN,
    [fetch_and_store_competitors] returns the empty list having only
    looked the parent up: no request, no insert, nothing shown. *)
Theorem fetch_and_store_competitors_without_parent :
  forall (S : services) (I : interp) (parent_asin domain geo_location : string)
         (pages : Z) (w : world),
    find (Db.field_is "asin" (VStr parent_asin)) (store w) = None ->
    fetch_and_store_competitors S I parent_asin domain geo_location pages w
    = (Ok [], add_log [EvDbGet (VStr parent_asin)] w).
Proof.
  intros S I parent_asin domain geo_location pages w Hnone.
  unfold fetch_and_store_competitors, bind, Db.get_product.
  now rewrite Hnone.
Qed.

Lemma fetch_and_store_competitors_without_parent_witness :
  fetch_and_store_competitors Scenarios.api_plain Scenarios.plain "B0NONE"
    "com" "10001" 2 Scenarios.with_parent
  = (Ok [], add_log [EvDbGet (VStr "B0NONE")] Scenarios.with_parent).
Proof.
  apply fetch_and_store_competitors_without_parent. reflexivity.
Defined.

(** *** What is returned is what was stored *)

Lemma no_inserts (evs : list event) :
  tally is_insert evs <= 0 -> inserted evs = [].
Proof.
  intros H. pose proof (ServicesFacts.tally_zero_inserted _ _ H) as Hall.
  destruct (inserted evs) as [|r rest]; [reflexivity|].
  inversion Hall as [|? ? Hr _]. discriminate.
Qed.

Lemma yields_after_quiet {A B} (T : B -> list value -> Prop) (Q : A -> Prop)
      (m : M A) (k : A -> M B) :
  within is_insert 0 Q m ->
  (forall a, Q a -> yields (fun b evs => T b (inserted evs)) (k a)) ->
  yields (fun b evs => T b (inserted evs)) (bind m k).
Proof.
  intros Hm Hk w. destruct (Hm w) as [evs1 [Hw [Ht Ha]]].
  unfold bind. destruct (m w) as [[a|e] w1]; cbn [fst snd] in *.
  - destruct (Hk a (Ha a eq_refl) w1) as [evs2 [Hw2 Hb]].
    subst w1. exists (evs1 ++ evs2). rewrite Hw2, add_log_app.
    split; [reflexivity|]. intros b Hrun.
    rewrite ServicesFacts.inserted_app, (no_inserts _ Ht). cbn [app].
    now apply Hb.
  - exists evs1. cbn. split; [assumption | discriminate].
Qed.

Lemma yields_then_quiet {A B} (T : B -> list value -> Prop) (f : A -> B)
      (m : M A) (k : A -> M B) :
  yields (fun a evs => T (f a) (inserted evs)) m ->
  (forall a, within is_insert 0 (fun b => b = f a) (k a)) ->
  yields (fun b evs => T b (inserted evs)) (bind m k).
Proof.
  intros Hm Hk w. destruct (Hm w) as [evs1 [Hw Ha]].
  unfold bind. destruct (m w) as [[a|e] w1]; cbn [fst snd] in *.
  - destruct (Hk a w1) as [evs2 [Hw2 [Ht Hb]]].
    subst w1. exists (evs1 ++ evs2). rewrite Hw2, add_log_app.
    split; [reflexivity|]. intros b Hrun.
    rewrite ServicesFacts.inserted_app, (no_inserts _ Ht), app_nil_r.
    rewrite (Hb b Hrun). now apply Ha.
  - exists evs1. cbn. split; [assumption | discriminate].
Qed.

Lemma successes_length {A} (outs : list (result A)) :
  length (successes outs) <= length outs.
Proof.
  induction outs as [|[a|e] outs IH]; cbn [successes length]; lia.
Qed.

Lemma store_competitors_yields (parent_asin : string)
      (product_details : list value) :
  forall stored0,
    yields (fun stored evs =>
              stored = stored0 ++ inserted evs
              /\ length (inserted evs) = length product_details)
      (for_each product_details
         (fun comp stored_competitors =>
            c <- lift (fields_of comp) ;;
            let comp := VDict (set "parent_asin" (VStr parent_asin) c) in
            Db.insert_product comp ;;
            ret (stored_competitors ++ [comp]))%py
         stored0).
Proof.
  set (body := fun comp stored_competitors =>
                 (c <- lift (fields_of comp) ;;
                  let comp := VDict (set "parent_asin" (VStr parent_asin) c) in
                  Db.insert_product comp ;;
                  ret (stored_competitors ++ [comp]))%py).
  assert (Hbody : forall comp stored0 w,
    (exists c,
        body comp stored0 w
        = (Ok (stored0 ++ [VDict (set "parent_asin" (VStr parent_asin) c)]),
           add_log [EvDbInsert
                      (VDict (set "parent_asin" (VStr parent_asin) c))] w))
    \/ (exists e, body comp stored0 w = (Raise e, w))).
  { intros comp stored0 w.
    destruct comp as [| | | | | |c];
      try (right; eexists; reflexivity).
    left. exists c. reflexivity. }
  induction product_details as [|comp rest IH]; intros stored0 w;
    cbn [for_each].
  - exists []. cbn. rewrite add_log_nil. split; [reflexivity|].
    intros stored [= <-]. now rewrite app_nil_r.
  - unfold bind.
    destruct (Hbody comp stored0 w) as [[c Hb] | [e Hb]]; rewrite Hb.
    + destruct (IH (stored0
                      ++ [VDict (set "parent_asin" (VStr parent_asin) c)])
                  (add_log [EvDbInsert
                              (VDict (set "parent_asin" (VStr parent_asin) c))]
                           w))
        as [evs [Hw Hok]].
      eexists. rewrite Hw, add_log_app. split; [reflexivity|].
      intros stored Hrun. destruct (Hok stored Hrun) as [-> Hlen].
      cbn [app inserted length]. rewrite <- app_assoc, Hlen.
      split; reflexivity.
    + exists []. cbn [fst snd]. rewrite add_log_nil.
      split; [reflexivity | discriminate].
Qed.

(** X11.  When [fetch_and_store_competitors] returns, the list it
    returns is the list of the records it inserted, in the order of
    insertion, and there are at most 20 of them. *)
Theorem fetch_and_store_competitors_returns_stored :
  forall (S : services) (I : interp) (parent_asin domain geo_location : string)
         (pages : Z) (w : world) (stored : list value),
    let run := fetch_and_store_competitors S I parent_asin domain geo_location
                 pages w in
    fst run = Ok stored ->
    exists evs,
      snd run = add_log evs w
      /\ inserted evs = stored
      /\ store (snd run) = store w ++ stored
      /\ length stored <= 20.
Proof.
  intros S I parent_asin domain geo_location pages w stored run Hrun.
  subst run.
  assert (Hy :
    yields (fun stored evs => inserted evs = stored /\ length stored <= 20)
      (fetch_and_store_competitors S I parent_asin domain geo_location pages)).
  { unfold fetch_and_store_competitors.
    set (T := fun (stored : list value) (ins : list value) =>
                ins = stored /\ length stored <= 20).
    apply (yields_after_quiet T (fun _ => True)).
    { apply ServicesFacts.within_get_product. reflexivity. }
    intros parent _. destruct (negb (truthy parent)).
    { apply yields_ret. unfold T. cbn. split; [reflexivity | lia]. }
    apply (yields_after_quiet T (fun _ => True)); [now apply within_lift|].
    intros p _.
    apply (yields_after_quiet T (fun _ => True)); [now apply within_quiet|].
    intros _ _.
    apply (yields_after_quiet T (fun _ => True)); [now apply within_lift|].
    intros from_categories _.
    apply (yields_after_quiet T (fun _ => True)); [now apply within_lift|].
    intros from_path _.
    apply (yields_after_quiet T (fun _ => True)).
    { eapply within_weaken;
        [| |apply (ServicesFacts.within_search_categories_loop S is_insert)];
        try reflexivity.
      change (sweep_cost is_insert) with 0. lia. }
    intros all_results _.
    apply (yields_after_quiet T (fun _ => True)); [now apply within_lift|].
    intros candidates _.
    apply (yields_after_quiet T
             (fun products => length products <= 20)).
    { intros w0. rewrite scrape_multiple_products_run. cbn [fst snd].
      eexists. split; [reflexivity|]. split.
      - rewrite !tally_app.
        pose proof (tally_batch is_insert 0 (username w0) (password w0)
                      (get_default "geo_location" (VStr geo_location) p)
                      (get_default "amazon_domain" (VStr domain) p)
                      (length (take competitor_cap candidates))
                      (take competitor_cap candidates)) as Hb.
        rewrite Nat.mul_0_r in Hb.
        assert (H0 : forall a idx r,
                   In a (take competitor_cap candidates) ->
                   tally is_insert
                     (attempt_events (username w0) (password w0)
                        (get_default "geo_location" (VStr geo_location) p)
                        (get_default "amazon_domain" (VStr domain) p)
                        (length (take competitor_cap candidates)) idx a r)
                   <= 0).
        { intros a idx r _. destruct r; cbn; lia. }
        specialize (Hb H0 1
                      (fetch_outcomes S (username w0) (password w0)
                         (get_default "geo_location" (VStr geo_location) p)
                         (get_default "amazon_domain" (VStr domain) p)
                         (requests (log w0))
                         (take competitor_cap candidates))).
        change (tally is_insert [EvUi _ _; EvUi _ _; EvUi _ _]) with 0.
        change (tally is_insert [EvUi _ _; EvUi _ _; EvUi _ _]) with 0.
        lia.
      - intros products [= <-].
        eapply Nat.le_trans; [apply successes_length|].
        rewrite fetch_outcomes_length.
        apply (ServicesFacts.take_length competitor_cap). }
    intros product_details Hlen.
    apply (yields_then_quiet T (fun stored => stored)).
    { eapply yields_weaken; [|apply store_competitors_yields].
      cbn beta. intros stored0 evs [-> Hins]. unfold T. cbn [app].
      split; [reflexivity | lia]. }
    intros stored_competitors.
    apply (within_weaken is_insert (0 + 0) 0 (fun b => b = stored_competitors));
      [lia | trivial |].
    apply within_bind with (Q := fun _ => True).
    { apply ServicesFacts.within_show_summary. reflexivity. }
    intros _ _. now apply within_ret. }
  destruct (Hy w) as [evs [Hw Hok]]. destruct (Hok stored Hrun) as [Hins Hlen].
  exists evs. rewrite Hw, ServicesFacts.store_add_log, Hins.
  now repeat split.
Qed.

Lemma fetch_and_store_competitors_returns_stored_witness :
  exists stored evs,
    snd (fetch_and_store_competitors Scenarios.api_plain Scenarios.plain
           "B0PARENT" "com" "10001" 2 Scenarios.with_parent)
    = add_log evs Scenarios.with_parent
    /\ inserted evs = stored
    /\ length stored = 2.
Proof.
  destruct (fst (fetch_and_store_competitors Scenarios.api_plain
                   Scenarios.plain "B0PARENT" "com" "10001" 2
                   Scenarios.with_parent))
    as [stored|e] eqn:Hrun; [|vm_compute in Hrun; discriminate].
  destruct (fetch_and_store_competitors_returns_stored Scenarios.api_plain
              Scenarios.plain "B0PARENT" "com" "10001" 2
              Scenarios.with_parent stored Hrun)
    as [evs [Hw [Hins _]]].
  exists stored, evs. split; [exact Hw|]. split; [exact Hins|].
  vm_compute in Hrun. injection Hrun as <-. reflexivity.
Defined.

(** *** The requests are made in the parent's context *)
Section Context.

Variable S : services.
Variables d g : value.

Lemma search_payload_context (t : string) (cats : option (list value))
      (page : Z) (sort_by : string) (u pw : string) :
  in_context d g (EvPost u pw (search_payload t d cats page sort_by g)).
Proof.
  unfold search_payload.
  destruct cats as [[|first rest]|]; try (split; reflexivity).
  destruct (truthy first); split; reflexivity.
Qed.

Lemma sound_search_competitors_context (q : value)
      (cats : option (list value)) (pages : Z) :
  sound (in_context d g) (fun _ => True)
    (search_competitors S q d cats pages g).
Proof.
  unfold search_competitors.
  apply sound_bind with (Q := fun _ => True); [now apply sound_emit|].
  intros _ _. apply sound_bind with (Q := fun _ => True);
    [now apply sound_lift|].
  intros t _. apply sound_bind with (Q := fun _ => True).
  { apply sound_for_each with (Inv := fun _ => True); [|trivial].
    intros sort_by acc _ _.
    apply sound_for_each with (Inv := fun _ => True); [|trivial].
    intros page acc1 _ _. unfold search_page.
    apply sound_bind with (Q := fun _ => True).
    { intros w0. rewrite post_query_run. eexists. cbn [fst snd].
      split; [reflexivity|]. split; [|trivial].
      constructor; [apply search_payload_context | constructor]. }
    intros raw _. apply sound_bind with (Q := fun _ => True);
      [now apply sound_lift|].
    intros items _. apply sound_bind with (Q := fun _ => True);
      [now apply sound_lift|].
    intros acc2 _. apply sound_bind with (Q := fun _ => True);
      [now apply sound_emit|].
    intros _ _. now apply sound_ret. }
  intros acc _. apply sound_bind with (Q := fun _ => True);
    [now apply sound_emit|].
  intros _ _. now apply sound_ret.
Qed.

Lemma batch_events_context (u pw : string) (total : nat)
      (asins : list value) :
  forall (i : nat) (outs : list (result value)),
    Forall (in_context d g) (batch_events u pw g d total i asins outs).
Proof.
  induction asins as [|a asins IH]; intros i outs; cbn [batch_events];
    [constructor|].
  destruct outs as [|r outs]; [constructor|].
  apply Forall_app. split; [|apply IH].
  unfold attempt_events. destruct r; repeat constructor.
Qed.

Lemma sound_scrape_multiple_products_context (asins : list value) :
  sound (in_context d g) (fun _ => True)
    (scrape_multiple_products S asins g d).
Proof.
  intros w. rewrite scrape_multiple_products_run. cbn [fst snd].
  eexists. split; [reflexivity|]. split; [|trivial].
  apply Forall_app. split; [repeat constructor|].
  apply Forall_app. split; [apply batch_events_context | repeat constructor].
Qed.

End Context.

(** X12.  Every request [fetch_and_store_competitors] makes, search or
    detail, is made for the domain and the location recorded on the
    parent product when it has them, and for those of the caller only
    when the parent record lacks them. *)
Theorem fetch_and_store_competitors_parent_context :
  forall (S : services) (I : interp) (parent_asin domain geo_location : string)
         (pages : Z) (w : world) (parent : list (string * value)),
    find (Db.field_is "asin" (VStr parent_asin)) (store w)
    = Some (VDict parent) ->
    exists evs,
      snd (fetch_and_store_competitors S I parent_asin domain geo_location
             pages w) = add_log evs w
      /\ Forall (in_context
                   (get_default "amazon_domain" (VStr domain) parent)
                   (get_default "geo_location" (VStr geo_location) parent))
                evs.
Proof.
  intros S I parent_asin domain geo_location pages w parent Hfind.
  assert (Htruthy : truthy (VDict parent) = true).
  { apply find_some in Hfind as [_ Hasin]. destruct parent; [|reflexivity].
    discriminate. }
  unfold fetch_and_store_competitors. unfold bind at 1.
  cbn [Db.get_product]. rewrite Hfind, Htruthy. cbn [negb].
  set (d := get_default "amazon_domain" (VStr domain) parent).
  set (g := get_default "geo_location" (VStr geo_location) parent).
  match goal with
  | |- exists evs, snd (?m ?w1) = _ /\ _ =>
      assert (Hs : sound (in_context d g) (fun _ => True) m)
  end.
  { apply sound_bind with (Q := fun p => p = parent).
    { apply sound_lift. now intros p [= <-]. }
    intros p ->. fold d g.
    apply sound_bind with (Q := fun _ => True); [now apply sound_emit|].
    intros _ _. apply sound_bind with (Q := fun _ => True);
      [now apply sound_lift|].
    intros from_categories _. apply sound_bind with (Q := fun _ => True);
      [now apply sound_lift|].
    intros from_path _. apply sound_bind with (Q := fun _ => True).
    { unfold search_categories_loop.
      apply sound_for_each with (Inv := fun _ => True); [|trivial].
      intros category all_results _ _.
      apply sound_bind with (Q := fun _ => True); [now apply sound_lift|].
      intros query_title _. apply sound_bind with (Q := fun _ => True);
        [apply sound_search_competitors_context|].
      intros search_results _. now apply sound_ret. }
    intros all_results _. apply sound_bind with (Q := fun _ => True);
      [now apply sound_lift|].
    intros candidates _. apply sound_bind with (Q := fun _ => True);
      [apply sound_scrape_multiple_products_context|].
    intros product_details _. apply sound_bind with (Q := fun _ => True).
    { unfold store_competitors.
      apply sound_for_each with (Inv := fun _ => True); [|trivial].
      intros comp stored _ _.
      apply sound_bind with (Q := fun _ => True); [now apply sound_lift|].
      intros c _. apply sound_bind with (Q := fun _ => True).
      - intros w0. eexists. cbn [Db.insert_product fst snd].
        split; [reflexivity|]. split; [now repeat constructor | trivial].
      - intros _ _. now apply sound_ret. }
    intros stored _. apply sound_bind with (Q := fun _ => True).
    { unfold show_summary.
      apply sound_bind with (Q := fun _ => True); [now apply sound_emit|].
      intros _ _. apply sound_bind with (Q := fun _ => True).
      - apply sound_for_each with (Inv := fun _ => True); [|trivial].
        intros comp u _ _.
        apply sound_bind with (Q := fun _ => True); [now apply sound_lift|].
        intros c _. apply sound_bind with (Q := fun _ => True).
        + destruct (is_number _); [now apply sound_lift | now apply sound_ret].
        + intros _ _. now apply sound_emit.
      - intros _ _. now apply sound_emit. }
    intros _ _. now apply sound_ret. }
  match goal with
  | |- exists evs, snd (?m ?w1) = _ /\ _ =>
      destruct (Hs w1) as [evs [Hw [Hall _]]]
  end.
  exists ([EvDbGet (VStr parent_asin)] ++ evs).
  rewrite Hw, add_log_app. split; [reflexivity|].
  apply Forall_app. split; [now repeat constructor | assumption].
Qed.

Lemma fetch_and_store_competitors_parent_context_witness :
  exists evs,
    snd (fetch_and_store_competitors Scenarios.api_plain Scenarios.plain
           "B0PARENT" "com" "10001" 2 Scenarios.with_parent)
    = add_log evs Scenarios.with_parent
    /\ Forall (in_context (VStr "eg") (VStr "11511")) evs.
Proof.
  apply (fetch_and_store_competitors_parent_context Scenarios.api_plain
           Scenarios.plain "B0PARENT" "com" "10001" 2 Scenarios.with_parent
           [ ("asin", VStr "B0PARENT");
             ("title", VStr "Desk Lamp - White | LED");
             ("categories", VList [VStr "Lighting"]);
             ("category_path", VList []);
             ("amazon_domain", VStr "eg");
             ("geo_location", VStr "11511") ]).
  reflexivity.
Defined.

End WorkflowFacts.

(** ** More on the analysis engine *)
Module AnalysisFacts.
Import Oxylabs Llm Observe Trace WorldFacts TraceFacts ClientRuns.

Lemma competitors_filter (parent_asin : string) (w : world) :
  filter (fun record =>
            forallb (fun kv => Db.field_is (fst kv) (snd kv) record)
                    [("parent_asin", VStr parent_asin)])
         (store w)
  = competitors_of parent_asin w.
Proof.
  unfold competitors_of. apply filter_ext. intros record. cbn.
  apply andb_true_r.
Qed.

Lemma has_report_keys_items (c : list (string * value)) :
  has_report_keys (VDict c) = true ->
  exists a t p r,
    item "asin" c = Ok a /\ item "title" c = Ok t
    /\ item "price" c = Ok p /\ item "rating" c = Ok r
    /\ get "asin" c = a.
Proof.
  unfold has_report_keys, has_key, item, get, get_default.
  destruct (lookup "asin" c) as [a|]; [|discriminate].
  destruct (lookup "title" c) as [t|]; [|discriminate].
  destruct (lookup "price" c) as [p|]; [|discriminate].
  destruct (lookup "rating" c) as [r|]; [|discriminate].
  intros _. now exists a, t, p, r.
Qed.

Lemma format_loop_ok (comps : list value) :
  Forall (fun record => has_report_keys record = true) comps ->
  forall acc,
  exists added,
    for_pure comps format_one acc = Ok (acc ++ added)
    /\ length added = length comps
    /\ asins_of added = asins_of comps
    /\ Forall (fun entry =>
                 exists f,
                   entry = VDict f
                   /\ keys f = [ "asin"; "title"; "price"; "currency";
                                 "rating"; "amazon_domain" ]) added.
Proof.
  induction 1 as [|comp comps Hcomp _ IH]; intros acc; cbn [for_pure].
  - exists []. rewrite app_nil_r. repeat split. constructor.
  - destruct comp as [| | | | | |c]; try discriminate.
    destruct (has_report_keys_items c Hcomp)
      as [a [t [p [r [Ha [Ht [Hp [Hr Hget]]]]]]]].
    unfold format_one at 1. cbn [fields_of and_then].
    rewrite Ha, Ht, Hp, Hr. cbn [and_then].
    destruct (IH (acc ++ [VDict [ ("asin", a); ("title", t); ("price", p);
                                  ("currency", get "currency" c);
                                  ("rating", r);
                                  ("amazon_domain", get "amazon_domain" c) ]]))
      as [added [Hrun [Hlen [Hasins Hkeys]]]].
    eexists. rewrite Hrun, <- app_assoc. split; [reflexivity|].
    cbn [app length asins_of map]. fold (asins_of added) (asins_of comps).
    rewrite Hlen, Hasins, Hget. repeat split.
    constructor; [|assumption]. eexists. split; reflexivity.
Qed.

Lemma format_loop_fails (comps : list value) :
  Forall (fun record => exists c, record = VDict c) comps ->
  Exists (fun record => has_report_keys record = false) comps ->
  forall acc, for_pure comps format_one acc = Raise KeyError.
Proof.
  induction 1 as [|comp comps [c ->] _ IH]; intros Hbad acc;
    [inversion Hbad|].
  cbn [for_pure].
  destruct (has_report_keys (VDict c)) eqn:Hkeys.
  - destruct (has_report_keys_items c Hkeys)
      as [a [t [p [r [Ha [Ht [Hp [Hr _]]]]]]]].
    unfold format_one at 1. cbn [fields_of and_then].
    rewrite Ha, Ht, Hp, Hr. cbn [and_then]. apply IH.
    inversion Hbad as [? ? Hhead | ? ? Htail]; subst; [|assumption].
    rewrite Hkeys in Hhead. discriminate.
  - unfold format_one. cbn [fields_of and_then].
    unfold has_report_keys, has_key in Hkeys. unfold item.
    destruct (lookup "asin" c); [|reflexivity].
    destruct (lookup "title" c); [|reflexivity].
    destruct (lookup "price" c); [|reflexivity].
    destruct (lookup "rating" c); [discriminate | reflexivity].
Qed.

(** X13.  [_format_competitors] reads the store once and changes
    nothing.  When every competitor record of the parent has the keys
    [asin], [title], [price] and [rating], it returns one entry per
    record, in the order of the store, with the same ASINs and six
    fixed keys; when the records are dicts and one of them lacks one
    of these keys, it raises [KeyError]. *)
Theorem format_competitors_entries :
  forall (parent_asin : string) (w : world),
    let run := _format_competitors parent_asin w in
    let comps := competitors_of parent_asin w in
    snd run
    = add_log [EvDbSearch (VDict [("parent_asin", VStr parent_asin)])] w
    /\ (Forall (fun record => has_report_keys record = true) comps ->
        exists entries,
          fst run = Ok entries
          /\ length entries = length comps
          /\ asins_of entries = asins_of comps
          /\ Forall (fun entry =>
                       exists f,
                         entry = VDict f
                         /\ keys f = [ "asin"; "title"; "price"; "currency";
                                       "rating"; "amazon_domain" ]) entries)
    /\ (Forall (fun record => exists c, record = VDict c) comps ->
        Exists (fun record => has_report_keys record = false) comps ->
        fst run = Raise KeyError).
Proof.
  intros parent_asin w run comps. subst run comps.
  unfold _format_competitors, bind, lift. cbn [Db.search_products].
  rewrite competitors_filter. cbn [fst snd].
  split; [reflexivity|]. split.
  - intros Hkeys.
    destruct (format_loop_ok _ Hkeys []) as [added [Hrun H]].
    exists added. split; [exact Hrun | exact H].
  - intros Hdicts Hbad. exact (format_loop_fails _ Hdicts Hbad []).
Qed.

Lemma format_competitors_entries_witness :
  (exists entries,
      fst (_format_competitors "B0PARENT" Scenarios.with_parent) = Ok entries
      /\ length entries
         = length (competitors_of "B0PARENT" Scenarios.with_parent))
  /\ fst (_format_competitors "B0PARENT"
            {| env := fun _ => None;
               persisted := [VDict [ ("asin", VStr "B01");
                                     ("parent_asin", VStr "B0PARENT") ]];
               log := [] |}) = Raise KeyError.
Proof.
  split.
  - destruct (proj1 (proj2 (format_competitors_entries "B0PARENT"
                              Scenarios.with_parent)))
      as [entries [Hrun [Hlen _]]]; [constructor|].
    now exists entries.
  - apply (proj2 (proj2 (format_competitors_entries "B0PARENT" _))).
    + repeat constructor. eexists. reflexivity.
    + left. reflexivity.
Defined.

(** A record scraped and marked as a competitor has the keys the
    analysis indexes. *)
Lemma scraped_has_report_keys (raw a geo dom v : value)
      (c : list (string * value)) :
  product_of_response raw a geo dom = Ok (VDict c) ->
  has_report_keys (VDict (set "parent_asin" v c)) = true.
Proof.
  unfold product_of_response, _normalize_product.
  destruct (_extract_content raw) as [| | | | | |content]; try discriminate.
  cbn [fields_of and_then].
  destruct (category_path_of content) as [cp|e]; [|discriminate].
  cbn [fields_of and_then].
  change (get "asin" (("asin", get "asin" content) :: _))
    with (get "asin" content).
  destruct (negb (truthy (get "asin" content))); intros [= <-]; reflexivity.
Qed.

Lemma short_inserts_none (evs : list event) :
  tally is_short_insert evs <= 0 ->
  Forall (fun record => has_report_keys record = true) (inserted evs).
Proof.
  intros H. eapply Forall_impl;
    [|exact (ServicesFacts.tally_zero_inserted _ _ H)].
  intros record Hrec. cbn [is_short_insert] in Hrec.
  now apply negb_false_iff in Hrec.
Qed.

(** X14.  The records [fetch_and_store_competitors] stores all have the
    keys [asin], [title], [price] and [rating]; so if the parent's
    competitors in the store were well formed before, they still are
    afterwards, and [_format_competitors] then succeeds on them. *)
Theorem discovered_competitors_format :
  forall (S : services) (I : interp) (parent_asin domain geo_location : string)
         (pages : Z) (w : world),
    let w' := snd (Services.fetch_and_store_competitors S I parent_asin
                     domain geo_location pages w) in
    (exists evs,
        w' = add_log evs w
        /\ Forall (fun record => has_report_keys record = true)
                  (inserted evs))
    /\ (Forall (fun record => has_report_keys record = true)
               (competitors_of parent_asin w) ->
        exists entries,
          fst (_format_competitors parent_asin w') = Ok entries
          /\ length entries = length (competitors_of parent_asin w')).
Proof.
  intros S I parent_asin domain geo_location pages w w'. subst w'.
  assert (Hw :
    within is_short_insert 0 (fun _ => True)
      (Services.fetch_and_store_competitors S I parent_asin domain
         geo_location pages)).
  { apply (ServicesFacts.within_fetch_and_store_competitors S I parent_asin
             is_short_insert 0); try reflexivity.
    - intros u pw geo dom total idx a r _ _. destruct r; cbn; lia.
    - intros a raw h u pw geo dom c _ _ _ Hrec. cbn [is_short_insert].
      now rewrite (scraped_has_report_keys _ _ _ _ _ _ Hrec). }
  destruct (Hw w) as [evs [Hrun [Ht _]]].
  pose proof (short_inserts_none _ Ht) as Hins.
  split; [now exists evs|].
  intros Hbefore. rewrite Hrun.
  assert (Hafter : Forall (fun record => has_report_keys record = true)
                          (competitors_of parent_asin (add_log evs w))).
  { unfold competitors_of in *. rewrite ServicesFacts.store_add_log.
    rewrite filter_app. apply Forall_app. split; [assumption|].
    apply Forall_forall. intros record Hin. apply filter_In in Hin as [Hin _].
    rewrite Forall_forall in Hins. now apply Hins. }
  destruct (format_loop_ok _ Hafter []) as [added [Hloop [Hlen _]]].
  exists added. unfold _format_competitors, bind, lift.
  cbn [Db.search_products]. rewrite competitors_filter. cbn [fst].
  split; [exact Hloop | exact Hlen].
Qed.

Lemma discovered_competitors_format_witness :
  exists entries,
    fst (_format_competitors "B0PARENT"
           (snd (Services.fetch_and_store_competitors Scenarios.api_plain
                   Scenarios.plain "B0PARENT" "com" "10001" 2
                   Scenarios.with_parent))) = Ok entries
    /\ length entries = 2.
Proof.
  destruct (proj2 (discovered_competitors_format Scenarios.api_plain
                     Scenarios.plain "B0PARENT" "com" "10001" 2
                     Scenarios.with_parent))
    as [entries [Hrun Hlen]]; [constructor|].
  exists entries. split; [exact Hrun|].
  rewrite Hlen. vm_compute. reflexivity.
Defined.

(** *** What the analysis leaves alone *)

Lemma sound_analyze_competition (S : services) (I : interp)
      (parent_asin : string) (P : event -> Prop) :
  (forall a, P (EvDbGet a)) ->
  (forall f, P (EvDbSearch f)) ->
  (forall inputs, P (EvLlm inputs)) ->
  sound P (fun _ => True) (analyze_competition S I parent_asin).
Proof.
  intros Hget Hsearch Hllm. unfold analyze_competition.
  apply sound_bind with (Q := fun _ => True); [apply sound_getenv|].
  intros key _. destruct (PyStr.is_empty (PyStr.strip key));
    [now apply sound_ret|].
  apply sound_bind with (Q := fun _ => True).
  { intros w. eexists. cbn [Db.get_product fst snd].
    split; [reflexivity|]. split; [|trivial]. now repeat constructor. }
  intros product _. apply sound_bind with (Q := fun _ => True).
  { unfold _format_competitors.
    apply sound_bind with (Q := fun _ => True).
    - intros w. eexists. cbn [Db.search_products fst snd].
      split; [reflexivity|]. split; [|trivial]. now repeat constructor.
    - intros comps _. now apply sound_lift. }
  intros competitors _. apply sound_bind with (Q := fun _ => True);
    [now apply sound_lift|].
  intros inputs _. apply sound_bind with (Q := fun _ => True).
  { unfold chain_invoke.
    apply sound_bind with (Q := fun _ => True); [now apply sound_emit|].
    intros _ _. now apply sound_lift. }
  intros result _. now apply sound_ret.
Qed.

(** X15.  [analyze_competition] never makes a scraping request and
    never writes to the store, whatever the key, the store and the
    LLM do; it calls the LLM at most once. *)
Theorem analyze_competition_reads_only :
  forall (S : services) (I : interp) (parent_asin : string) (w : world),
  exists evs,
    snd (analyze_competition S I parent_asin w) = add_log evs w
    /\ requests evs = []
    /\ inserted evs = []
    /\ store (snd (analyze_competition S I parent_asin w)) = store w
    /\ tally is_llm_call evs <= 1.
Proof.
  intros S I parent_asin w.
  destruct (sound_analyze_competition S I parent_asin
              (fun e => is_post e = false /\ is_insert e = false)
              (fun _ => conj eq_refl eq_refl)
              (fun _ => conj eq_refl eq_refl)
              (fun _ => conj eq_refl eq_refl) w)
    as [evs [Hw [Hquiet _]]].
  assert (Hcall :
    within is_llm_call 1 (fun _ => True)
      (analyze_competition S I parent_asin)).
  { unfold analyze_competition.
    apply (within_weaken is_llm_call (0 + 1) 1 (fun _ => True));
      [lia | trivial |].
    apply within_bind with (Q := fun _ => True);
      [now apply within_getenv|].
    intros key _. destruct (PyStr.is_empty (PyStr.strip key)).
    { apply (within_weaken is_llm_call 0 1 (fun _ => True));
        [lia | trivial | now apply within_ret]. }
    apply (within_weaken is_llm_call (0 + (0 + (0 + (1 + 0)))) 1
             (fun _ => True)); [lia | trivial |].
    apply within_bind with (Q := fun _ => True).
    { apply ServicesFacts.within_get_product. reflexivity. }
    intros product _. apply within_bind with (Q := fun _ => True).
    { apply within_sound. unfold _format_competitors.
      apply sound_bind with (Q := fun _ => True).
      - intros w0. eexists. cbn [Db.search_products fst snd].
        split; [reflexivity|]. split; [|trivial]. now repeat constructor.
      - intros comps _. now apply sound_lift. }
    intros competitors _. apply within_bind with (Q := fun _ => True);
      [now apply within_lift|].
    intros inputs _. apply within_bind with (Q := fun _ => True).
    { unfold chain_invoke.
      apply (within_weaken is_llm_call (1 + 0) 1 (fun _ => True));
        [lia | trivial |].
      apply within_bind with (Q := fun _ => True); [apply within_emit|].
      intros _ _. now apply within_lift. }
    intros result _. now apply within_ret. }
  destruct (Hcall w) as [evs' [Hw' [Ht _]]].
  rewrite Hw in Hw'. apply ServicesFacts.add_log_inj in Hw'. subst evs'.
  exists evs. rewrite Hw, ServicesFacts.store_add_log.
  assert (Hreq : requests evs = [] /\ inserted evs = []).
  { clear Hw Ht. induction Hquiet as [|e evs [Hp Hi] _ [IHr IHi]];
      [now split|].
    destruct e; try discriminate; cbn [requests inserted]; now split. }
  destruct Hreq as [Hreq Hins]. rewrite Hins, app_nil_r.
  now repeat split.
Qed.

(** X16.  With a key set, [analyze_competition] returns a report only
    as the rendering of what the LLM chain answered, the call to the
    chain being the last thing it did; and when it raises, either the
    chain was called once and the failure is the chain's, or the
    failure came from reading the store and the chain was never
    called. *)
Theorem analyze_competition_outcome :
  forall (S : services) (I : interp) (parent_asin key : string) (w : world),
    env w "OPENAI_API_KEY" = Some key ->
    PyStr.strip key <> "" ->
    exists evs,
      snd (analyze_competition S I parent_asin w) = add_log evs w
      /\ (forall report,
             fst (analyze_competition S I parent_asin w) = Ok report ->
             exists inputs result before,
               llm S inputs = Ok result
               /\ report = render I result
               /\ evs = before ++ [EvLlm inputs]
               /\ tally is_llm_call before = 0)
      /\ (forall e,
             fst (analyze_competition S I parent_asin w) = Raise e ->
             (exists inputs before,
                 llm S inputs = Raise e
                 /\ evs = before ++ [EvLlm inputs]
                 /\ tally is_llm_call before = 0)
             \/ tally is_llm_call evs = 0).
Proof.
  intros S I parent_asin key w Hkey Hset.
  remember (analyze_competition S I parent_asin w) as run eqn:Hrun.
  unfold analyze_competition in Hrun. unfold bind at 1 in Hrun.
  unfold getenv in Hrun. rewrite Hkey in Hrun.
  destruct (PyStr.strip key) as [|ch rest]; [now elim Hset|].
  cbn [PyStr.is_empty] in Hrun. unfold bind at 1 in Hrun.
  cbn [Db.get_product] in Hrun.
  set (product := match find _ (store w) with
                  | Some record => record
                  | None => VNone
                  end) in Hrun.
  unfold bind at 1 in Hrun. unfold _format_competitors, bind at 1 in Hrun.
  cbn [Db.search_products] in Hrun. unfold lift at 1 in Hrun.
  destruct (for_pure _ _ []) as [competitors|e0].
  - unfold bind at 1 in Hrun. unfold lift at 1 in Hrun.
    destruct (chain_inputs parent_asin product competitors) as [inputs|e0].
    + unfold chain_invoke, bind, emit, lift, ret in Hrun.
      rewrite !add_log_app in Hrun.
      destruct (llm S inputs) as [result|e0] eqn:Hllm; subst run;
        cbn [fst snd]; eexists; (split; [reflexivity|]); split;
        try discriminate.
      * intros report [= <-].
        exists inputs, result, [EvDbGet (VStr parent_asin);
                                EvDbSearch
                                  (VDict [("parent_asin", VStr parent_asin)])].
        now repeat split.
      * intros e [= <-]. left.
        exists inputs, [EvDbGet (VStr parent_asin);
                        EvDbSearch
                          (VDict [("parent_asin", VStr parent_asin)])].
        now repeat split.
    + rewrite !add_log_app in Hrun. subst run. cbn [fst snd].
      eexists. split; [reflexivity|].
      split; [discriminate|]. intros e _. now right.
  - rewrite !add_log_app in Hrun. subst run. cbn [fst snd].
    eexists. split; [reflexivity|].
    split; [discriminate|]. intros e _. now right.
Qed.

Lemma analyze_competition_outcome_witness :
  exists inputs result,
    llm Scenarios.llm_fixed inputs = Ok result
    /\ fst (analyze_competition Scenarios.llm_fixed Scenarios.plain
              "B0PARENT" Scenarios.with_key)
       = Ok (render Scenarios.plain result).
Proof.
  destruct (fst (analyze_competition Scenarios.llm_fixed Scenarios.plain
                   "B0PARENT" Scenarios.with_key))
    as [report|e] eqn:Hrun; [|vm_compute in Hrun; discriminate].
  destruct (analyze_competition_outcome Scenarios.llm_fixed Scenarios.plain
              "B0PARENT" "sk-test" Scenarios.with_key eq_refl
              ltac:(discriminate))
    as [evs [_ [Hok _]]].
  destruct (Hok report Hrun) as [inputs [result [before [Hllm [-> _]]]]].
  now exists inputs, result.
Defined.



End AnalysisFacts.

(** ** The dashboard *)
Module DashboardFacts.
Import Oxylabs Dashboard Observe Trace WorldFacts TraceFacts ClientRuns.

(** *** Pagination *)

Lemma firstn_add {A} (a b : nat) (xs : list A) :
  firstn (a + b) xs = firstn a xs ++ firstn b (skipn a xs).
Proof.
  revert xs. induction a as [|a IH]; intros xs; [reflexivity|].
  destruct xs as [|x xs]; cbn [Nat.add firstn skipn app].
  - now destruct b.
  - now rewrite IH.
Qed.

Lemma total_pages_bounds (count : Z) :
  (0 <= count)%Z ->
  (1 <= total_pages count)%Z
  /\ (count <= 5 * total_pages count)%Z
  /\ (0 < count -> 5 * (total_pages count - 1) < count)%Z.
Proof.
  intros Hcount. unfold total_pages, items_per_page.
  Z.to_euclidean_division_equations. lia.
Qed.

(** A page is the next five records after those of the pages before. *)
Lemma page_items_chunk {A} (products : list A) (k : nat) :
  page_items products (Z.of_nat (Datatypes.S k))
  = firstn 5 (skipn (5 * k) products).
Proof.
  unfold page_items, slice, clamp, items_per_page.
  set (n := length products).
  replace (Z.of_nat (Datatypes.S k) - 1)%Z with (Z.of_nat k) by lia.
  destruct (Z.ltb_spec (Z.of_nat k * 5) 0) as [Hneg|_]; [lia|].
  destruct (Z.ltb_spec (Z.min (Z.of_nat k * 5 + 5) (Z.of_nat n)) 0)
    as [Hneg|_]; [lia|].
  destruct (Nat.le_gt_cases n (5 * k)) as [Hpast|Hin].
  - replace (Z.to_nat (Z.max 0 (Z.min (Z.of_nat k * 5) (Z.of_nat n))))
      with n by lia.
    rewrite (skipn_all2 products) by (fold n; lia).
    rewrite (skipn_all2 products) by (fold n; lia).
    now rewrite !firstn_nil.
  - replace (Z.to_nat (Z.max 0 (Z.min (Z.of_nat k * 5) (Z.of_nat n))))
      with (5 * k) by lia.
    destruct (Nat.le_gt_cases (n - 5 * k) 5) as [Hlast|Hfull].
    + rewrite !firstn_all2; [reflexivity | |];
        rewrite length_skipn; fold n; lia.
    + f_equal. lia.
Qed.

Lemma concat_chunks {A} (products : list A) (pages : nat) :
  concat (map (fun k => firstn 5 (skipn (5 * k) products)) (seq 0 pages))
  = firstn (5 * pages) products.
Proof.
  induction pages as [|pages IH]; [reflexivity|].
  rewrite seq_S, map_app, concat_app, IH. cbn [map concat Nat.add].
  rewrite app_nil_r.
  replace (5 * Datatypes.S pages) with (5 * pages + 5) by lia.
  now rewrite firstn_add.
Qed.

(** X18.  The inventory is cut into [ceil(count / 5)] pages, at least
    one: every page the selector can hold shows at most five records,
    and at least one when there are products; and the pages, taken in
    order, show every product exactly once, in the order of the
    store. *)
Theorem pagination_partitions :
  forall (A : Type) (products : list A),
    let count := Z.of_nat (length products) in
    let last := total_pages count in
    (1 <= last /\ count <= 5 * last
     /\ (products <> [] -> 5 * (last - 1) < count))%Z
    /\ (forall page_number,
           (1 <= page_number <= last)%Z ->
           length (page_items products page_number) <= 5
           /\ (products <> [] ->
               1 <= length (page_items products page_number)))
    /\ concat (map (page_items products)
                   (map Z.of_nat (seq 1 (Z.to_nat last))))
       = products.
Proof.
  intros A products count last.
  destruct (total_pages_bounds count ltac:(lia)) as [Hone [Hup Hlow]].
  fold last in Hone, Hup, Hlow.
  assert (Hne : products <> [] -> (0 < count)%Z).
  { intros H. destruct products; [now elim H | cbn in count; lia]. }
  split; [auto|]. split.
  - intros page_number Hpage.
    replace page_number
      with (Z.of_nat (Datatypes.S (Z.to_nat (page_number - 1)))) by lia.
    rewrite page_items_chunk. split.
    + apply firstn_le_length.
    + intros H. specialize (Hlow (Hne H)).
      rewrite length_firstn, length_skipn.
      fold (Z.to_nat count) in *. lia.
  - rewrite <- seq_shift, !map_map.
    rewrite (map_ext _ (fun k => firstn 5 (skipn (5 * k) products)))
      by (intros k; apply page_items_chunk).
    rewrite concat_chunks. apply firstn_all2. lia.
Qed.

Lemma pagination_partitions_witness :
  length (page_items [1; 2; 3; 4; 5; 6; 7; 8; 9; 10; 11; 12] 3) <= 5
  /\ (1 <= length (page_items [1; 2; 3; 4; 5; 6; 7; 8; 9; 10; 11; 12] 3)).
Proof.
  destruct (proj1 (proj2 (pagination_partitions nat
                            [1; 2; 3; 4; 5; 6; 7; 8; 9; 10; 11; 12])) 3%Z)
    as [Hmost Hleast].
  - vm_compute. split; discriminate.
  - split; [exact Hmost | apply Hleast; discriminate].
Defined.

(** *** Product cards *)

Lemma quiet_events (evs : list event) :
  Forall (fun e => is_post e = false /\ is_insert e = false) evs ->
  requests evs = [] /\ inserted evs = [].
Proof.
  induction 1 as [|e evs [Hp Hi] _ [IHr IHi]]; [now split|].
  destruct e; try discriminate; cbn [requests inserted]; now split.
Qed.

Lemma sound_raise {A} (P : event -> Prop) (Q : A -> Prop) (e : exn) :
  sound P Q (raise e).
Proof.
  intros w. exists []. cbn. rewrite add_log_nil.
  repeat split; [constructor | discriminate].
Qed.

(** Drawing a card only talks to the dashboard. *)
Lemma sound_render_product_card (I : interp) (can_show : value -> bool)
      (product : value) (clicked : option string)
      (session : option value * list string) :
  sound (fun e => is_post e = false /\ is_insert e = false) (fun _ => True)
    (render_product_card I can_show product clicked session).
Proof.
  set (P := fun e => is_post e = false /\ is_insert e = false).
  assert (Hui : forall what args, sound P (fun _ => True) (ui what args)).
  { intros what args. apply sound_emit. now split. }
  unfold render_product_card. destruct session as [selection used].
  apply sound_bind with (Q := fun _ => True).
  { apply sound_weaken with (Q := fun r => forall a, r = Ok a -> True);
      [trivial|].
    apply sound_attempt. apply sound_bind with (Q := fun _ => True);
      [now apply sound_lift|].
    intros p _. destruct (truthy _); [|apply Hui].
    apply sound_bind with (Q := fun _ => True); [now apply sound_lift|].
    intros image _. destruct (can_show image);
      [apply Hui | apply sound_raise]. }
  intros shown _. apply sound_bind with (Q := fun _ => True).
  { destruct shown; [now apply sound_ret | apply Hui]. }
  intros _ _. apply sound_bind with (Q := fun _ => True);
    [now apply sound_lift|].
  intros p _. apply sound_bind with (Q := fun _ => True).
  { destruct (truthy _); [apply Hui|].
    apply sound_bind with (Q := fun _ => True); [now apply sound_lift|].
    intros a _. apply Hui. }
  intros _ _. apply sound_bind with (Q := fun _ => True).
  { destruct (is_number _); [now apply sound_lift | now apply sound_ret]. }
  intros _ _.
  do 5 (apply sound_bind with (Q := fun _ => True); [apply Hui|];
        intros _ _).
  apply sound_bind with (Q := fun _ => True); [now apply sound_lift|].
  intros a _. apply sound_bind with (Q := fun _ => True).
  { unfold button. destruct (existsb _ used); [apply sound_raise|].
    apply sound_bind with (Q := fun _ => True); [apply Hui|].
    intros _ _. now apply sound_ret. }
  intros [pressed used1] _. destruct pressed; [|now apply sound_ret].
  apply sound_bind with (Q := fun _ => True); [now apply sound_lift|].
  intros chosen _. now apply sound_ret.
Qed.

(** What a card returns or raises. *)
Lemma render_product_card_result (I : interp) (can_show : value -> bool)
      (fields : list (string * value)) (clicked : option string)
      (session : option value * list string) (w : world) :
  fst (render_product_card I can_show (VDict fields) clicked session w)
  = card_outcome I (VDict fields) clicked session.
Proof.
  destruct session as [selection used].
  unfold render_product_card, card_outcome, card_key, has_asin, titled,
    price_fits, fresh, has_key, button.
  set (key := fun a => button_key I a).
  unfold bind, attempt, lift, ui, emit, ret, raise, item.
  cbn [fields_of fst snd].
  set (price := get_default "price" (VStr "-") fields).
  set (title := get "title" fields).
  assert (Hget : get "asin" fields
                 = match lookup "asin" fields with
                   | Some a => a
                   | None => VNone
                   end) by reflexivity.
  rewrite Hget. clear Hget.
  destruct (truthy (get_default "images" (VList []) fields));
    [destruct (first_image _) as [image|e]; [destruct (can_show image)|]|];
    cbn [fst snd];
    destruct (truthy title);
    destruct (lookup "asin" fields) as [found|];
    cbn [fst snd negb andb]; try reflexivity;
    (destruct price as [| |n| | | |]; cbn [is_number fixed2 fst snd];
     [..|destruct (fits_float n); cbn [fst snd negb]| | | |]);
    try reflexivity;
    fold (key found);
    destruct (existsb (String.eqb (key found)) used);
    cbn [fst snd negb]; try reflexivity;
    destruct clicked as [k|]; try reflexivity;
    destruct (String.eqb k (key found)); reflexivity.
Qed.

(** X19.  A card is drawn for a dict record exactly when the record
    has an [asin], its price is not an int beyond the range of floats,
    and the key of its button is not used yet in the run.  It then
    returns the record's [asin] as the selection when its button is
    the one clicked, the selection as it was otherwise, and adds its
    key to those used.  It raises nothing but [KeyError] for a missing
    [asin], [OverflowError] for such a price and Streamlit's error for
    a used key: [KeyError] first when there is no title either, the
    price next.  An image that cannot be shown never makes it fail,
    and drawing makes no request and stores nothing. *)
Theorem render_product_card_outcome :
  forall (I : interp) (can_show : value -> bool)
         (fields : list (string * value)) (clicked : option string)
         (selection : option value) (used : list string) (w : world),
    let record := VDict fields in
    let key := card_key I record in
    let run :=
      render_product_card I can_show record clicked (selection, used) w in
    ((exists out, fst run = Ok out)
     <-> has_asin record = true /\ price_fits record = true
         /\ fresh key used = true)
    /\ (forall out,
           fst run = Ok out ->
           out = (match clicked with
                  | Some k =>
                      if String.eqb k key then Some (get "asin" fields)
                      else selection
                  | None => selection
                  end,
                  used ++ [key]))
    /\ (forall e,
           fst run = Raise e ->
           e = KeyError /\ has_asin record = false
           \/ e = OverflowError /\ price_fits record = false
           \/ e = StreamlitAPIException /\ has_asin record = true
              /\ price_fits record = true /\ fresh key used = false)
    /\ (has_asin record = false -> titled record = false ->
        fst run = Raise KeyError)
    /\ (price_fits record = false ->
        has_asin record = true \/ titled record = true ->
        fst run = Raise OverflowError)
    /\ exists evs,
         snd run = add_log evs w /\ requests evs = [] /\ inserted evs = [].
Proof.
  intros I can_show fields clicked selection used w record key run.
  assert (Hrun : fst run = card_outcome I record clicked (selection, used))
    by apply render_product_card_result.
  destruct (sound_render_product_card I can_show record clicked
              (selection, used) w) as [evs [Hw [Hquiet _]]].
  fold run in Hw. rewrite Hrun. clear Hrun.
  unfold card_outcome. fold key. cbn [fst snd].
  destruct (has_asin record), (titled record), (price_fits record),
    (fresh key used); cbn [negb andb];
    (split; [|split; [|split; [|split; [|split]]]];
    [ split;
      [ intros [out H]; first [discriminate H | now repeat split]
      | intros [H1 [H2 H3]];
        first [discriminate | eexists; reflexivity] ]
    | intros out H; first [discriminate H | now injection H as <-]
    | intros e H;
      first [ discriminate H
            | injection H as <-;
              first [ left; now repeat split
                    | right; left; now repeat split
                    | right; right; now repeat split ] ]
    | intros H1 H2; first [discriminate | reflexivity]
    | intros H1 [H2|H2]; first [discriminate | reflexivity]
    | exists evs; split; [exact Hw | now apply quiet_events] ]).
Qed.

Lemma render_product_card_outcome_witness :
  fst (render_product_card Scenarios.plain (fun _ => false)
         (VDict [("asin", VStr "B01"); ("images", VList [VStr "x"]);
                 ("price", VInt (2 ^ 1024))])
         (Some "analyze_B01") (None, []) Scenarios.blank)
  = Raise OverflowError.
Proof.
  apply (proj1 (proj2 (proj2 (proj2 (proj2
           (render_product_card_outcome Scenarios.plain (fun _ => false)
              [("asin", VStr "B01"); ("images", VList [VStr "x"]);
               ("price", VInt (2 ^ 1024))]
              (Some "analyze_B01") None [] Scenarios.blank)))))).
  - reflexivity.
  - left. reflexivity.
Defined.

(** *** A page of cards *)

Lemma used_iff (key : string) (used : list string) :
  fresh key used = true <-> ~ In key used.
Proof.
  unfold fresh. rewrite negb_true_iff. split.
  - intros H Hin. assert (Ht : existsb (String.eqb key) used = true).
    { apply existsb_exists. exists key. split; [assumption|].
      apply String.eqb_refl. }
    congruence.
  - intros H. destruct (existsb (String.eqb key) used) eqn:He;
      [|reflexivity].
    apply existsb_exists in He as [k [Hin Hk]].
    apply String.eqb_eq in Hk. subst k. contradiction.
Qed.

(** The loop over the cards returns what the cards return one after
    the other. *)
Lemma render_cards_result (I : interp) (can_show : value -> bool)
      (clicked : option string) (cards : list value) :
  Forall (fun record => has_asin record = true) cards ->
  forall session w,
    fst (render_cards I can_show cards clicked session w)
    = for_pure cards (fun record session =>
                        card_outcome I record clicked session) session.
Proof.
  unfold render_cards.
  induction 1 as [|record cards Hrec _ IH]; intros session w;
    cbn [for_each for_pure]; [reflexivity|].
  destruct record as [| | | | | |fields]; try discriminate.
  unfold bind.
  pose proof (render_product_card_result I can_show fields clicked session w)
    as Hcard.
  destruct (render_product_card I can_show (VDict fields) clicked session w)
    as [r w1].
  cbn [fst] in Hcard. subst r.
  destruct (card_outcome I (VDict fields) clicked session) as [s1|e];
    [apply IH | reflexivity].
Qed.

(** The loop of outcomes on records that have an [asin]. *)
Lemma card_loop (I : interp) (clicked : option string) (cards : list value) :
  Forall (fun record => has_asin record = true) cards ->
  forall selection used,
    match for_pure cards (fun record session =>
                            card_outcome I record clicked session)
                   (selection, used) with
    | Ok (_, used1) =>
        used1 = used ++ map (card_key I) cards
        /\ Forall (fun record => price_fits record = true) cards
        /\ NoDup (map (card_key I) cards)
        /\ (forall k, In k (map (card_key I) cards) -> ~ In k used)
    | Raise e =>
        (e = OverflowError \/ e = StreamlitAPIException)
        /\ ~ (Forall (fun record => price_fits record = true) cards
              /\ NoDup (map (card_key I) cards)
              /\ (forall k, In k (map (card_key I) cards) -> ~ In k used))
    end.
Proof.
  induction 1 as [|record cards Hrec _ IH]; intros selection used;
    cbn [for_pure map].
  - rewrite app_nil_r. repeat split; [constructor | constructor |].
    intros k [].
  - unfold card_outcome at 1. rewrite Hrec. cbn [negb andb fst snd].
    destruct (price_fits record) eqn:Hfits; cbn [negb].
    + destruct (fresh (card_key I record) used) eqn:Hfresh; cbn [negb].
      * pose proof (proj1 (used_iff _ _) Hfresh) as Hnew.
        match goal with
        | |- context [for_pure cards _ (?sel, _)] =>
            specialize (IH sel (used ++ [card_key I record]))
        end.
        destruct (for_pure cards _ _) as [[sel1 used1]|e].
        -- destruct IH as [-> [Hall [Hnd Hdisj]]].
           rewrite <- app_assoc. cbn [app].
           split; [reflexivity|]. split; [now constructor|]. split.
           ++ constructor; [|assumption].
              intros Hin. apply (Hdisj _ Hin). apply in_or_app.
              right. now left.
           ++ intros k [<- | Hin]; [assumption|].
              intros Hk. apply (Hdisj _ Hin). apply in_or_app. now left.
        -- destruct IH as [He Hnot]. split; [assumption|].
           intros [Hall [Hnd Hdisj]]. apply Hnot.
           inversion Hall; subst. inversion Hnd; subst.
           split; [assumption|]. split; [assumption|].
           intros k Hin Hk. apply in_app_or in Hk as [Hk | [<- | []]].
           ++ apply (Hdisj k); [now right | assumption].
           ++ contradiction.
      * split; [now right|]. intros [_ [_ Hdisj]].
        assert (Hin : In (card_key I record) used).
        { destruct (in_dec string_dec (card_key I record) used) as [H|H];
            [assumption|].
          apply used_iff in H. congruence. }
        apply (Hdisj (card_key I record)); [now left | assumption].
    + split; [now left|]. intros [Hall _]. inversion Hall; subst.
      congruence.
Qed.

Lemma slice_keeps {A} (P : A -> Prop) (products : list A) (page_number : Z) :
  Forall P products -> Forall P (page_items products page_number).
Proof.
  intros H. unfold page_items, slice.
  apply ServicesFacts.take_incl. rewrite Forall_forall in *.
  intros x Hin. apply H.
  rewrite <- (firstn_skipn (Z.to_nat
                (clamp (Z.of_nat (length products))
                       ((page_number - 1) * items_per_page))) products).
  apply in_or_app. now right.
Qed.

(** X20.  Every record [scrape_and_store_product] and
    [fetch_and_store_competitors] add to the store has an [asin],
    whatever the API answered.  A page of a store whose records all
    have one never fails for a missing [asin]: it is drawn exactly
    when no price on it is an int beyond the range of floats and no
    two of its records give the same button key; otherwise it raises
    [OverflowError] or Streamlit's error for the repeated key. *)
Theorem inventory_page_outcome :
  forall (S : services) (I : interp) (can_show : value -> bool) (w : world),
    Forall (fun record => has_asin record = true) (store w) ->
    (forall asin geo domain,
        Forall (fun record => has_asin record = true)
          (store (snd (Services.scrape_and_store_product S asin geo domain
                         w))))
    /\ (forall parent_asin domain geo pages,
           Forall (fun record => has_asin record = true)
             (store (snd (Services.fetch_and_store_competitors S I
                            parent_asin domain geo pages w))))
    /\ (forall page_number clicked selection,
           let cards := page_items (store w) page_number in
           let keys := map (card_key I) cards in
           let run :=
             render_cards I can_show cards clicked (selection, []) w in
           ((exists out, fst run = Ok out)
            <-> Forall (fun record => price_fits record = true) cards
                /\ NoDup keys)
           /\ (forall out, fst run = Ok out -> snd out = keys)
           /\ (forall e,
                  fst run = Raise e ->
                  e = OverflowError \/ e = StreamlitAPIException)).
Proof.
  intros S I can_show w Hbefore. split; [|split].
  - intros asin geo domain.
    unfold Services.scrape_and_store_product, bind.
    rewrite scrape_product_details_run.
    destruct (and_then _ _) as [data|e] eqn:Hdata;
      cbn [fst snd Db.insert_product];
      rewrite ?add_log_app, ServicesFacts.store_add_log;
      cbn [app inserted]; [|now rewrite app_nil_r].
    apply Forall_app. split; [assumption|]. constructor; [|constructor].
    destruct (answer S w _) as [raw|e]; [|discriminate].
    cbn [and_then] in Hdata.
    destruct (ScrapeFacts.product_of_response_asin _ _ _ _ _ Hdata)
      as [f [c [-> [_ Hasin]]]].
    cbn [has_asin]. unfold has_key. now rewrite Hasin.
  - intros parent_asin domain geo pages.
    assert (Hw :
      within is_short_insert 0 (fun _ => True)
        (Services.fetch_and_store_competitors S I parent_asin domain geo
           pages)).
    { apply (ServicesFacts.within_fetch_and_store_competitors S I parent_asin
               is_short_insert 0); try reflexivity.
      - intros u pw g dom total idx a r _ _. destruct r; cbn; lia.
      - intros a raw h u pw g dom c _ _ _ Hrec. cbn [is_short_insert].
        now rewrite (AnalysisFacts.scraped_has_report_keys _ _ _ _ _ _ Hrec). }
    destruct (Hw w) as [evs [Hrun [Ht _]]].
    rewrite Hrun, ServicesFacts.store_add_log.
    apply Forall_app. split; [assumption|].
    eapply Forall_impl; [|exact (AnalysisFacts.short_inserts_none _ Ht)].
    intros [| | | | | |f]; try discriminate.
    cbn [has_report_keys has_asin]. now destruct (has_key "asin" f).
  - intros page_number clicked selection cards keys run.
    assert (Hcards : Forall (fun record => has_asin record = true) cards)
      by now apply slice_keeps.
    subst run. rewrite (render_cards_result I can_show clicked cards Hcards).
    pose proof (card_loop I clicked cards Hcards selection []) as Hloop.
    fold keys in Hloop.
    destruct (for_pure cards _ _) as [[sel1 used1]|e].
    + destruct Hloop as [-> [Hall [Hnd _]]]. cbn [app]. split; [|split].
      * split; [now intros _ | intros _; eexists; reflexivity].
      * now intros out [= <-].
      * discriminate.
    + destruct Hloop as [He Hnot]. split; [|split].
      * split; [intros [out H]; discriminate|].
        intros [Hall Hnd]. exfalso. apply Hnot.
        split; [assumption|]. split; [assumption|]. now intros k _ [].
      * discriminate.
      * now intros e0 [= <-].
Qed.

Lemma inventory_page_outcome_witness :
  Forall (fun record => has_asin record = true)
    (store (snd (Services.fetch_and_store_competitors Scenarios.api_plain
                   Scenarios.plain "B0PARENT" "com" "10001" 2
                   Scenarios.with_parent))).
Proof.
  assert (Hbefore : Forall (fun record => has_asin record = true)
                           (store Scenarios.with_parent)).
  { constructor; [reflexivity | constructor]. }
  apply (proj1 (proj2 (inventory_page_outcome Scenarios.api_plain
                         Scenarios.plain (fun _ => true)
                         Scenarios.with_parent Hbefore))).
Defined.

(** *** The scrape action *)

(** X21.  The scrape action never raises.  With the button left alone
    or the ASIN field empty it does nothing.  Otherwise it makes one
    request, for the ASIN as typed: on success the record is stored
    and the selection is cleared; on failure nothing is stored, the
    selection stays and the failure is shown. *)
Theorem scrape_action_outcome :
  forall (S : services) (pressed : bool) (asin geo domain : string)
         (selection : option value) (w : world),
    let run := scrape_action S pressed asin geo domain selection w in
    let payload := product_payload (VStr asin) (VStr geo) (VStr domain) in
    (pressed = false \/ asin = "" -> run = (Ok selection, w))
    /\ (pressed = true -> asin <> "" ->
        requests (log (snd run)) = requests (log w) ++ [payload]
        /\ match (raw <~ answer S w payload ;;
                  product_of_response raw (VStr asin) (VStr geo)
                    (VStr domain))%py with
           | Ok record =>
               fst run = Ok None /\ store (snd run) = store w ++ [record]
           | Raise e =>
               fst run = Ok selection
               /\ store (snd run) = store w
               /\ In (EvUi "error: Scraping failed: {str(e)}"
                        [VStr (exn_name e)])
                     (log (snd run))
           end).
Proof.
  intros S pressed asin geo domain selection w run payload.
  subst run payload. unfold scrape_action. split.
  - intros [-> | ->]; [reflexivity | now destruct pressed].
  - intros -> Hasin.
    destruct asin as [|c rest]; [now elim Hasin|].
    cbn [PyStr.is_empty negb andb].
    set (asin := String c rest).
    remember (bind _ _ w) as run eqn:Hrun.
    unfold bind, attempt, Services.scrape_and_store_product, bind in Hrun.
    cbn [ui emit fst snd] in Hrun.
    rewrite scrape_product_details_run in Hrun.
    rewrite answer_add_log in Hrun by reflexivity.
    rewrite username_add_log, password_add_log in Hrun.
    destruct (and_then _ _) as [record|e];
      cbn [fst snd Db.insert_product ui emit ret bind] in Hrun;
      rewrite ?add_log_app in Hrun; cbn [app] in Hrun; subst run;
      unfold ret; cbn [fst snd];
      (split; [cbn [log add_log]; rewrite requests_app; reflexivity|]).
    + split; [reflexivity|]. now rewrite ServicesFacts.store_add_log.
    + split; [reflexivity|]. split.
      * rewrite ServicesFacts.store_add_log. cbn [inserted].
        apply app_nil_r.
      * cbn [log add_log]. apply in_or_app. right. cbn. tauto.
Qed.

Lemma scrape_action_outcome_witness :
  scrape_action Scenarios.api_plain false "B01" "11511" "eg" None
    Scenarios.blank = (Ok None, Scenarios.blank)
  /\ requests (log (snd (scrape_action Scenarios.api_down true "B01" "11511"
                           "eg" (Some (VStr "B00")) Scenarios.blank)))
     = [product_payload (VStr "B01") (VStr "11511") (VStr "eg")].
Proof.
  split.
  - apply (proj1 (scrape_action_outcome Scenarios.api_plain false "B01"
                    "11511" "eg" None Scenarios.blank)).
    left. reflexivity.
  - apply (proj2 (scrape_action_outcome Scenarios.api_down true "B01"
                    "11511" "eg" (Some (VStr "B00")) Scenarios.blank)).
    + reflexivity.
    + discriminate.
Defined.

(** *** The deep-dive block *)

(** The block first looks the selection's competitors up; the rest of
    the run starts from what the store held. *)
Lemma deep_dive_run (S : services) (I : interp) (selected domain geo : string)
      (refresh analyze : bool) (w : world) :
  PyStr.is_empty selected = false ->
  exists rest,
    deep_dive S I (Some selected) domain geo refresh analyze w
    = rest (competitors_of selected w)
        (add_log [EvUi "divider" [];
                  EvUi "subheader: Competition Deep-Dive: {selected_asin}"
                    [VStr selected];
                  EvDbSearch (VDict [("parent_asin", VStr selected)])] w)
    /\ (refresh = false ->
        forall record existing,
          sound (fun e => is_post e = false /\ is_insert e = false)
            (fun rerun => rerun = false) (rest (record :: existing)))
    /\ (forall (p : event -> bool) (n : nat),
           (forall what args, what <> "Searching for competitors..." ->
                              p (EvUi what args) = false) ->
           (forall a, p (EvDbGet a) = false) ->
           (forall f, p (EvDbSearch f) = false) ->
           (forall inputs, p (EvLlm inputs) = false) ->
           within p n (fun _ => True)
             (Services.fetch_and_store_competitors S I selected domain geo
                2) ->
           forall existing,
             within p
               ((match existing with [] => n | _ => 0 end)
                + (if refresh then n else 0))
               (fun _ => True) (rest existing)).
Proof.
  intros Hsel. unfold deep_dive. rewrite Hsel.
  match goal with
  | |- context [bind (Db.search_products _) ?k] => exists k
  end.
  split; [|split].
  - unfold bind at 1 2 3. cbn [ui emit Db.search_products fst snd].
    rewrite !add_log_app, ServicesFacts.store_add_log. cbn [app inserted].
    now rewrite app_nil_r, AnalysisFacts.competitors_filter.
  - intros -> record existing.
    apply sound_bind with (Q := fun _ => True).
    { apply sound_emit. now split. }
    intros _ _. destruct analyze; [|now apply sound_ret].
    apply sound_bind with (Q := fun _ => True);
      [apply sound_emit; now split|].
    intros _ _. apply sound_bind with (Q := fun _ => True).
    { apply AnalysisFacts.sound_analyze_competition; now split. }
    intros text _. apply sound_bind with (Q := fun _ => True);
      [apply sound_emit; now split|].
    intros _ _. apply sound_bind with (Q := fun _ => True);
      [apply sound_emit; now split|].
    intros _ _. now apply sound_ret.
  - intros p n Hui Hget Hsearch Hllm Hfetch existing.
    assert (Hshow : forall what args,
               what <> "Searching for competitors..." ->
               within p 0 (fun _ => True) (ui what args)).
    { intros what args Hne. apply within_quiet. now apply Hui. }
    apply within_bind with (Q := fun _ => True).
    + destruct existing as [|record existing].
      * apply (within_weaken p (0 + (n + 0)) n (fun _ => True));
          [lia | trivial |].
        apply within_bind with (Q := fun _ => True);
          [apply Hshow; discriminate|].
        intros _ _. apply within_bind with (Q := fun _ => True);
          [exact Hfetch|].
        intros comps _. apply Hshow. discriminate.
      * apply Hshow. discriminate.
    + intros _ _. destruct refresh.
      * apply (within_weaken p (0 + (n + 0)) n (fun _ => True));
          [lia | trivial |].
        apply within_bind with (Q := fun _ => True);
          [apply Hshow; discriminate|].
        intros _ _. apply within_bind with (Q := fun _ => True);
          [exact Hfetch|].
        intros _ _. now apply within_ret.
      * destruct analyze; [|now apply within_ret].
        apply (within_weaken p (0 + (0 + (0 + (0 + 0)))) 0 (fun _ => True));
          [lia | trivial |].
        apply within_bind with (Q := fun _ => True);
          [apply Hshow; discriminate|].
        intros _ _. apply within_bind with (Q := fun _ => True).
        { apply within_sound.
          now apply AnalysisFacts.sound_analyze_competition. }
        intros text _. apply within_bind with (Q := fun _ => True);
          [apply Hshow; discriminate|].
        intros _ _. apply within_bind with (Q := fun _ => True);
          [apply Hshow; discriminate|].
        intros _ _. now apply within_ret.
Qed.

(** X22.  When the store already holds a competitor of the selection
    and [Refresh Data] is not pressed, the deep-dive block works from
    the store alone: it makes no scraping request, stores nothing and
    does not restart the run, whether or not the analysis is asked
    for. *)
Theorem deep_dive_uses_cache :
  forall (S : services) (I : interp) (selected domain geo : string)
         (analyze : bool) (w : world),
    competitors_of selected w <> [] ->
    let run := deep_dive S I (Some selected) domain geo false analyze w in
    exists evs,
      snd run = add_log evs w
      /\ requests evs = []
      /\ inserted evs = []
      /\ store (snd run) = store w
      /\ fst run <> Ok true.
Proof.
  intros S I selected domain geo analyze w Hcached run. subst run.
  destruct (PyStr.is_empty selected) eqn:Hsel.
  { exists []. unfold deep_dive. rewrite Hsel. cbn [ret fst snd].
    rewrite add_log_nil. repeat split. discriminate. }
  destruct (deep_dive_run S I selected domain geo false analyze w Hsel)
    as [rest [-> [Hquiet _]]].
  destruct (competitors_of selected w) as [|record existing];
    [now elim Hcached|].
  destruct (Hquiet eq_refl record existing (add_log
              [EvUi "divider" [];
               EvUi "subheader: Competition Deep-Dive: {selected_asin}"
                 [VStr selected];
               EvDbSearch (VDict [("parent_asin", VStr selected)])] w))
    as [evs [Hw [Hevs Hret]]].
  destruct (quiet_events evs Hevs) as [Hreq Hins].
  eexists. rewrite Hw, add_log_app. split; [reflexivity|].
  rewrite requests_app, ServicesFacts.inserted_app, Hreq, Hins.
  rewrite ServicesFacts.store_add_log, ServicesFacts.inserted_app, Hins.
  cbn [app requests inserted]. rewrite app_nil_r.
  repeat split. intros Hrun. now specialize (Hret true Hrun).
Qed.

Lemma deep_dive_uses_cache_witness :
  let cached :=
    snd (Services.fetch_and_store_competitors Scenarios.api_plain
           Scenarios.plain "B0PARENT" "com" "10001" 2
           Scenarios.with_parent) in
  exists evs,
    snd (deep_dive Scenarios.api_plain Scenarios.plain (Some "B0PARENT")
           "com" "10001" false true cached) = add_log evs cached
    /\ requests evs = []
    /\ inserted evs = [].
Proof.
  intros cached.
  assert (Hcached : competitors_of "B0PARENT" cached <> []).
  { vm_compute. discriminate. }
  destruct (deep_dive_uses_cache Scenarios.api_plain Scenarios.plain
              "B0PARENT" "com" "10001" true cached Hcached)
    as [evs [Hw [Hreq [Hins _]]]].
  exists evs. split; [exact Hw|]. split; assumption.
Defined.

(** X23.  One run of the deep-dive block calls
    [fetch_and_store_competitors] at most twice, once to discover and
    once to refresh, and not at all without a selection; for each call
    it starts at most 3 competitor searches and requests the details
    of at most 20 candidates, so at most 6 and 40 in all. *)
Theorem deep_dive_volume :
  forall (S : services) (I : interp) (selected_asin : option string)
         (domain geo : string) (refresh analyze : bool) (w : world),
    let calls := discoveries selected_asin refresh w in
    calls <= 2
    /\ exists evs,
         snd (deep_dive S I selected_asin domain geo refresh analyze w)
         = add_log evs w
         /\ tally is_sweep_start evs <= 3 * calls
         /\ tally is_detail_request evs <= 20 * calls.
Proof.
  intros S I selected_asin domain geo refresh analyze w calls. subst calls.
  unfold discoveries.
  destruct selected_asin as [selected|];
    [|split; [lia|]; exists []; cbn; now rewrite add_log_nil].
  destruct (PyStr.is_empty selected) eqn:Hsel.
  { split; [lia|]. exists []. unfold deep_dive. rewrite Hsel. cbn.
    now rewrite add_log_nil. }
  split; [destruct (competitors_of selected w), refresh; cbn; lia|].
  destruct (deep_dive_run S I selected domain geo refresh analyze w Hsel)
    as [rest [-> [_ Hcount]]].
  set (w0 := add_log _ w).
  assert (Hsweep :
    within is_sweep_start 3 (fun _ => True)
      (Services.fetch_and_store_competitors S I selected domain geo 2)).
  { apply (ServicesFacts.within_fetch_and_store_competitors S I selected
             is_sweep_start 0); try reflexivity.
    - intros what args Hne. cbn. now apply String.eqb_neq.
    - intros u pw g dom total idx a r _ _. destruct r; cbn; lia. }
  assert (Hdetail :
    within is_detail_request 20 (fun _ => True)
      (Services.fetch_and_store_competitors S I selected domain geo 2)).
  { apply (ServicesFacts.within_fetch_and_store_competitors S I selected
             is_detail_request 1); try reflexivity.
    - intros u pw payload. apply ServicesFacts.source_exclusive.
    - intros u pw g dom total idx a r _ _. destruct r; cbn; lia. }
  destruct (Hcount is_sweep_start 3) with (existing := competitors_of selected w)
                                           (w := w0)
    as [evs [Hw [Hs _]]]; try reflexivity; try assumption.
  { intros what args Hne. cbn. now apply String.eqb_neq. }
  destruct (Hcount is_detail_request 20)
    with (existing := competitors_of selected w) (w := w0)
    as [evs' [Hw' [Hd _]]]; try reflexivity; try assumption.
  rewrite Hw in Hw'. apply ServicesFacts.add_log_inj in Hw'. subst evs'.
  eexists. subst w0. rewrite Hw, add_log_app. split; [reflexivity|].
  rewrite !tally_app.
  change (tally is_sweep_start [_; _; _]) with 0.
  change (tally is_detail_request [_; _; _]) with 0.
  destruct (competitors_of selected w), refresh; cbn in *; lia.
Qed.

(** *** The input row *)

Lemma strip_blank (s : string) :
  Forall (fun a => PyStr.ws1 a = true) (list_ascii_of_string s) ->
  PyStr.strip s = "".
Proof.
  intros Hblank. unfold PyStr.strip, PyStr.lstrip.
  assert (Hlead : PyStr.strip_lead true s = "").
  { induction s as [|a s IH]; [reflexivity|].
    cbn [list_ascii_of_string] in Hblank.
    inversion Hblank as [|? ? Ha Hrest]; subst.
    cbn [PyStr.strip_lead]. rewrite Ha. now apply IH. }
  now rewrite Hlead.
Qed.

(** X24.  The domain the input row returns is always one of the nine
    offered, and an ASIN field that holds nothing but blanks, tabs or
    line breaks counts as empty: pressing [Scrape Product Details]
    then does nothing at all. *)
Theorem blank_asin_scrapes_nothing :
  forall (S : services) (asin_text geo_text : string) (choice : nat)
         (pressed : bool) (selection : option value) (w : world),
    let '(asin, geo, domain) := render_inputs asin_text geo_text choice in
    In domain domains
    /\ (Forall (fun a => PyStr.ws1 a = true)
               (list_ascii_of_string asin_text) ->
        scrape_action S pressed asin geo domain selection w
        = (Ok selection, w)).
Proof.
  intros S asin_text geo_text choice pressed selection w.
  unfold render_inputs. split.
  - destruct (Nat.lt_ge_cases choice (length domains)) as [Hin|Hout].
    + now apply nth_In.
    + rewrite nth_overflow by assumption. now left.
  - intros Hblank. rewrite (strip_blank _ Hblank).
    unfold scrape_action. now destruct pressed.
Qed.

Lemma blank_asin_scrapes_nothing_witness :
  scrape_action Scenarios.api_plain true (PyStr.strip "  ")
    (PyStr.strip "11511") "eg" None Scenarios.blank
  = (Ok None, Scenarios.blank).
Proof.
  apply (proj2 (blank_asin_scrapes_nothing Scenarios.api_plain "  " "11511" 0
                  true None Scenarios.blank)).
  repeat constructor.
Defined.

End DashboardFacts.
